(** * PSIAnalyzer: the Population Stability Index of psi.py

    A shallow embedding of the class [PSIAnalyzer] of [psi.py] and the
    properties of its cut points, group proportions and PSI score.

    Numbers.  Samples, cut points and proportions are exact rationals ([Q]);
    the logarithm and the contributions built from it are real numbers ([R]).
    The special values a numpy [float64] can take besides a finite number
    (infinities and NaN) are kept, since the code reaches them.  Rounding of
    finite values is not modelled, with one exception: the percentile ranks
    [(100 / group) * counter] are also evaluated in IEEE binary64, because
    [np.percentile] accepts or rejects them by their binary64 value.  The
    cut points themselves are interpolated exactly, at the exact ranks;
    numpy interpolates in binary64 at the binary64 ranks, so its cut points
    can differ from these in the last places.  The largest sample is where
    this shows: when the last rank falls short of 100 in binary64 the last
    cut point of the code can lie under the largest sample.  Statements
    about the largest sample are therefore made on the stored cut points,
    or for the group counts whose last quantile is 1 in binary64
    ([maximum_reached]). *)

From Stdlib Require Import List ZArith QArith Qround Qminmax Qreals Lqa Reals
  Lra Lia PrimFloat Uint63 Bool String Sorted Permutation.
Import ListNotations.

(** ** Exceptions and fallible results *)

Inductive exn : Type :=
| ValueError (msg : string)
| IndexError (msg : string)
| TypeError (msg : string)
| ZeroDivisionError (msg : string).

Inductive result (A : Type) : Type :=
| Ok (a : A)
| Raise (e : exn).

Arguments Ok {A} a.
Arguments Raise {A} e.

(** ** Python floats

    A Python float is carried with two readings: the IEEE binary64 value the
    interpreter holds, and the exact rational the expression denotes. *)

Record pyfloat : Type := mk_pyfloat { binary64 : float; ideal : Q }.

(** The float of a Python [int]; the binary64 reading is exact for
    [0 <= z < 2^53], which covers every group count and counter in use. *)
Definition py_float (z : Z) : pyfloat :=
  {| binary64 := PrimFloat.of_uint63 (Uint63.of_Z z); ideal := inject_Z z |}.

Definition py_truediv (x y : pyfloat) : pyfloat :=
  {| binary64 := PrimFloat.div (binary64 x) (binary64 y);
     ideal := ideal x / ideal y |}.

Definition py_mul (x y : pyfloat) : pyfloat :=
  {| binary64 := PrimFloat.mul (binary64 x) (binary64 y);
     ideal := ideal x * ideal y |}.

(** [range(n)] *)
Definition range (n : Z) : list Z := map Z.of_nat (seq 0 (Z.to_nat n)).

(** ** numpy scalars: a finite value, an infinity, or NaN *)

Inductive float64 (A : Type) : Type :=
| Fin (x : A)
| PosInf
| NegInf
| NaN.

Arguments Fin {A} x.
Arguments PosInf {A}.
Arguments NegInf {A}.
Arguments NaN {A}.

Definition Qltb (x y : Q) : bool := negb (Qle_bool y x).

(** Number of samples of [a] that satisfy [mask]: [np.sum] of a boolean mask. *)
Definition count_mask (mask : Q -> bool) (a : list Q) : nat :=
  List.length (filter mask a).

Module np.

(** [np.sort]: the samples in non-decreasing order. *)
Fixpoint insert (x : Q) (l : list Q) : list Q :=
  match l with
  | [] => [x]
  | y :: l' => if Qle_bool x y then x :: l else y :: insert x l'
  end.

Definition sort (a : list Q) : list Q := fold_right insert [] a.

(** Linear interpolation between two order statistics. *)
Definition lerp (a b t : Q) : Q := a + (b - a) * t.

(** The quantile of a sorted array by numpy's default method, [linear]:
    the virtual index is [(n - 1) * quantile]; at or beyond the last index
    both neighbours are the last element, below 0 both are the first. *)
Definition linear_quantile (arr : list Q) (quantile : Q) : Q :=
  let n := Z.of_nat (List.length arr) in
  let virtual_index := inject_Z (n - 1) * quantile in
  if Qle_bool (inject_Z (n - 1)) virtual_index then last arr 0
  else if Qltb virtual_index 0 then hd 0 arr
  else
    let previous_index := Qfloor virtual_index in
    lerp (nth (Z.to_nat previous_index) arr 0)
         (nth (Z.to_nat (previous_index + 1)) arr 0)
         (virtual_index - inject_Z previous_index).

(** numpy's range check on the ranks, after dividing them by 100; it is
    decided on the binary64 values. *)
Definition quantile_is_valid (q : pyfloat) : bool :=
  (PrimFloat.leb (binary64 (py_float 0)) (binary64 q)
   && PrimFloat.leb (binary64 q) (binary64 (py_float 1)))%bool.

(** [np.percentile(a, q)] for a one-dimensional [a] and a list of ranks:
    the ranks are divided by 100 and checked, an empty array has no last
    element to read (an [IndexError] since numpy 1.22), and each quantile is
    interpolated in the sorted array.  The interpolation is exact, at the
    exact value of the quantile: numpy carries it out in binary64 at the
    binary64 value, which agrees up to rounding. *)
Definition percentile (a : list Q) (q : list pyfloat) : result (list Q) :=
  let q := map (fun r => py_truediv r (py_float 100)) q in
  if negb (forallb quantile_is_valid q) then
    Raise (ValueError "Percentiles must be in the range [0, 100]")
  else
    match a with
    | [] => Raise (IndexError "index -1 is out of bounds for axis 0 with size 0")
    | _ => Ok (map (fun r => linear_quantile (sort a) (ideal r)) q)
    end.

(** [np.searchsorted(bins, x, side='left')] on sorted [bins]: the first
    index [i] with [x <= bins[i]], or [len(bins)]. *)
Fixpoint searchsorted_left (bins : list Q) (x : Q) : nat :=
  match bins with
  | [] => O
  | b :: bins' => if Qle_bool x b then O else S (searchsorted_left bins' x)
  end.

Fixpoint monotonic (le : Q -> Q -> bool) (bins : list Q) : bool :=
  match bins with
  | [] => true
  | b :: bins' =>
      match bins' with
      | [] => true
      | c :: _ => (le b c && monotonic le bins')%bool
      end
  end.

(** [np.digitize(x, bins, right=True)]. *)
Definition digitize (x : list Q) (bins : list Q) : result (list Z) :=
  if monotonic Qle_bool bins then
    Ok (map (fun v => Z.of_nat (searchsorted_left bins v)) x)
  else if monotonic (fun b c => Qle_bool c b) bins then
    Ok (map (fun v => Z.of_nat (List.length bins - searchsorted_left (rev bins) v)) x)
  else Raise (ValueError "bins must be monotonically increasing or decreasing").

(** An integer count divided by a Python [int] length. *)
Definition true_divide (count len : nat) : float64 Q :=
  match len with
  | O => match count with O => NaN | S _ => PosInf end
  | S _ => Fin (Z.of_nat count # Pos.of_nat len)
  end.

(** [x == 0] on a scalar: NaN and the infinities are not equal to 0. *)
Definition eq0 (x : float64 Q) : bool :=
  match x with
  | Fin q => Qeq_bool q 0
  | _ => false
  end.

Definition sub (x y : float64 Q) : float64 Q :=
  match x, y with
  | NaN, _ | _, NaN => NaN
  | Fin a, Fin b => Fin (a - b)
  | PosInf, PosInf | NegInf, NegInf => NaN
  | PosInf, _ => PosInf
  | NegInf, _ => NegInf
  | Fin _, PosInf => NegInf
  | Fin _, NegInf => PosInf
  end.

(** The sign of a rational: the value of an infinity scaled by it. *)
Definition scale_inf {A : Type} (c : comparison) (pos : bool) : float64 A :=
  match c with
  | Eq => NaN
  | Gt => if pos then PosInf else NegInf
  | Lt => if pos then NegInf else PosInf
  end.

Definition div (x y : float64 Q) : float64 Q :=
  match x, y with
  | NaN, _ | _, NaN => NaN
  | Fin a, Fin b =>
      if Qeq_bool b 0 then scale_inf (a ?= 0) true else Fin (a / b)
  | Fin _, _ => Fin 0
  | PosInf, Fin b => if Qltb b 0 then NegInf else PosInf
  | NegInf, Fin b => if Qltb b 0 then PosInf else NegInf
  | _, _ => NaN
  end.

(** [np.log]: minus infinity at 0 and NaN below it. *)
Definition log (x : float64 Q) : float64 R :=
  match x with
  | Fin q =>
      match q ?= 0 with
      | Gt => Fin (ln (Q2R q))
      | Eq => NegInf
      | Lt => NaN
      end
  | PosInf => PosInf
  | NegInf => NaN
  | NaN => NaN
  end.

Definition Rsign (r : R) : comparison :=
  match total_order_T r 0 with
  | inleft (left _) => Lt
  | inleft (right _) => Eq
  | inright _ => Gt
  end.

(** The product of a rational-valued scalar and a real-valued one. *)
Definition mul (x : float64 Q) (y : float64 R) : float64 R :=
  match x, y with
  | NaN, _ | _, NaN => NaN
  | Fin a, Fin b => Fin (Q2R a * b)%R
  | Fin a, PosInf => scale_inf (a ?= 0) true
  | Fin a, NegInf => scale_inf (a ?= 0) false
  | PosInf, Fin b => scale_inf (Rsign b) true
  | NegInf, Fin b => scale_inf (Rsign b) false
  | PosInf, PosInf | NegInf, NegInf => PosInf
  | PosInf, NegInf | NegInf, PosInf => NegInf
  end.

Definition add (x y : float64 R) : float64 R :=
  match x, y with
  | NaN, _ | _, NaN => NaN
  | Fin a, Fin b => Fin (a + b)%R
  | PosInf, NegInf | NegInf, PosInf => NaN
  | PosInf, _ | _, PosInf => PosInf
  | NegInf, _ | _, NegInf => NegInf
  end.

(** [np.sum] of a list of scalars. *)
Definition sum (l : list (float64 R)) : float64 R := fold_left add l (Fin 0%R).

End np.

(** ** The analyzer object *)

Record PSIAnalyzer : Type := mk_PSIAnalyzer {
  actual : list Q;
  expected : list Q;
  group : Z;
  cut_points : option (list Q);
  actual_groups : list Z;
  expected_groups : list Z;
  actual_percentages : list (float64 Q);
  expected_percentages : list (float64 Q);
  group_psi_values : list (float64 R);
  psi : option (float64 R)
}.

(** The values Python may pass to the constructor. *)
Inductive pyobj : Type :=
| PySeries (values : list Q)
| PyNdarray (a : list Q)
| PyList (l : list Q)
| PyInt (n : Z)
| PyOther.

Definition list_like (o : pyobj) : bool :=
  match o with
  | PySeries _ | PyNdarray _ | PyList _ => true
  | _ => false
  end.

(** The array a list-like argument becomes: [.values] of a Series,
    [np.array] of a list, an ndarray as it is. *)
Definition as_array (o : pyobj) : list Q :=
  match o with
  | PySeries values => values
  | PyNdarray a => a
  | PyList l => l
  | _ => []
  end.

Definition group_warning : string :=
  "For better PSI visualization group should be lower than or equal to 25".

(** [PSIAnalyzer(actual, expected, group)]: the new object and the warnings
    issued, or the exception raised. *)
Definition __init__ (actual expected group : pyobj)
  : result (PSIAnalyzer * list string) :=
  if negb (list_like actual) then
    Raise (ValueError "actual must be one of these: pd.core.series.Series, np.ndarray, list")
  else if negb (list_like expected) then
    Raise (ValueError "expected must be one of these: pd.core.series.Series, np.ndarray, list")
  else
    match group with
    | PyInt group =>
        if (group <? 2)%Z then
          Raise (ValueError "group must be bigger or equal to 2")
        else
          Ok ({| actual := as_array actual;
                 expected := as_array expected;
                 group := group;
                 cut_points := None;
                 actual_groups := [];
                 expected_groups := [];
                 actual_percentages := [];
                 expected_percentages := [];
                 group_psi_values := [];
                 psi := None |},
              if (25 <? group)%Z then [group_warning] else [])
    | _ => Raise (ValueError "group must be integer")
    end.

(** ** Methods: state passing with exceptions

    A method takes the object and gives back its outcome together with the
    object as the method left it; what was assigned before an exception
    stays assigned. *)

Definition M (A : Type) : Type := PSIAnalyzer -> result A * PSIAnalyzer.

Definition ret {A : Type} (a : A) : M A := fun self => (Ok a, self).

Definition bind {A B : Type} (m : M A) (f : A -> M B) : M B :=
  fun self =>
    match m self with
    | (Ok a, self') => f a self'
    | (Raise e, self') => (Raise e, self')
    end.

Definition get : M PSIAnalyzer := fun self => (Ok self, self).

Definition modify (f : PSIAnalyzer -> PSIAnalyzer) : M unit :=
  fun self => (Ok tt, f self).

Definition lift {A : Type} (r : result A) : M A := fun self => (r, self).

Notation "x <- m ;; k" := (bind m (fun x => k))
  (at level 61, m at next level, right associativity).
Notation "m ;;; k" := (bind m (fun _ => k))
  (at level 61, right associativity).

Fixpoint for_each {A : Type} (xs : list A) (body : A -> M unit) : M unit :=
  match xs with
  | [] => ret tt
  | x :: xs' => body x ;;; for_each xs' body
  end.

(** Assignments to the attributes the methods write. *)

Definition set_cut_points (v : list Q) (s : PSIAnalyzer) : PSIAnalyzer :=
  mk_PSIAnalyzer (actual s) (expected s) (group s) (Some v) (actual_groups s)
    (expected_groups s) (actual_percentages s) (expected_percentages s)
    (group_psi_values s) (psi s).

Definition set_actual_groups (v : list Z) (s : PSIAnalyzer) : PSIAnalyzer :=
  mk_PSIAnalyzer (actual s) (expected s) (group s) (cut_points s) v
    (expected_groups s) (actual_percentages s) (expected_percentages s)
    (group_psi_values s) (psi s).

Definition set_expected_groups (v : list Z) (s : PSIAnalyzer) : PSIAnalyzer :=
  mk_PSIAnalyzer (actual s) (expected s) (group s) (cut_points s)
    (actual_groups s) v (actual_percentages s) (expected_percentages s)
    (group_psi_values s) (psi s).

Definition append_actual_percentages (v : float64 Q) (s : PSIAnalyzer)
  : PSIAnalyzer :=
  mk_PSIAnalyzer (actual s) (expected s) (group s) (cut_points s)
    (actual_groups s) (expected_groups s) (actual_percentages s ++ [v])
    (expected_percentages s) (group_psi_values s) (psi s).

Definition append_expected_percentages (v : float64 Q) (s : PSIAnalyzer)
  : PSIAnalyzer :=
  mk_PSIAnalyzer (actual s) (expected s) (group s) (cut_points s)
    (actual_groups s) (expected_groups s) (actual_percentages s)
    (expected_percentages s ++ [v]) (group_psi_values s) (psi s).

Definition append_group_psi_values (v : float64 R) (s : PSIAnalyzer)
  : PSIAnalyzer :=
  mk_PSIAnalyzer (actual s) (expected s) (group s) (cut_points s)
    (actual_groups s) (expected_groups s) (actual_percentages s)
    (expected_percentages s) (group_psi_values s ++ [v]) (psi s).

Definition set_psi (v : float64 R) (s : PSIAnalyzer) : PSIAnalyzer :=
  mk_PSIAnalyzer (actual s) (expected s) (group s) (cut_points s)
    (actual_groups s) (expected_groups s) (actual_percentages s)
    (expected_percentages s) (group_psi_values s) (Some v).

(** [[(100 / self.group) * counter for counter in range(self.group + 1)]] *)
Definition percentile_ranks (group : Z) : result (list pyfloat) :=
  if (group =? 0)%Z then Raise (ZeroDivisionError "division by zero")
  else
    Ok (map (fun counter =>
               py_mul (py_truediv (py_float 100) (py_float group))
                      (py_float counter))
            (range (group + 1))).

Definition group_creator : M unit :=
  self <- get ;;
  let sorted_actual := np.sort (actual self) in
  ranks <- lift (percentile_ranks (group self)) ;;
  cps <- lift (np.percentile sorted_actual ranks) ;;
  modify (set_cut_points cps) ;;;
  a_groups <- lift (np.digitize (actual self) cps) ;;
  modify (set_actual_groups (map (fun g => g + 1)%Z a_groups)) ;;;
  e_groups <- lift (np.digitize (expected self) cps) ;;
  modify (set_expected_groups (map (fun g => g + 1)%Z e_groups)).

(** [a[i]] on an array, with Python's negative indices. *)
Definition getitem (a : list Q) (i : Z) : result Q :=
  let n := Z.of_nat (List.length a) in
  let j := if (i <? 0)%Z then (i + n)%Z else i in
  if ((0 <=? j) && (j <? n))%Z%bool then Ok (nth (Z.to_nat j) a 0)
  else Raise (IndexError "index is out of bounds for axis 0").

Definition cut_point (i : Z) : M Q :=
  self <- get ;;
  match cut_points self with
  | None => lift (Raise (TypeError "'NoneType' object is not subscriptable"))
  | Some cps => lift (getitem cps i)
  end.

(** [0.000001], the substitute for a zero expected proportion. *)
Definition floor_constant : Q := 1 # 1000000.

(** The contribution of one group from its two proportions. *)
Definition group_psi_of (actual_perc expected_perc : float64 Q) : float64 R :=
  np.mul (np.sub actual_perc expected_perc)
         (np.log (np.div actual_perc expected_perc)).

(** One iteration of the loop of [_psi_calculator]. *)
Definition psi_iteration (len_actual len_expected : nat) (cut_index : Z)
  : M unit :=
  self <- get ;;
  cut_lower <- cut_point cut_index ;;
  cut_upper <- cut_point (cut_index + 1) ;;
  let actual_perc :=
    np.true_divide
      (count_mask (fun x => Qle_bool cut_lower x && Qltb x cut_upper)%bool
                  (actual self))
      len_actual in
  let expected_perc :=
    np.true_divide
      (count_mask (fun x => Qle_bool cut_lower x && Qltb x cut_upper)%bool
                  (expected self))
      len_expected in
  let expected_perc :=
    if (cut_index + 1 =? group self)%Z then
      np.true_divide
        (count_mask (fun x => Qle_bool cut_lower x && Qle_bool x cut_upper)%bool
                    (expected self))
        len_expected
    else expected_perc in
  let expected_perc :=
    if np.eq0 expected_perc then Fin floor_constant else expected_perc in
  modify (append_actual_percentages actual_perc) ;;;
  modify (append_expected_percentages expected_perc) ;;;
  let group_psi := group_psi_of actual_perc expected_perc in
  modify (append_group_psi_values group_psi).

(** The list object a method hands out: the caller holds the object's own
    list, not a copy, and reads it through the object. *)
Inductive list_ref : Type := self_group_psi_values.

Definition deref (self : PSIAnalyzer) (r : list_ref) : list (float64 R) :=
  match r with
  | self_group_psi_values => group_psi_values self
  end.

Definition _psi_calculator : M (float64 R * list_ref) :=
  self <- get ;;
  match cut_points self with
  | None => group_creator
  | Some _ => ret tt
  end ;;;
  self <- get ;;
  let len_actual := List.length (actual self) in
  let len_expected := List.length (expected self) in
  for_each (range (group self)) (psi_iteration len_actual len_expected) ;;;
  self <- get ;;
  let total := np.sum (group_psi_values self) in
  modify (set_psi total) ;;;
  ret (total, self_group_psi_values).

(** The proportions and the contribution of group [i] (counted from 0), as
    one iteration computes them from the cut points. *)
Definition actual_perc_at (cps actual : list Q) (len_actual : nat) (i : nat)
  : float64 Q :=
  np.true_divide
    (count_mask (fun x => Qle_bool (nth i cps 0) x && Qltb x (nth (S i) cps 0))%bool
                actual)
    len_actual.

Definition expected_perc_at (cps expected : list Q) (len_expected : nat)
  (group : Z) (i : nat) : float64 Q :=
  let counted :=
    if (Z.of_nat i + 1 =? group)%Z then
      np.true_divide
        (count_mask (fun x => Qle_bool (nth i cps 0) x && Qle_bool x (nth (S i) cps 0))%bool
                    expected)
        len_expected
    else
      np.true_divide
        (count_mask (fun x => Qle_bool (nth i cps 0) x && Qltb x (nth (S i) cps 0))%bool
                    expected)
        len_expected in
  if np.eq0 counted then Fin floor_constant else counted.

Definition group_psi_at (cps actual expected : list Q)
  (len_actual len_expected : nat) (group : Z) (i : nat) : float64 R :=
  group_psi_of (actual_perc_at cps actual len_actual i)
               (expected_perc_at cps expected len_expected group i).

(** The object after the loop has run over the groups [idx]. *)
Definition record_groups (cps : list Q) (len_actual len_expected : nat)
  (idx : list nat) (s : PSIAnalyzer) : PSIAnalyzer :=
  mk_PSIAnalyzer (actual s) (expected s) (group s) (cut_points s)
    (actual_groups s) (expected_groups s)
    (actual_percentages s ++ map (actual_perc_at cps (actual s) len_actual) idx)
    (expected_percentages s
       ++ map (expected_perc_at cps (expected s) len_expected (group s)) idx)
    (group_psi_values s
       ++ map (group_psi_at cps (actual s) (expected s) len_actual len_expected
                 (group s)) idx)
    (psi s).

(** The quantile the rank of [counter] denotes, and the cut points of a
    non-empty dataset. *)
Definition quantile_of (group counter : Z) : Q :=
  (100 / inject_Z group) * inject_Z counter / 100.

Definition cut_points_of (actual : list Q) (group : Z) : list Q :=
  map (fun counter => np.linear_quantile (np.sort actual) (quantile_of group counter))
      (range (group + 1)).

(** Whether [np.percentile] accepts the ranks of [group]. *)
Definition ranks_accepted (group : Z) : bool :=
  forallb (fun counter =>
             np.quantile_is_valid
               (py_truediv (py_mul (py_truediv (py_float 100) (py_float group))
                                   (py_float counter))
                           (py_float 100)))
          (range (group + 1)).

(** The smallest and the largest sample. *)
Fixpoint list_min (l : list Q) : Q :=
  match l with
  | [] => 0
  | x :: l' => match l' with [] => x | _ :: _ => Qmin x (list_min l') end
  end.

Fixpoint list_max (l : list Q) : Q :=
  match l with
  | [] => 0
  | x :: l' => match l' with [] => x | _ :: _ => Qmax x (list_max l') end
  end.

(** A scalar that compares [>= 0]: a non-negative number or plus infinity. *)
Definition nonneg (x : float64 R) : Prop :=
  match x with
  | Fin r => (0 <= r)%R
  | PosInf => True
  | _ => False
  end.

(** A finite scalar above 0. *)
Definition above_zero (x : float64 Q) : Prop :=
  match x with
  | Fin q => 0 < q
  | _ => False
  end.


(** The group indices [group_creator] stores for the samples [x]. *)
Definition groups_of (cps x : list Q) : list Z :=
  map (fun g => g + 1)%Z
      (map (fun v => Z.of_nat (np.searchsorted_left cps v)) x).

(** The object as [group_creator] leaves it on a non-empty dataset. *)
Definition grouped (s : PSIAnalyzer) : PSIAnalyzer :=
  let cps := cut_points_of (actual s) (group s) in
  set_expected_groups (groups_of cps (expected s))
    (set_actual_groups (groups_of cps (actual s)) (set_cut_points cps s)).

Definition percentile_range_error : exn :=
  ValueError "Percentiles must be in the range [0, 100]".

(** The object after the loop and the final sum of [_psi_calculator], run
    with the cut points [cps]. *)
Definition scored (cps : list Q) (s : PSIAnalyzer) : PSIAnalyzer :=
  let s' :=
    record_groups cps (List.length (actual s)) (List.length (expected s))
      (seq 0 (Z.to_nat (group s))) s in
  set_psi (np.sum (group_psi_values s')) s'.

(** The score a call returns, read off the object it leaves. *)
Definition returned (s : PSIAnalyzer) : float64 R * list_ref :=
  (np.sum (group_psi_values s), self_group_psi_values).

(** The object [__init__] builds from two arrays and a group count. *)
Definition fresh (a e : list Q) (k : Z) : PSIAnalyzer :=
  {| actual := a; expected := e; group := k; cut_points := None;
     actual_groups := []; expected_groups := [];
     actual_percentages := []; expected_percentages := [];
     group_psi_values := []; psi := None |}.

(** The object after the first call of [_psi_calculator] on [fresh a e k]. *)
Definition first_scored (a e : list Q) (k : Z) : PSIAnalyzer :=
  scored (cut_points_of a k) (grouped (fresh a e k)).

(** The groups of an object, counted from 0. *)
Definition group_indices (k : Z) : list nat := seq 0 (Z.to_nat k).

(** Example datasets. *)
Definition one_to_ten : list Q :=
  map inject_Z [1; 2; 3; 4; 5; 6; 7; 8; 9; 10]%Z.

Definition one_to_four : list Q := map inject_Z [1; 2; 3; 4]%Z.

Definition mostly_ones : list Q := map inject_Z [1; 1; 1; 3]%Z.

Definition tied : list Q := map inject_Z [1; 1; 1; 2]%Z.

Definition one_to_three : list Q := map inject_Z [1; 2; 3]%Z.

(** The contribution of every group with both proportions above 0 is the
    number [f actual_pct expected_pct]. *)
Definition contribution_formula (f : R -> R -> R) (s : PSIAnalyzer) : Prop :=
  forall (i : nat) (pa pe : Q),
    nth_error (actual_percentages s) i = Some (Fin pa) ->
    nth_error (expected_percentages s) i = Some (Fin pe) ->
    0 < pa -> 0 < pe ->
    nth_error (group_psi_values s) i = Some (Fin (f (Q2R pa) (Q2R pe))).

(** The two orientations of the ratio inside the logarithm. *)
Definition expected_over_actual (x y : R) : R := ((x - y) * ln (y / x))%R.

Definition actual_over_expected (x y : R) : R := ((x - y) * ln (x / y))%R.

(** The sum of a list of finite proportions. *)
Fixpoint total_of (l : list (float64 Q)) : option Q :=
  match l with
  | [] => Some 0
  | Fin q :: l' => option_map (Qplus q) (total_of l')
  | _ :: _ => None
  end.

(** An analysis raises: the constructor does, or the first computation. *)
Definition raises_an_error (a e g : pyobj) : Prop :=
  (exists err : exn, __init__ a e g = Raise err) \/
  (exists (self self' : PSIAnalyzer) (w : list string) (err : exn),
     __init__ a e g = Ok (self, w) /\
     _psi_calculator self = (Raise err, self')).


(** The object after a second call of [_psi_calculator]. *)
Definition second_scored (a e : list Q) (k : Z) : PSIAnalyzer :=
  scored (cut_points_of a k) (first_scored a e k).

(** The test of one group on a sample: lower bound included, upper bound
    excluded. *)
Definition in_group (lo hi : Q) : Q -> bool :=
  fun x => (Qle_bool lo x && Qltb x hi)%bool.

(** The number of samples strictly below the largest one. *)
Definition below_maximum (a : list Q) : nat :=
  count_mask (fun x => Qltb x (list_max a)) a.

(** The last index of an array. *)
Definition last_index (arr : list Q) : Z := (Z.of_nat (List.length arr) - 1)%Z.

(** ** The frame of [_visualize]

    A pandas frame with the columns "groups", "percentages" and "" (the
    hue of the bar chart), one row per index label. *)

Record row : Type := mk_row {
  row_label : nat;
  groups : Z;
  percentages : float64 Q;
  hue : string
}.

Definition DataFrame : Type := list row.

(** [range(a, b)] *)
Definition range_from (a b : Z) : list Z :=
  map (fun i => (a + Z.of_nat i)%Z) (seq 0 (Z.to_nat (b - a))).

(** [pd.DataFrame(data={"groups": ..., "percentages": ...})]: the columns
    must have one length; the rows are labelled from 0. *)
Definition pd_DataFrame (group_column : list Z)
  (percentage_column : list (float64 Q))
  : result (list (nat * (Z * float64 Q))) :=
  if (List.length group_column =? List.length percentage_column)%nat then
    Ok (combine (seq 0 (List.length group_column))
                (combine group_column percentage_column))
  else Raise (ValueError "All arrays must be of the same length").

(** [df[""] = value]: one constant column more. *)
Definition set_hue (value : string) (df : list (nat * (Z * float64 Q)))
  : DataFrame :=
  map (fun r => mk_row (fst r) (fst (snd r)) (snd (snd r)) value) df.

(** [pd.concat(frames, axis=0)]: the rows of the frames, one after the
    other, each with the label it had. *)
Definition pd_concat (frames : list DataFrame) : DataFrame :=
  List.concat frames.

(** [_visualize], up to the frame it assigns to [self.group_df] and hands to
    [sns.barplot]: the frame is the outcome of the method here. *)
Definition _visualize : M DataFrame :=
  self <- get ;;
  match cut_points self with
  | None => group_creator
  | Some _ => ret tt
  end ;;;
  self <- get ;;
  match group_psi_values self with
  | [] => _psi_calculator ;;; ret tt
  | _ :: _ => ret tt
  end ;;;
  self <- get ;;
  actual_df <-
    lift (pd_DataFrame (range_from 1 (group self + 1)) (actual_percentages self)) ;;
  let actual_df := set_hue "actual" actual_df in
  expected_df <-
    lift (pd_DataFrame (range_from 1 (group self + 1))
            (expected_percentages self)) ;;
  let expected_df := set_hue "expected" expected_df in
  ret (pd_concat [actual_df; expected_df]).

(** The frame [_visualize] builds from an object whose lists hold one
    proportion per group. *)
Definition frame_of (s : PSIAnalyzer) : DataFrame :=
  pd_concat
    [set_hue "actual"
       (combine (seq 0 (Z.to_nat (group s)))
                (combine (range_from 1 (group s + 1)) (actual_percentages s)));
     set_hue "expected"
       (combine (seq 0 (Z.to_nat (group s)))
                (combine (range_from 1 (group s + 1)) (expected_percentages s)))].

(** An object with more entries at the end of its three score lists. *)
Definition extend_lists (aps eps : list (float64 Q)) (gps : list (float64 R))
  (s : PSIAnalyzer) : PSIAnalyzer :=
  mk_PSIAnalyzer (actual s) (expected s) (group s) (cut_points s)
    (actual_groups s) (expected_groups s)
    (actual_percentages s ++ aps) (expected_percentages s ++ eps)
    (group_psi_values s ++ gps) (psi s).

(** The number of cut points strictly below a sample. *)
Definition cut_points_below (cps : list Q) (x : Q) : nat :=
  count_mask (fun c => Qltb c x) cps.

(** The number of samples of [e] between [lo] and [hi], both included. *)
Definition between (lo hi : Q) (e : list Q) : nat :=
  count_mask (fun x => Qle_bool lo x && Qle_bool x hi)%bool e.

(** The last quantile [np.percentile] is given: the rank
    [(100 / group) * group] divided by 100. *)
Definition last_quantile (group : Z) : pyfloat :=
  py_truediv (py_mul (py_truediv (py_float 100) (py_float group))
                     (py_float group))
             (py_float 100).

(** Whether the last quantile is 1 in binary64.  Then [np.percentile] reads
    the last cut point off the largest sample; below 1 (97 groups, for one)
    it interpolates towards it and rounding may leave the cut point under
    the largest sample. *)
Definition maximum_reached (group : Z) : bool :=
  PrimFloat.eqb (binary64 (last_quantile group)) (binary64 (py_float 1)).

(** The number of expected samples the loop counts in group [i]: the last
    group includes its upper bound. *)
Definition expected_count_at (cps expected : list Q) (group : Z) (i : nat)
  : nat :=
  if (Z.of_nat i + 1 =? group)%Z then
    count_mask (fun x => Qle_bool (nth i cps 0) x && Qle_bool x (nth (S i) cps 0))%bool
               expected
  else
    count_mask (fun x => Qle_bool (nth i cps 0) x && Qltb x (nth (S i) cps 0))%bool
               expected.

(** An expected dataset with a sample on either side of [one_to_four]. *)
Definition beyond : list Q := map inject_Z [0; 2; 3; 5]%Z.

(** The example datasets in the opposite order. *)
Definition four_to_one : list Q := rev one_to_four.

Definition three_and_ones : list Q := rev mostly_ones.

(** * Properties *)

(** ** Running the loop *)

Lemma getitem_nat (a : list Q) (i : nat) :
  (i < List.length a)%nat -> getitem a (Z.of_nat i) = Ok (nth i a 0).
Proof.
  intros H. unfold getitem.
  replace (Z.of_nat i <? 0)%Z with false by (symmetry; apply Z.ltb_ge; lia).
  replace (0 <=? Z.of_nat i)%Z with true by (symmetry; apply Z.leb_le; lia).
  replace (Z.of_nat i <? Z.of_nat (List.length a))%Z with true
    by (symmetry; apply Z.ltb_lt; lia).
  simpl. now rewrite Nat2Z.id.
Qed.

Lemma cut_point_run (s : PSIAnalyzer) (cps : list Q) (i : nat) :
  cut_points s = Some cps ->
  (i < List.length cps)%nat ->
  cut_point (Z.of_nat i) s = (Ok (nth i cps 0), s).
Proof.
  intros Hc Hi. unfold cut_point, bind, get, lift.
  rewrite Hc, getitem_nat by assumption. reflexivity.
Qed.

Lemma psi_iteration_run (s : PSIAnalyzer) (cps : list Q) (la le : nat) (i : nat) :
  cut_points s = Some cps ->
  (S i < List.length cps)%nat ->
  psi_iteration la le (Z.of_nat i) s =
    (Ok tt,
     append_group_psi_values
       (group_psi_at cps (actual s) (expected s) la le (group s) i)
       (append_expected_percentages
          (expected_perc_at cps (expected s) le (group s) i)
          (append_actual_percentages (actual_perc_at cps (actual s) la i) s))).
Proof.
  intros Hc Hi.
  unfold psi_iteration.
  unfold bind at 1. unfold get at 1.
  unfold bind at 1. rewrite (cut_point_run s cps i Hc) by lia.
  unfold bind at 1.
  replace (Z.of_nat i + 1)%Z with (Z.of_nat (S i)) by lia.
  rewrite (cut_point_run s cps (S i) Hc) by lia.
  replace (Z.of_nat (S i)) with (Z.of_nat i + 1)%Z by lia.
  reflexivity.
Qed.

Lemma psi_loop_run (cps : list Q) (la le : nat) (m : nat) :
  forall (a : nat) (s : PSIAnalyzer),
  cut_points s = Some cps ->
  (a + m < List.length cps)%nat ->
  for_each (map Z.of_nat (seq a m)) (psi_iteration la le) s =
    (Ok tt, record_groups cps la le (seq a m) s).
Proof.
  induction m as [|m IH]; intros a s Hc Hlen.
  - cbn. unfold ret, record_groups. destruct s; cbn. now rewrite !app_nil_r.
  - cbn [seq map for_each]. unfold bind.
    rewrite (psi_iteration_run s cps la le a Hc) by lia.
    rewrite IH by (cbn; try assumption; lia).
    unfold record_groups. cbn. now rewrite <- !app_assoc.
Qed.

(** ** Sorting *)

Lemma Qltb_lt (x y : Q) : Qltb x y = true <-> x < y.
Proof.
  unfold Qltb. rewrite negb_true_iff, <- not_true_iff_false, Qle_bool_iff.
  split; [apply Qnot_le_lt | apply Qlt_not_le].
Qed.

Lemma Qle_bool_false (x y : Q) : Qle_bool x y = false <-> y < x.
Proof.
  rewrite <- not_true_iff_false, Qle_bool_iff.
  split; [apply Qnot_le_lt | apply Qlt_not_le].
Qed.

Lemma insert_perm (x : Q) (l : list Q) : Permutation (np.insert x l) (x :: l).
Proof.
  induction l as [|y l IH]; cbn.
  - apply Permutation_refl.
  - destruct (Qle_bool x y).
    + apply Permutation_refl.
    + eapply perm_trans; [apply perm_skip, IH | apply perm_swap].
Qed.

Lemma sort_perm (l : list Q) : Permutation (np.sort l) l.
Proof.
  induction l as [|x l IH]; cbn.
  - apply perm_nil.
  - eapply perm_trans; [apply insert_perm | apply perm_skip, IH].
Qed.

Lemma sort_length (l : list Q) : List.length (np.sort l) = List.length l.
Proof. apply Permutation_length, sort_perm. Qed.

Lemma insert_sorted (x : Q) (l : list Q) :
  StronglySorted Qle l -> StronglySorted Qle (np.insert x l).
Proof.
  induction 1 as [|y l Hs IH Hy]; cbn.
  - repeat constructor.
  - destruct (Qle_bool x y) eqn:E.
    + apply Qle_bool_iff in E. constructor.
      * now constructor.
      * constructor; [assumption|].
        eapply Forall_impl; [|exact Hy].
        intros z Hz. now apply Qle_trans with y.
    + apply Qle_bool_false in E. constructor; [assumption|].
      eapply Permutation_Forall; [apply Permutation_sym, insert_perm|].
      constructor; [now apply Qlt_le_weak | assumption].
Qed.

Lemma sort_sorted (l : list Q) : StronglySorted Qle (np.sort l).
Proof.
  induction l as [|x l IH]; cbn; [constructor | now apply insert_sorted].
Qed.

Lemma sorted_nth (l : list Q) :
  StronglySorted Qle l ->
  forall i j : nat, (i <= j < List.length l)%nat -> nth i l 0 <= nth j l 0.
Proof.
  induction 1 as [|x l Hs IH Hx]; intros i j Hij; cbn in Hij; [lia|].
  destruct i as [|i], j as [|j]; cbn; try lia.
  - apply Qle_refl.
  - rewrite Forall_forall in Hx. apply Hx, nth_In. lia.
  - apply IH. lia.
Qed.

Lemma sort_of_sorted (l : list Q) : StronglySorted Qle l -> np.sort l = l.
Proof.
  induction 1 as [|x l Hs IH Hx]; [reflexivity|].
  change (np.sort (x :: l)) with (np.insert x (np.sort l)).
  rewrite IH. destruct l as [|y l]; cbn; [reflexivity|].
  inversion Hx as [|? ? Hxy _]; subst.
  apply Qle_bool_iff in Hxy. now rewrite Hxy.
Qed.

Lemma sort_idempotent (l : list Q) : np.sort (np.sort l) = np.sort l.
Proof. apply sort_of_sorted, sort_sorted. Qed.

Lemma sort_nonempty (l : list Q) : l <> [] -> np.sort l <> [].
Proof.
  intros H E. apply H, length_zero_iff_nil.
  now rewrite <- sort_length, E.
Qed.

Lemma hd_nth0 (l : list Q) : hd 0 l = nth 0 l 0.
Proof. now destruct l. Qed.

Lemma last_nth (l : list Q) : last l 0 = nth (List.length l - 1) l 0.
Proof.
  induction l as [|x l IH]; [reflexivity|].
  destruct l as [|y l]; [reflexivity|].
  change (last (x :: y :: l) 0) with (last (y :: l) 0). rewrite IH.
  cbn [List.length].
  replace (S (S (List.length l)) - 1)%nat with (S (S (List.length l) - 1)) by lia.
  reflexivity.
Qed.

(** ** Linear interpolation of a sorted array *)

Lemma lerp_bounds (a b t : Q) :
  a <= b -> 0 <= t -> t <= 1 -> a <= np.lerp a b t /\ np.lerp a b t <= b.
Proof.
  intros Hab H0 H1. unfold np.lerp.
  assert (Hlo : 0 <= (b - a) * t) by (apply Qmult_le_0_compat; Lqa.lra).
  assert (Hhi : 0 <= (b - a) * (1 - t)) by (apply Qmult_le_0_compat; Lqa.lra).
  split; Lqa.lra.
Qed.

Lemma lerp_mono (a b t t' : Q) :
  a <= b -> t <= t' -> np.lerp a b t <= np.lerp a b t'.
Proof.
  intros Hab Ht. unfold np.lerp.
  assert (H : 0 <= (b - a) * (t' - t)) by (apply Qmult_le_0_compat; Lqa.lra).
  Lqa.lra.
Qed.

Lemma floor_spec (v : Q) (p : nat) :
  Qfloor v = Z.of_nat p ->
  inject_Z (Z.of_nat p) <= v /\ v < inject_Z (Z.of_nat p) + 1.
Proof.
  intros Hf. pose proof (Qfloor_le v) as Hlo. pose proof (Qlt_floor v) as Hhi.
  rewrite Hf in Hlo, Hhi. rewrite inject_Z_plus in Hhi. now split.
Qed.

Section Quantile.

Variable arr : list Q.
Hypothesis arr_sorted : StronglySorted Qle arr.
Hypothesis arr_nonempty : arr <> [].

Local Abbreviation top := (last_index arr).

Lemma top_nonneg : (0 <= top)%Z.
Proof.
  unfold last_index. destruct arr; [contradiction|]. cbn [List.length]. lia.
Qed.

Lemma first_le_nth (i : nat) :
  (i < List.length arr)%nat -> hd 0 arr <= nth i arr 0.
Proof.
  intros Hi. rewrite hd_nth0. apply sorted_nth; [assumption | lia].
Qed.

Lemma nth_le_last (i : nat) :
  (i < List.length arr)%nat -> nth i arr 0 <= last arr 0.
Proof.
  intros Hi. rewrite last_nth. apply sorted_nth; [assumption | lia].
Qed.

(** Between the bounds the quantile is interpolated between two
    neighbouring order statistics. *)
Lemma linear_quantile_inside (q : Q) :
  let v := inject_Z top * q in
  0 <= v -> v < inject_Z top ->
  exists p : nat,
    Qfloor v = Z.of_nat p /\ (S p < List.length arr)%nat /\
    np.linear_quantile arr q =
      np.lerp (nth p arr 0) (nth (S p) arr 0) (v - inject_Z (Z.of_nat p)).
Proof.
  intros v H0 Htop.
  assert (Hlo : inject_Z (Qfloor v) <= v) by apply Qfloor_le.
  assert (Hhi : v < inject_Z (Qfloor v + 1)) by apply Qlt_floor.
  assert (Hp0 : (0 <= Qfloor v)%Z).
  { assert (H : inject_Z 0 < inject_Z (Qfloor v + 1)).
    { eapply Qle_lt_trans; [exact H0 | exact Hhi]. }
    rewrite <- Zlt_Qlt in H. lia. }
  assert (Hp1 : (Qfloor v < top)%Z).
  { rewrite Zlt_Qlt. eapply Qle_lt_trans; [exact Hlo | exact Htop]. }
  exists (Z.to_nat (Qfloor v)). rewrite Z2Nat.id by assumption.
  split; [reflexivity|]. split; [unfold last_index in Hp1; lia|].
  unfold np.linear_quantile. fold top. fold v.
  replace (Qle_bool (inject_Z top) v) with false
    by (symmetry; now apply Qle_bool_false).
  replace (Qltb v 0) with false.
  2:{ symmetry. apply not_true_iff_false. rewrite Qltb_lt.
      now apply Qle_not_lt. }
  replace (Z.to_nat (Qfloor v + 1)) with (S (Z.to_nat (Qfloor v))) by lia.
  reflexivity.
Qed.

Lemma linear_quantile_above (q : Q) :
  inject_Z top <= inject_Z top * q -> np.linear_quantile arr q = last arr 0.
Proof.
  intros H. unfold np.linear_quantile. fold top.
  apply Qle_bool_iff in H. now rewrite H.
Qed.

Lemma linear_quantile_below (q : Q) :
  inject_Z top * q < 0 -> np.linear_quantile arr q = hd 0 arr.
Proof.
  intros H. unfold np.linear_quantile. fold top.
  replace (Qle_bool (inject_Z top) (inject_Z top * q)) with false.
  - apply Qltb_lt in H. now rewrite H.
  - symmetry. apply Qle_bool_false. eapply Qlt_le_trans; [exact H|].
    replace 0 with (inject_Z 0) by reflexivity. rewrite <- Zle_Qle.
    apply top_nonneg.
Qed.

Lemma quantile_cases (q : Q) :
  let v := inject_Z top * q in
  v < 0 \/ (0 <= v /\ v < inject_Z top) \/ inject_Z top <= v.
Proof.
  intros v.
  destruct (Qlt_le_dec v 0) as [H|H]; [now left|].
  destruct (Qlt_le_dec v (inject_Z top)) as [H'|H']; [right; now left|].
  right; now right.
Qed.

Lemma first_le_last : hd 0 arr <= last arr 0.
Proof.
  rewrite hd_nth0. apply nth_le_last.
  destruct arr; [contradiction | cbn; lia].
Qed.

Lemma interpolated_bounds (p : nat) (t : Q) :
  (S p < List.length arr)%nat -> 0 <= t -> t <= 1 ->
  nth p arr 0 <= np.lerp (nth p arr 0) (nth (S p) arr 0) t /\
  np.lerp (nth p arr 0) (nth (S p) arr 0) t <= nth (S p) arr 0.
Proof.
  intros Hp H0 H1. apply lerp_bounds; try assumption.
  apply sorted_nth; [assumption | lia].
Qed.

Lemma linear_quantile_lower (q : Q) : hd 0 arr <= np.linear_quantile arr q.
Proof.
  destruct (quantile_cases q) as [H|[[H0 H1]|H]].
  - rewrite linear_quantile_below by assumption. apply Qle_refl.
  - destruct (linear_quantile_inside q H0 H1) as (p & Hf & Hp & ->).
    destruct (floor_spec _ _ Hf) as [Hlo Hhi].
    apply Qle_trans with (nth p arr 0).
    + apply first_le_nth. lia.
    + apply interpolated_bounds; [assumption | Lqa.lra | Lqa.lra].
  - rewrite linear_quantile_above by assumption. apply first_le_last.
Qed.

Lemma linear_quantile_upper (q : Q) : np.linear_quantile arr q <= last arr 0.
Proof.
  destruct (quantile_cases q) as [H|[[H0 H1]|H]].
  - rewrite linear_quantile_below by assumption. apply first_le_last.
  - destruct (linear_quantile_inside q H0 H1) as (p & Hf & Hp & ->).
    destruct (floor_spec _ _ Hf) as [Hlo Hhi].
    apply Qle_trans with (nth (S p) arr 0).
    + apply interpolated_bounds; [assumption | Lqa.lra | Lqa.lra].
    + apply nth_le_last. lia.
  - rewrite linear_quantile_above by assumption. apply Qle_refl.
Qed.

Lemma linear_quantile_mono (q q' : Q) :
  q <= q' -> np.linear_quantile arr q <= np.linear_quantile arr q'.
Proof.
  intros Hq.
  assert (Hv : inject_Z top * q <= inject_Z top * q').
  { assert (H : 0 <= inject_Z top).
    { replace 0 with (inject_Z 0) by reflexivity. rewrite <- Zle_Qle.
      apply top_nonneg. }
    assert (H' : 0 <= inject_Z top * (q' - q))
      by (apply Qmult_le_0_compat; Lqa.lra).
    Lqa.lra. }
  destruct (quantile_cases q') as [H'|[[H0' H1']|H']].
  - rewrite (linear_quantile_below q') by assumption.
    rewrite (linear_quantile_below q) by Lqa.lra. apply Qle_refl.
  - destruct (quantile_cases q) as [H|[[H0 H1]|H]].
    + rewrite (linear_quantile_below q) by assumption.
      apply linear_quantile_lower.
    + destruct (linear_quantile_inside q H0 H1) as (p & Hf & Hp & ->).
      destruct (linear_quantile_inside q' H0' H1') as (p' & Hf' & Hp' & ->).
      destruct (floor_spec _ _ Hf) as [Hlo Hhi].
      destruct (floor_spec _ _ Hf') as [Hlo' Hhi'].
      assert (Hpp := Qfloor_resp_le _ _ Hv).
      rewrite Hf, Hf' in Hpp.
      assert (Hcase : p = p' \/ (S p <= p')%nat) by lia.
      destruct Hcase as [<-|Hlt].
      * apply lerp_mono; [apply sorted_nth; [assumption | lia] | Lqa.lra].
      * apply Qle_trans with (nth (S p) arr 0).
        { apply interpolated_bounds; [assumption | Lqa.lra | Lqa.lra]. }
        apply Qle_trans with (nth p' arr 0).
        { apply sorted_nth; [assumption | lia]. }
        apply interpolated_bounds; [assumption | Lqa.lra | Lqa.lra].
    + Lqa.lra.
  - rewrite (linear_quantile_above q') by assumption.
    apply linear_quantile_upper.
Qed.

Lemma linear_quantile_zero (q : Q) :
  q == 0 -> np.linear_quantile arr q == hd 0 arr.
Proof.
  intros Hq.
  destruct (quantile_cases q) as [H|[[H0 H1]|H]].
  - rewrite linear_quantile_below by assumption. apply Qeq_refl.
  - destruct (linear_quantile_inside q H0 H1) as (p & Hf & Hp & ->).
    destruct (floor_spec _ _ Hf) as [Hlo Hhi].
    assert (Hv : inject_Z top * q == 0) by (rewrite Hq; ring).
    assert (Hp0 : p = O).
    { assert (H : inject_Z (Z.of_nat p) < inject_Z 1).
      { replace (inject_Z 1) with 1 by reflexivity.
        assert (Hz : inject_Z (Z.of_nat p) <= 0) by Lqa.lra. Lqa.lra. }
      rewrite <- Zlt_Qlt in H. lia. }
    subst p. rewrite hd_nth0. unfold np.lerp. cbn [Z.of_nat].
    replace (inject_Z 0) with 0 by reflexivity. rewrite Hv. ring.
  - rewrite linear_quantile_above by assumption.
    assert (Htop : top = 0%Z).
    { assert (Hz : inject_Z top <= inject_Z 0).
      { replace (inject_Z 0) with 0 by reflexivity.
        assert (Hv : inject_Z top * q == 0) by (rewrite Hq; ring). Lqa.lra. }
      rewrite <- Zle_Qle in Hz. pose proof top_nonneg. lia. }
    rewrite last_nth, hd_nth0. unfold last_index in Htop.
    replace (List.length arr - 1)%nat with O by lia. apply Qeq_refl.
Qed.

Lemma linear_quantile_one (q : Q) :
  q == 1 -> np.linear_quantile arr q = last arr 0.
Proof.
  intros Hq. apply linear_quantile_above. rewrite Hq. Lqa.lra.
Qed.

End Quantile.

(** ** The extreme samples *)

Lemma list_min_in (l : list Q) : l <> [] -> In (list_min l) l.
Proof.
  induction l as [|x l IH]; [contradiction|]. intros _.
  destruct l as [|y l]; [now left|].
  change (list_min (x :: y :: l)) with (Qmin x (list_min (y :: l))).
  unfold Qmin, GenericMinMax.gmin.
  destruct (x ?= list_min (y :: l)); [now left | now left |].
  right. now apply IH.
Qed.

Lemma list_min_le (l : list Q) (x : Q) : In x l -> list_min l <= x.
Proof.
  induction l as [|y l IH]; [contradiction|]. intros Hin.
  destruct l as [|z l].
  - destruct Hin as [->|[]]. apply Qle_refl.
  - change (list_min (y :: z :: l)) with (Qmin y (list_min (z :: l))).
    destruct Hin as [->|Hin].
    + apply Q.le_min_l.
    + eapply Qle_trans; [apply Q.le_min_r | now apply IH].
Qed.

Lemma list_max_in (l : list Q) : l <> [] -> In (list_max l) l.
Proof.
  induction l as [|x l IH]; [contradiction|]. intros _.
  destruct l as [|y l]; [now left|].
  change (list_max (x :: y :: l)) with (Qmax x (list_max (y :: l))).
  unfold Qmax, GenericMinMax.gmax.
  destruct (x ?= list_max (y :: l)); [now left | | now left].
  right. now apply IH.
Qed.

Lemma list_max_ge (l : list Q) (x : Q) : In x l -> x <= list_max l.
Proof.
  induction l as [|y l IH]; [contradiction|]. intros Hin.
  destruct l as [|z l].
  - destruct Hin as [->|[]]. apply Qle_refl.
  - change (list_max (y :: z :: l)) with (Qmax y (list_max (z :: l))).
    destruct Hin as [->|Hin].
    + apply Q.le_max_l.
    + eapply Qle_trans; [now apply IH | apply Q.le_max_r].
Qed.

Lemma sort_first_is_min (l : list Q) :
  l <> [] -> hd 0 (np.sort l) == list_min l.
Proof.
  intros Hne. pose proof (sort_nonempty l Hne) as Hs.
  apply Qle_antisym.
  - destruct (In_nth (np.sort l) (list_min l) 0) as (i & Hi & <-).
    { eapply Permutation_in; [apply Permutation_sym, sort_perm|].
      now apply list_min_in. }
    apply first_le_nth; [apply sort_sorted | assumption].
  - apply list_min_le. eapply Permutation_in; [apply sort_perm|].
    destruct (np.sort l); [contradiction | now left].
Qed.

Lemma sort_last_is_max (l : list Q) :
  l <> [] -> last (np.sort l) 0 == list_max l.
Proof.
  intros Hne. pose proof (sort_nonempty l Hne) as Hs.
  apply Qle_antisym.
  - apply list_max_ge. eapply Permutation_in; [apply sort_perm|].
    rewrite last_nth. apply nth_In.
    destruct (np.sort l); [contradiction | cbn; lia].
  - destruct (In_nth (np.sort l) (list_max l) 0) as (i & Hi & <-).
    { eapply Permutation_in; [apply Permutation_sym, sort_perm|].
      now apply list_max_in. }
    apply nth_le_last; [apply sort_sorted | assumption].
Qed.

(** ** Cut points *)

Lemma range_length (n : Z) : List.length (range n) = Z.to_nat n.
Proof. unfold range. now rewrite length_map, length_seq. Qed.

Lemma nth_map_range {A : Type} (f : Z -> A) (n : Z) (i : nat) (d : A) :
  (i < Z.to_nat n)%nat -> nth i (map f (range n)) d = f (Z.of_nat i).
Proof.
  intros Hi. unfold range. rewrite map_map.
  rewrite (nth_indep _ d (f (Z.of_nat O))) by now rewrite length_map, length_seq.
  rewrite (map_nth (fun k => f (Z.of_nat k))). now rewrite seq_nth.
Qed.

Lemma cut_points_of_length (a : list Q) (k : Z) :
  List.length (cut_points_of a k) = Z.to_nat (k + 1).
Proof. unfold cut_points_of. now rewrite length_map, range_length. Qed.

Lemma cut_points_of_nth (a : list Q) (k : Z) (i : nat) :
  (i < Z.to_nat (k + 1))%nat ->
  nth i (cut_points_of a k) 0 =
    np.linear_quantile (np.sort a) (quantile_of k (Z.of_nat i)).
Proof. intros Hi. unfold cut_points_of. now rewrite nth_map_range. Qed.

Lemma quantile_of_mono (k c c' : Z) :
  (0 < k)%Z -> (c <= c')%Z -> quantile_of k c <= quantile_of k c'.
Proof.
  intros Hk Hc. unfold quantile_of.
  assert (Hk' : 0 < inject_Z k).
  { replace 0 with (inject_Z 0) by reflexivity. now rewrite <- Zlt_Qlt. }
  assert (Hc' : inject_Z c <= inject_Z c') by now rewrite <- Zle_Qle.
  assert (Hu : 0 <= 100 / inject_Z k) by (apply Qle_shift_div_l; Lqa.lra).
  set (u := 100 / inject_Z k) in *.
  assert (H : 0 <= u * (inject_Z c' - inject_Z c))
    by (apply Qmult_le_0_compat; Lqa.lra).
  unfold Qdiv. apply Qmult_le_compat_r; [Lqa.lra | discriminate].
Qed.

Lemma quantile_of_first (k : Z) : quantile_of k 0 == 0.
Proof.
  unfold quantile_of. replace (inject_Z 0) with 0 by reflexivity.
  unfold Qdiv. ring.
Qed.

Lemma quantile_of_last (k : Z) : (0 < k)%Z -> quantile_of k k == 1.
Proof.
  intros Hk. unfold quantile_of.
  assert (Hk' : 0 < inject_Z k).
  { replace 0 with (inject_Z 0) by reflexivity. now rewrite <- Zlt_Qlt. }
  field. Lqa.lra.
Qed.

Lemma monotonic_nth (l : list Q) :
  (forall i : nat, (S i < List.length l)%nat -> nth i l 0 <= nth (S i) l 0) ->
  np.monotonic Qle_bool l = true.
Proof.
  induction l as [|x l IH]; intros H; [reflexivity|].
  destruct l as [|y l]; [reflexivity|].
  change (np.monotonic Qle_bool (x :: y :: l))
    with (Qle_bool x y && np.monotonic Qle_bool (y :: l))%bool.
  apply andb_true_intro. split.
  - apply Qle_bool_iff. apply (H O). cbn. lia.
  - apply IH. intros i Hi. apply (H (S i)). cbn in *. lia.
Qed.

Lemma cut_points_of_step (a : list Q) (k : Z) (i : nat) :
  a <> [] -> (0 < k)%Z -> (S i < Z.to_nat (k + 1))%nat ->
  nth i (cut_points_of a k) 0 <= nth (S i) (cut_points_of a k) 0.
Proof.
  intros Ha Hk Hi. rewrite !cut_points_of_nth by lia.
  apply linear_quantile_mono.
  - apply sort_sorted.
  - now apply sort_nonempty.
  - apply quantile_of_mono; lia.
Qed.

Lemma cut_points_of_monotonic (a : list Q) (k : Z) :
  a <> [] -> (0 < k)%Z -> np.monotonic Qle_bool (cut_points_of a k) = true.
Proof.
  intros Ha Hk. apply monotonic_nth. intros i Hi.
  rewrite cut_points_of_length in Hi. now apply cut_points_of_step.
Qed.

Lemma cut_points_of_first (a : list Q) (k : Z) :
  a <> [] -> (0 < k)%Z -> nth 0 (cut_points_of a k) 0 == list_min a.
Proof.
  intros Ha Hk. rewrite cut_points_of_nth by lia.
  rewrite linear_quantile_zero.
  - now apply sort_first_is_min.
  - apply sort_sorted.
  - now apply sort_nonempty.
  - apply quantile_of_first.
Qed.

Lemma cut_points_of_last (a : list Q) (k : Z) :
  a <> [] -> (0 < k)%Z ->
  nth (Z.to_nat k) (cut_points_of a k) 0 == list_max a.
Proof.
  intros Ha Hk. rewrite cut_points_of_nth by lia.
  rewrite Z2Nat.id by lia.
  rewrite (linear_quantile_one (np.sort a) _ (quantile_of_last k Hk)).
  now apply sort_last_is_max.
Qed.

(** ** Running [group_creator] *)

Lemma percentile_ranks_run (k : Z) :
  k <> 0%Z ->
  percentile_ranks k =
    Ok (map (fun counter =>
               py_mul (py_truediv (py_float 100) (py_float k)) (py_float counter))
            (range (k + 1))).
Proof.
  intros Hk. unfold percentile_ranks.
  now replace (k =? 0)%Z with false by (symmetry; now apply Z.eqb_neq).
Qed.

Lemma forallb_map_compose {A B : Type} (p : B -> bool) (f : A -> B) (l : list A) :
  forallb p (map f l) = forallb (fun x => p (f x)) l.
Proof. induction l as [|x l IH]; cbn; [reflexivity | now rewrite IH]. Qed.

Lemma percentile_run (a : list Q) (k : Z) (ranks : list pyfloat) :
  percentile_ranks k = Ok ranks ->
  np.percentile (np.sort a) ranks =
    if ranks_accepted k then
      match a with
      | [] => Raise (IndexError "index -1 is out of bounds for axis 0 with size 0")
      | _ :: _ => Ok (cut_points_of a k)
      end
    else Raise percentile_range_error.
Proof.
  unfold percentile_ranks. destruct (k =? 0)%Z; [discriminate|].
  intros [= <-]. unfold np.percentile. rewrite !map_map, forallb_map_compose.
  fold (ranks_accepted k). destruct (ranks_accepted k); [|reflexivity].
  cbn [negb]. destruct a as [|x a]; [reflexivity|].
  rewrite sort_idempotent.
  destruct (np.sort (x :: a)) eqn:E.
  - exfalso. now apply (sort_nonempty (x :: a)).
  - now rewrite <- E.
Qed.

Lemma digitize_run (x cps : list Q) :
  np.monotonic Qle_bool cps = true ->
  np.digitize x cps = Ok (map (fun v => Z.of_nat (np.searchsorted_left cps v)) x).
Proof. intros H. unfold np.digitize. now rewrite H. Qed.

Lemma group_creator_run (s : PSIAnalyzer) :
  actual s <> [] -> (0 < group s)%Z -> ranks_accepted (group s) = true ->
  group_creator s = (Ok tt, grouped s).
Proof.
  intros Ha Hk Hr. unfold group_creator, bind, get, lift, modify.
  rewrite percentile_ranks_run by lia.
  rewrite (percentile_run _ _ _ (percentile_ranks_run (group s) ltac:(lia))).
  rewrite Hr. destruct (actual s) as [|x a] eqn:E; [contradiction|].
  rewrite <- E in *.
  rewrite !digitize_run by now apply cut_points_of_monotonic.
  reflexivity.
Qed.

Lemma group_creator_rejected (s : PSIAnalyzer) :
  group s <> 0%Z -> ranks_accepted (group s) = false ->
  group_creator s = (Raise percentile_range_error, s).
Proof.
  intros Hk Hr. unfold group_creator, bind, get, lift, modify.
  rewrite percentile_ranks_run by assumption.
  rewrite (percentile_run _ _ _ (percentile_ranks_run (group s) Hk)).
  now rewrite Hr.
Qed.

(** ** Running [_psi_calculator] *)

Lemma psi_calculator_cached (s : PSIAnalyzer) (cps : list Q) :
  cut_points s = Some cps ->
  (Z.to_nat (group s) < List.length cps)%nat ->
  _psi_calculator s = (Ok (returned (scored cps s)), scored cps s).
Proof.
  intros Hc Hlen. unfold _psi_calculator.
  unfold bind at 1. unfold get at 1. rewrite Hc.
  unfold bind at 1. unfold ret at 1.
  unfold bind at 1. unfold get at 1.
  unfold bind at 1. unfold range.
  rewrite (psi_loop_run cps) by (cbn; try assumption; lia).
  reflexivity.
Qed.

Lemma grouped_cut_points (s : PSIAnalyzer) :
  cut_points (grouped s) = Some (cut_points_of (actual s) (group s)).
Proof. reflexivity. Qed.

Lemma psi_calculator_first (s : PSIAnalyzer) :
  cut_points s = None ->
  actual s <> [] -> (0 < group s)%Z -> ranks_accepted (group s) = true ->
  _psi_calculator s =
    (Ok (returned (scored (cut_points_of (actual s) (group s)) (grouped s))),
     scored (cut_points_of (actual s) (group s)) (grouped s)).
Proof.
  intros Hc Ha Hk Hr. unfold _psi_calculator.
  unfold bind at 1. unfold get at 1. rewrite Hc.
  unfold bind at 1. rewrite group_creator_run by assumption.
  unfold bind at 1. unfold get at 1.
  unfold bind at 1. unfold range.
  rewrite (psi_loop_run (cut_points_of (actual s) (group s))).
  - reflexivity.
  - reflexivity.
  - rewrite cut_points_of_length. cbn. lia.
Qed.

Lemma psi_calculator_rejected (s : PSIAnalyzer) :
  cut_points s = None ->
  group s <> 0%Z -> ranks_accepted (group s) = false ->
  _psi_calculator s = (Raise percentile_range_error, s).
Proof.
  intros Hc Hk Hr. unfold _psi_calculator.
  unfold bind at 1. unfold get at 1. rewrite Hc.
  unfold bind at 1. now rewrite group_creator_rejected.
Qed.

(** ** The logarithm and the sign of a contribution *)

Lemma ln_le_minus_one (x : R) : (0 < x)%R -> (ln x <= x - 1)%R.
Proof.
  intros Hx. pose proof (exp_ineq1_le (ln x)) as H.
  rewrite exp_ln in H by assumption. Lra.lra.
Qed.

Lemma ln_nonneg (z : R) : (1 <= z)%R -> (0 <= ln z)%R.
Proof.
  intros [Hz|<-].
  - rewrite <- ln_1. left. apply ln_increasing; [Lra.lra | assumption].
  - rewrite ln_1. apply Rle_refl.
Qed.

Lemma ln_negative (z : R) : (0 < z)%R -> (z < 1)%R -> (ln z < 0)%R.
Proof. intros H0 H1. rewrite <- ln_1. now apply ln_increasing. Qed.

Lemma ratio_minus_one (x y : R) :
  (0 < y)%R -> (x / y = 1 + (x - y) * / y)%R.
Proof. intros Hy. field. Lra.lra. Qed.

Lemma contribution_sign (x y : R) :
  (0 < x)%R -> (0 < y)%R -> (0 <= (x - y) * ln (x / y))%R.
Proof.
  intros Hx Hy. pose proof (Rinv_0_lt_compat y Hy) as Hi.
  destruct (Rle_lt_dec y x) as [Hle|Hlt].
  - apply Rmult_le_pos; [Lra.lra|]. apply ln_nonneg.
    rewrite ratio_minus_one by assumption.
    assert (0 <= (x - y) * / y)%R by (apply Rmult_le_pos; Lra.lra). Lra.lra.
  - assert (Hr : (x / y < 1)%R).
    { rewrite ratio_minus_one by assumption.
      assert (0 < (y - x) * / y)%R by (apply Rmult_lt_0_compat; Lra.lra).
      Lra.lra. }
    assert (Hp : (0 < x / y)%R) by (apply Rdiv_lt_0_compat; assumption).
    pose proof (ln_negative _ Hp Hr) as Hn.
    replace ((x - y) * ln (x / y))%R with ((y - x) * - ln (x / y))%R by ring.
    apply Rmult_le_pos; Lra.lra.
Qed.

Lemma Q2R_zero : Q2R 0 = 0%R.
Proof. unfold Q2R. cbn. Lra.lra. Qed.

Lemma Q2R_pos (q : Q) : 0 < q -> (0 < Q2R q)%R.
Proof. intros H. rewrite <- Q2R_zero. now apply Qlt_Rlt. Qed.

Lemma Qcompare_gt0 (q : Q) : 0 < q -> (q ?= 0) = Gt.
Proof. intros H. now apply Qgt_alt. Qed.

Lemma Qcompare_lt0 (q : Q) : q < 0 -> (q ?= 0) = Lt.
Proof. intros H. now apply Qlt_alt. Qed.

Lemma Qcompare_eq0 (q : Q) : q == 0 -> (q ?= 0) = Eq.
Proof. intros H. now apply Qeq_alt. Qed.

Lemma Qeq_bool_pos (q : Q) : 0 < q -> Qeq_bool q 0 = false.
Proof.
  intros H. apply not_true_iff_false. intros E. apply Qeq_bool_iff in E.
  rewrite E in H. now apply Qlt_irrefl in H.
Qed.

(** With both proportions above 0 the contribution is the finite number
    [(a - e) * ln (a / e)]. *)
Lemma group_psi_of_positive (a e : Q) :
  0 < a -> 0 < e ->
  group_psi_of (Fin a) (Fin e) =
    Fin ((Q2R a - Q2R e) * ln (Q2R a / Q2R e))%R.
Proof.
  intros Ha He. unfold group_psi_of, np.sub, np.div.
  rewrite Qeq_bool_pos by assumption. unfold np.log.
  rewrite Qcompare_gt0 by (apply Qlt_shift_div_l; [assumption | Lqa.lra]).
  unfold np.mul. rewrite Q2R_minus, Q2R_div; [reflexivity|].
  intros E. rewrite E in He. now apply Qlt_irrefl in He.
Qed.

(** With no actual sample in the group the contribution is plus infinity. *)
Lemma group_psi_of_zero (a e : Q) :
  a == 0 -> 0 < e -> group_psi_of (Fin a) (Fin e) = PosInf.
Proof.
  intros Ha He. unfold group_psi_of, np.sub, np.div.
  rewrite Qeq_bool_pos by assumption. unfold np.log.
  rewrite Qcompare_eq0.
  2:{ rewrite Ha. field. intros E. rewrite E in He. now apply Qlt_irrefl in He. }
  unfold np.mul. rewrite Qcompare_lt0; [reflexivity|].
  rewrite Ha. Lqa.lra.
Qed.

Lemma group_psi_of_nan_r (x : float64 Q) : group_psi_of x NaN = NaN.
Proof. unfold group_psi_of. now destruct x. Qed.

Lemma group_psi_of_nonneg (a e : Q) :
  0 <= a -> 0 < e -> nonneg (group_psi_of (Fin a) (Fin e)).
Proof.
  intros Ha He. destruct (Qlt_le_dec 0 a) as [Hpos|Hle].
  - rewrite group_psi_of_positive by assumption. cbn.
    apply contribution_sign; now apply Q2R_pos.
  - rewrite group_psi_of_zero; [exact I | | assumption].
    now apply Qle_antisym.
Qed.

(** ** Proportions *)

Lemma true_divide_finite (c len : nat) :
  len <> O -> np.true_divide c len = Fin (Z.of_nat c # Pos.of_nat len).
Proof. intros H. destruct len; [contradiction | reflexivity]. Qed.

Lemma count_ratio_nonneg (c len : nat) : 0 <= Z.of_nat c # Pos.of_nat len.
Proof. unfold Qle. cbn. lia. Qed.

Lemma count_ratio_zero (c len : nat) :
  Z.of_nat c # Pos.of_nat len == 0 <-> c = O.
Proof. unfold Qeq. cbn. lia. Qed.

Lemma floor_constant_positive : 0 < floor_constant.
Proof. reflexivity. Qed.

Lemma expected_perc_at_positive (cps e : list Q) (len : nat) (k : Z) (i : nat) :
  len <> O -> above_zero (expected_perc_at cps e len k i).
Proof.
  intros Hlen. unfold expected_perc_at.
  destruct (Z.of_nat i + 1 =? k)%Z; rewrite true_divide_finite by assumption;
    cbn [np.eq0];
    match goal with
    | |- context [Qeq_bool ?q 0] =>
        destruct (Qeq_bool q 0) eqn:E;
        [ exact floor_constant_positive
        | cbn; apply Qeq_bool_neq in E;
          destruct (Qlt_le_dec 0 q) as [Hq|Hq]; [exact Hq|] ]
    end.
  all: exfalso; apply E; apply Qle_antisym; [exact Hq | apply count_ratio_nonneg].
Qed.

Lemma expected_perc_at_nan (cps : list Q) (k : Z) (i : nat) :
  expected_perc_at cps [] O k i = NaN.
Proof. unfold expected_perc_at. now destruct (Z.of_nat i + 1 =? k)%Z. Qed.

Lemma actual_perc_at_finite (cps a : list Q) (len : nat) (i : nat) :
  len <> O ->
  exists q : Q, actual_perc_at cps a len i = Fin q /\ 0 <= q.
Proof.
  intros Hlen. unfold actual_perc_at. rewrite true_divide_finite by assumption.
  eexists. split; [reflexivity | apply count_ratio_nonneg].
Qed.

Lemma group_psi_at_nonneg (cps a e : list Q) (la le : nat) (k : Z) (i : nat) :
  la <> O -> le <> O -> nonneg (group_psi_at cps a e la le k i).
Proof.
  intros Hla Hle. unfold group_psi_at.
  destruct (actual_perc_at_finite cps a la i Hla) as (qa & -> & Hqa).
  pose proof (expected_perc_at_positive cps e le k i Hle) as Hp.
  destruct (expected_perc_at cps e le k i) as [qe| | |]; try contradiction.
  now apply group_psi_of_nonneg.
Qed.

(** ** Sums *)

Lemma add_nonneg (x y : float64 R) : nonneg x -> nonneg y -> nonneg (np.add x y).
Proof.
  destruct x, y; cbn; try tauto. intros. Lra.lra.
Qed.

Lemma fold_add_nonneg (l : list (float64 R)) :
  Forall nonneg l -> forall acc, nonneg acc -> nonneg (fold_left np.add l acc).
Proof.
  induction 1 as [|x l Hx _ IH]; intros acc Hacc; cbn; [assumption|].
  apply IH. now apply add_nonneg.
Qed.

Lemma sum_nonneg (l : list (float64 R)) : Forall nonneg l -> nonneg (np.sum l).
Proof.
  intros H. apply fold_add_nonneg; [assumption|]. cbn. apply Rle_refl.
Qed.

Lemma fold_add_nan (l : list (float64 R)) : fold_left np.add l NaN = NaN.
Proof. induction l as [|x l IH]; [reflexivity | exact IH]. Qed.

Lemma sum_nan (l : list (float64 R)) : In NaN l -> np.sum l = NaN.
Proof.
  unfold np.sum. generalize (@Fin R 0%R).
  induction l as [|x l IH]; intros acc Hin; [contradiction|].
  cbn. destruct Hin as [->|Hin].
  - replace (np.add acc NaN) with (@NaN R) by now destruct acc.
    apply fold_add_nan.
  - now apply IH.
Qed.

(** ** Construction and the first call *)

Lemma init_inv (a e g : pyobj) (self : PSIAnalyzer) (w : list string) :
  __init__ a e g = Ok (self, w) ->
  exists k : Z,
    g = PyInt k /\ (2 <= k)%Z /\ self = fresh (as_array a) (as_array e) k.
Proof.
  unfold __init__. destruct (list_like a); [|discriminate].
  destruct (list_like e); [|discriminate]. cbn [negb].
  destruct g as [| | |k|]; try discriminate.
  destruct (k <? 2)%Z eqn:E; [discriminate|].
  intros [= <- _]. exists k. apply Z.ltb_ge in E. now repeat split.
Qed.

Lemma init_accepts (a e : pyobj) (k : Z) :
  list_like a = true -> list_like e = true -> (2 <= k)%Z ->
  __init__ a e (PyInt k) =
    Ok (fresh (as_array a) (as_array e) k,
        if (25 <? k)%Z then [group_warning] else []).
Proof.
  intros Ha He Hk. unfold __init__. rewrite Ha, He. cbn [negb].
  now replace (k <? 2)%Z with false by (symmetry; apply Z.ltb_ge; lia).
Qed.

Lemma first_call (a e : list Q) (k : Z) :
  a <> [] -> (2 <= k)%Z -> ranks_accepted k = true ->
  _psi_calculator (fresh a e k) =
    (Ok (returned (first_scored a e k)), first_scored a e k).
Proof.
  intros Ha Hk Hr. apply (psi_calculator_first (fresh a e k)); cbn;
    try assumption; try reflexivity; lia.
Qed.

Lemma first_call_rejected (a e : list Q) (k : Z) :
  (2 <= k)%Z -> ranks_accepted k = false ->
  _psi_calculator (fresh a e k) = (Raise percentile_range_error, fresh a e k).
Proof.
  intros Hk Hr. apply psi_calculator_rejected; cbn;
    try assumption; try reflexivity; lia.
Qed.

Lemma first_actual_percentages (a e : list Q) (k : Z) :
  actual_percentages (first_scored a e k) =
    map (actual_perc_at (cut_points_of a k) a (List.length a)) (group_indices k).
Proof. reflexivity. Qed.

Lemma first_expected_percentages (a e : list Q) (k : Z) :
  expected_percentages (first_scored a e k) =
    map (expected_perc_at (cut_points_of a k) e (List.length e) k)
        (group_indices k).
Proof. reflexivity. Qed.

Lemma first_group_psi_values (a e : list Q) (k : Z) :
  group_psi_values (first_scored a e k) =
    map (group_psi_at (cut_points_of a k) a e (List.length a) (List.length e) k)
        (group_indices k).
Proof. reflexivity. Qed.

Lemma first_cut_points (a e : list Q) (k : Z) :
  cut_points (first_scored a e k) = Some (cut_points_of a k).
Proof. reflexivity. Qed.

Lemma nth_error_map_seq {A : Type} (f : nat -> A) (n i : nat) (x : A) :
  nth_error (map f (seq 0 n)) i = Some x -> (i < n)%nat /\ x = f i.
Proof.
  intros H. assert (Hi : (i < n)%nat).
  { assert (Hl : (i < List.length (map f (seq 0 n)))%nat)
      by (apply nth_error_Some; now rewrite H).
    now rewrite length_map, length_seq in Hl. }
  split; [assumption|].
  rewrite nth_error_map, nth_error_seq in H.
  apply Nat.ltb_lt in Hi. rewrite Hi in H. cbn in H. congruence.
Qed.

Lemma first_call_empty_actual (e : list Q) (k : Z) :
  (2 <= k)%Z -> ranks_accepted k = true ->
  _psi_calculator (fresh [] e k) =
    (Raise (IndexError "index -1 is out of bounds for axis 0 with size 0"),
     fresh [] e k).
Proof.
  intros Hk Hr. unfold _psi_calculator.
  unfold bind at 1. unfold get at 1. cbn [cut_points fresh].
  unfold bind at 1.
  assert (H : group_creator (fresh [] e k) =
              (Raise (IndexError "index -1 is out of bounds for axis 0 with size 0"),
               fresh [] e k)).
  { unfold group_creator, bind, get, lift, modify. cbn [group actual fresh].
    rewrite percentile_ranks_run by lia.
    rewrite (percentile_run [] k _ (percentile_ranks_run k ltac:(lia))).
    now rewrite Hr. }
  now rewrite H.
Qed.

(** What a first call that returns has done. *)
Lemma first_call_inv (a e : list Q) (k : Z) (r : float64 R * list_ref)
  (s' : PSIAnalyzer) :
  (2 <= k)%Z ->
  _psi_calculator (fresh a e k) = (Ok r, s') ->
  a <> [] /\ ranks_accepted k = true /\
  s' = first_scored a e k /\ r = returned (first_scored a e k).
Proof.
  intros Hk Hrun. destruct (ranks_accepted k) eqn:Hr.
  - destruct a as [|x a].
    + rewrite first_call_empty_actual in Hrun by assumption. discriminate.
    + rewrite first_call in Hrun by (try assumption; discriminate).
      injection Hrun as <- <-. repeat split. discriminate.
  - rewrite first_call_rejected in Hrun by assumption. discriminate.
Qed.

Lemma length_nonzero {A : Type} (l : list A) : l <> [] -> List.length l <> O.
Proof. destruct l; [contradiction | discriminate]. Qed.

Lemma first_contributions (a e : list Q) (k : Z) :
  group_psi_values (first_scored a e k) =
    map (fun p => group_psi_of (fst p) (snd p))
        (combine (actual_percentages (first_scored a e k))
                 (expected_percentages (first_scored a e k))).
Proof.
  rewrite first_expected_percentages, first_actual_percentages,
    first_group_psi_values.
  induction (group_indices k) as [|i l IH]; cbn; [reflexivity | now rewrite IH].
Qed.

(** ** The example of the ten samples 1, ..., 10 in two groups *)

Lemma first_call_one_to_ten :
  _psi_calculator (fresh one_to_ten one_to_ten 2) =
    (Ok (returned (first_scored one_to_ten one_to_ten 2)),
     first_scored one_to_ten one_to_ten 2).
Proof. apply first_call; [discriminate | lia | reflexivity]. Qed.

Lemma one_to_ten_actual_percentages :
  actual_percentages (first_scored one_to_ten one_to_ten 2) =
    [Fin (5 # 10); Fin (4 # 10)].
Proof. rewrite first_actual_percentages. vm_compute. reflexivity. Qed.

Lemma one_to_ten_expected_percentages :
  expected_percentages (first_scored one_to_ten one_to_ten 2) =
    [Fin (5 # 10); Fin (5 # 10)].
Proof. rewrite first_expected_percentages. vm_compute. reflexivity. Qed.

Lemma one_to_ten_contributions :
  group_psi_values (first_scored one_to_ten one_to_ten 2) =
    [Fin ((Q2R (5 # 10) - Q2R (5 # 10)) * ln (Q2R (5 # 10) / Q2R (5 # 10)))%R;
     Fin ((Q2R (4 # 10) - Q2R (5 # 10)) * ln (Q2R (4 # 10) / Q2R (5 # 10)))%R].
Proof.
  rewrite first_contributions, one_to_ten_actual_percentages,
    one_to_ten_expected_percentages.
  cbn [combine map fst snd].
  now rewrite !group_psi_of_positive by reflexivity.
Qed.

(** The second group alone contributes at least 1/50. *)
Lemma one_to_ten_second_contribution :
  (1 / 50 <= (Q2R (4 # 10) - Q2R (5 # 10)) * ln (Q2R (4 # 10) / Q2R (5 # 10)))%R.
Proof.
  replace (Q2R (4 # 10) - Q2R (5 # 10))%R with (- (1 / 10))%R
    by (unfold Q2R; cbn; Lra.lra).
  replace (Q2R (4 # 10) / Q2R (5 # 10))%R with (4 / 5)%R
    by (unfold Q2R; cbn; Lra.lra).
  pose proof (ln_le_minus_one (4 / 5)%R ltac:(Lra.lra)). Lra.lra.
Qed.

Lemma one_to_ten_first_contribution :
  ((Q2R (5 # 10) - Q2R (5 # 10)) * ln (Q2R (5 # 10) / Q2R (5 # 10)) = 0)%R.
Proof. rewrite Rminus_diag. apply Rmult_0_l. Qed.

(** ** A second call *)

Lemma second_call (a e : list Q) (k : Z) :
  (0 <= k)%Z ->
  _psi_calculator (first_scored a e k) =
    (Ok (returned (second_scored a e k)), second_scored a e k).
Proof.
  intros Hk. apply psi_calculator_cached; [reflexivity|].
  rewrite cut_points_of_length. cbn. lia.
Qed.

Lemma second_group_psi_values (a e : list Q) (k : Z) :
  group_psi_values (second_scored a e k) =
    group_psi_values (first_scored a e k) ++ group_psi_values (first_scored a e k).
Proof. reflexivity. Qed.

(** * The claims *)

(** C7.  For every pair of non-empty datasets and every group count the
    constructor accepts, the psi value [_psi_calculator] returns is
    non-negative: a non-negative number or plus infinity, never NaN nor a
    negative value.  The call returns unless [np.percentile] rejects the
    ranks computed from the group count. *)
Theorem psi_nonnegative (a e g : pyobj) (self : PSIAnalyzer) (w : list string) :
  __init__ a e g = Ok (self, w) ->
  actual self <> [] -> expected self <> [] ->
  match _psi_calculator self with
  | (Ok (total, _), _) => nonneg total
  | (Raise err, _) =>
      err = percentile_range_error /\ ranks_accepted (group self) = false
  end.
Proof.
  intros Hinit Ha He.
  destruct (init_inv _ _ _ _ _ Hinit) as (k & -> & Hk & ->).
  cbn [actual expected group fresh] in *.
  destruct (ranks_accepted k) eqn:Hr.
  - rewrite first_call by assumption. cbn [returned fst].
    apply sum_nonneg. rewrite first_group_psi_values.
    apply Forall_forall. intros x Hx. apply in_map_iff in Hx.
    destruct Hx as (i & <- & _).
    apply group_psi_at_nonneg; now apply length_nonzero.
  - rewrite first_call_rejected by assumption. now split.
Qed.

Lemma psi_nonnegative_witness :
  __init__ (PyList one_to_ten) (PyList one_to_ten) (PyInt 2)
    = Ok (fresh one_to_ten one_to_ten 2, []) /\
  match _psi_calculator (fresh one_to_ten one_to_ten 2) with
  | (Ok (total, _), _) => nonneg total
  | (Raise err, _) =>
      err = percentile_range_error /\ ranks_accepted 2 = false
  end.
Proof.
  split; [reflexivity|].
  apply (psi_nonnegative (PyList one_to_ten) (PyList one_to_ten) (PyInt 2)
           (fresh one_to_ten one_to_ten 2) []);
    [reflexivity | discriminate | discriminate].
Defined.

Lemma map_combine_seq {A B C : Type} (f : A -> B -> C) (g : nat -> A)
  (h : nat -> B) (l : list nat) :
  map (fun p => f (fst p) (snd p)) (combine (map g l) (map h l)) =
  map (fun i => f (g i) (h i)) l.
Proof. induction l as [|i l IH]; cbn; [reflexivity | now rewrite IH]. Qed.

(** C10.  On every iteration of the scoring loop the expected proportion
    used in the contribution is a finite number above 0 once the zero floor
    has been applied, so [actual_perc / expected_perc] never divides by
    zero; the recorded proportions are the ones the contributions are
    computed from, one per group. *)
Theorem expected_proportion_positive (a e g : pyobj) (self : PSIAnalyzer)
  (w : list string) :
  __init__ a e g = Ok (self, w) ->
  actual self <> [] -> expected self <> [] ->
  match _psi_calculator self with
  | (Ok _, self') =>
      List.length (expected_percentages self') = Z.to_nat (group self) /\
      Forall above_zero (expected_percentages self') /\
      group_psi_values self' =
        map (fun p => group_psi_of (fst p) (snd p))
            (combine (actual_percentages self') (expected_percentages self'))
  | (Raise err, _) =>
      err = percentile_range_error /\ ranks_accepted (group self) = false
  end.
Proof.
  intros Hinit Ha He.
  destruct (init_inv _ _ _ _ _ Hinit) as (k & -> & Hk & ->).
  cbn [actual expected group fresh] in *.
  destruct (ranks_accepted k) eqn:Hr.
  - rewrite first_call by assumption.
    rewrite first_expected_percentages, first_actual_percentages,
      first_group_psi_values.
    split; [|split].
    + unfold group_indices. now rewrite length_map, length_seq.
    + apply Forall_forall. intros x Hx. apply in_map_iff in Hx.
      destruct Hx as (i & <- & _).
      apply expected_perc_at_positive. now apply length_nonzero.
    + now rewrite map_combine_seq.
  - rewrite first_call_rejected by assumption. now split.
Qed.

Lemma expected_proportion_positive_witness :
  __init__ (PyList one_to_four) (PyList mostly_ones) (PyInt 2)
    = Ok (fresh one_to_four mostly_ones 2, []) /\
  match _psi_calculator (fresh one_to_four mostly_ones 2) with
  | (Ok _, self') =>
      List.length (expected_percentages self') = Z.to_nat 2 /\
      Forall above_zero (expected_percentages self') /\
      group_psi_values self' =
        map (fun p => group_psi_of (fst p) (snd p))
            (combine (actual_percentages self') (expected_percentages self'))
  | (Raise err, _) =>
      err = percentile_range_error /\ ranks_accepted 2 = false
  end.
Proof.
  split; [reflexivity|].
  apply (expected_proportion_positive (PyList one_to_four) (PyList mostly_ones)
           (PyInt 2) (fresh one_to_four mostly_ones 2) []);
    [reflexivity | discriminate | discriminate].
Defined.

(** The contribution the code computes, where C1 and the class
    documentation have the ratio the other way round.  For every group with
    both proportions above 0, the contribution computed by
    [_psi_calculator] equals
    [(actual_pct - expected_pct) * ln (actual_pct / expected_pct)]: the
    ratio inside the logarithm is actual over expected. *)
Theorem contribution_is_actual_over_expected (a e g : pyobj)
  (self self' : PSIAnalyzer) (w : list string) (r : float64 R * list_ref) :
  __init__ a e g = Ok (self, w) ->
  _psi_calculator self = (Ok r, self') ->
  contribution_formula actual_over_expected self'.
Proof.
  intros Hinit Hrun.
  destruct (init_inv _ _ _ _ _ Hinit) as (k & -> & Hk & ->).
  destruct (first_call_inv _ _ _ _ _ Hk Hrun) as (Ha & Hr & -> & _).
  intros i pa pe Hpa Hpe Hpos_a Hpos_e.
  rewrite first_actual_percentages in Hpa.
  rewrite first_expected_percentages in Hpe.
  rewrite first_group_psi_values.
  apply nth_error_map_seq in Hpa. destruct Hpa as [Hi Hpa].
  apply nth_error_map_seq in Hpe. destruct Hpe as [_ Hpe].
  unfold group_indices. rewrite nth_error_map, nth_error_seq.
  apply Nat.ltb_lt in Hi. rewrite Hi. cbn [option_map Nat.add].
  unfold group_psi_at. rewrite <- Hpa, <- Hpe.
  now rewrite group_psi_of_positive.
Qed.

Lemma first_call_one_to_four :
  _psi_calculator (fresh one_to_four mostly_ones 2) =
    (Ok (returned (first_scored one_to_four mostly_ones 2)),
     first_scored one_to_four mostly_ones 2).
Proof. apply first_call; [discriminate | lia | reflexivity]. Qed.

Lemma contribution_is_actual_over_expected_witness :
  __init__ (PyList one_to_four) (PyList mostly_ones) (PyInt 2)
    = Ok (fresh one_to_four mostly_ones 2, []) /\
  _psi_calculator (fresh one_to_four mostly_ones 2) =
    (Ok (returned (first_scored one_to_four mostly_ones 2)),
     first_scored one_to_four mostly_ones 2) /\
  contribution_formula actual_over_expected
    (first_scored one_to_four mostly_ones 2).
Proof.
  split; [reflexivity|]. split; [exact first_call_one_to_four|].
  apply (contribution_is_actual_over_expected
           (PyList one_to_four) (PyList mostly_ones) (PyInt 2)
           (fresh one_to_four mostly_ones 2)
           (first_scored one_to_four mostly_ones 2) []
           (returned (first_scored one_to_four mostly_ones 2)));
    [reflexivity | exact first_call_one_to_four].
Defined.

Lemma ln_ratio_differs (x y : R) :
  (0 < x)%R -> (x < y)%R -> ln (x / y) <> ln (y / x).
Proof.
  intros Hx Hxy Heq.
  assert (Hy : (0 < y)%R) by Lra.lra.
  assert (Hlt : (x / y < y / x)%R).
  { apply Rlt_trans with 1%R.
    - rewrite ratio_minus_one by assumption.
      assert (0 < (y - x) * / y)%R
        by (apply Rmult_lt_0_compat; [Lra.lra | now apply Rinv_0_lt_compat]).
      Lra.lra.
    - rewrite ratio_minus_one by assumption.
      assert (0 < (y - x) * / x)%R
        by (apply Rmult_lt_0_compat; [Lra.lra | now apply Rinv_0_lt_compat]).
      Lra.lra. }
  assert (Hp : (0 < x / y)%R) by now apply Rdiv_lt_0_compat.
  pose proof (ln_increasing _ _ Hp Hlt). Lra.lra.
Qed.

(** C1 fails on the code: with actual [1, 2, 3, 4], expected [1, 1, 1, 3]
    and two groups, the first group has proportions 2/4 and 3/4 and its
    contribution is not [(2/4 - 3/4) * ln ((3/4) / (2/4))], the value the
    formula of the class documentation gives. *)
Lemma contribution_is_not_expected_over_actual :
  _psi_calculator (fresh one_to_four mostly_ones 2) =
    (Ok (returned (first_scored one_to_four mostly_ones 2)),
     first_scored one_to_four mostly_ones 2) /\
  ~ contribution_formula expected_over_actual
      (first_scored one_to_four mostly_ones 2).
Proof.
  split; [exact first_call_one_to_four|]. intros H.
  specialize (H O (2 # 4) (3 # 4)).
  rewrite first_actual_percentages, first_expected_percentages,
    first_group_psi_values in H.
  specialize (H eq_refl eq_refl eq_refl eq_refl).
  change (nth_error
            (map (group_psi_at (cut_points_of one_to_four 2) one_to_four
                    mostly_ones (List.length one_to_four)
                    (List.length mostly_ones) 2)
               (group_indices 2)) 0)
    with (Some (group_psi_of
                  (actual_perc_at (cut_points_of one_to_four 2) one_to_four 4 0)
                  (expected_perc_at (cut_points_of one_to_four 2) mostly_ones 4 2 0)))
    in H.
  replace (actual_perc_at (cut_points_of one_to_four 2) one_to_four 4 0)
    with (@Fin Q (2 # 4)) in H by (vm_compute; reflexivity).
  replace (expected_perc_at (cut_points_of one_to_four 2) mostly_ones 4 2 0)
    with (@Fin Q (3 # 4)) in H by (vm_compute; reflexivity).
  rewrite group_psi_of_positive in H by reflexivity.
  injection H as H. unfold expected_over_actual in H.
  apply Rmult_eq_reg_l in H.
  - revert H. apply ln_ratio_differs; unfold Q2R; cbn; Lra.lra.
  - unfold Q2R; cbn; Lra.lra.
Qed.

(** C2 (the code at actual = expected = [1, ..., 10], two groups).  The two
    actual proportions are 5/10 and 4/10: the sample 10, the maximum, is in
    no group, and the proportions sum to 9/10, not 1. *)
Theorem actual_proportions_drop_the_maximum :
  _psi_calculator (fresh one_to_ten one_to_ten 2) =
    (Ok (returned (first_scored one_to_ten one_to_ten 2)),
     first_scored one_to_ten one_to_ten 2) /\
  actual_percentages (first_scored one_to_ten one_to_ten 2) =
    [Fin (5 # 10); Fin (4 # 10)] /\
  exists q : Q,
    total_of (actual_percentages (first_scored one_to_ten one_to_ten 2)) = Some q /\
    q == 9 # 10 /\ ~ q == 1.
Proof.
  split; [exact first_call_one_to_ten|].
  split; [exact one_to_ten_actual_percentages|].
  rewrite one_to_ten_actual_percentages. cbn [total_of option_map].
  eexists. split; [reflexivity|]. split; [reflexivity | discriminate].
Qed.

(** C3 (the code at actual = expected = [1, ..., 10], two groups).  The cut
    points are 1, 5.5 and 10, but the returned psi is at least 1/50: the
    second group holds 4/10 of actual and 5/10 of expected. *)
Theorem psi_of_a_dataset_against_itself :
  _psi_calculator (fresh one_to_ten one_to_ten 2) =
    (Ok (returned (first_scored one_to_ten one_to_ten 2)),
     first_scored one_to_ten one_to_ten 2) /\
  (exists cps : list Q,
     cut_points (first_scored one_to_ten one_to_ten 2) = Some cps /\
     Forall2 Qeq cps [1; 11 # 2; 10]) /\
  exists r : R,
    fst (returned (first_scored one_to_ten one_to_ten 2)) = Fin r /\
    (1 / 50 <= r)%R.
Proof.
  split; [exact first_call_one_to_ten|]. split.
  - exists (cut_points_of one_to_ten 2). split; [reflexivity|].
    vm_compute. repeat constructor.
  - unfold returned. cbn [fst]. rewrite one_to_ten_contributions.
    unfold np.sum. cbn [fold_left np.add]. eexists. split; [reflexivity|].
    rewrite one_to_ten_first_contribution.
    pose proof one_to_ten_second_contribution. Lra.lra.
Qed.

(** C9 (the code at actual = [1, ..., 10], two groups).  The group indices
    stored for the samples are 1, 2, 2, 2, 2, 3, 3, 3, 3, 3: only the
    minimum is in group 1 and the samples above 5.5, the maximum among
    them, are in group 3, beyond the two groups. *)
Theorem group_indices_exceed_group_count :
  group_creator (fresh one_to_ten one_to_ten 2) =
    (Ok tt, grouped (fresh one_to_ten one_to_ten 2)) /\
  actual_groups (grouped (fresh one_to_ten one_to_ten 2)) =
    [1; 2; 2; 2; 2; 3; 3; 3; 3; 3]%Z /\
  nth 9 one_to_ten 0 = list_max one_to_ten /\
  (group (fresh one_to_ten one_to_ten 2)
     < nth 9 (actual_groups (grouped (fresh one_to_ten one_to_ten 2))) 0)%Z.
Proof.
  split.
  - apply group_creator_run; [discriminate | reflexivity | reflexivity].
  - split; [vm_compute; reflexivity|]. split; reflexivity.
Qed.

(** C8 (the code at group = 11).  The constructor accepts 11 groups, but
    the last rank, [(100 / 11) * 11], is 100.00000000000001 in binary64:
    [np.percentile] rejects it and [group_creator] raises instead of
    producing 12 cut points. *)
Theorem eleven_groups_are_rejected :
  __init__ (PyList one_to_three) (PyList one_to_three) (PyInt 11)
    = Ok (fresh one_to_three one_to_three 11, []) /\
  group_creator (fresh one_to_three one_to_three 11) =
    (Raise percentile_range_error, fresh one_to_three one_to_three 11) /\
  cut_points (snd (group_creator (fresh one_to_three one_to_three 11))) = None /\
  PrimFloat.ltb (binary64 (py_float 100))
    (binary64 (py_mul (py_truediv (py_float 100) (py_float 11)) (py_float 11)))
    = true.
Proof.
  assert (H : group_creator (fresh one_to_three one_to_three 11) =
              (Raise percentile_range_error, fresh one_to_three one_to_three 11)).
  { apply group_creator_rejected; [discriminate | reflexivity]. }
  split; [reflexivity|]. split; [exact H|]. rewrite H.
  split; reflexivity.
Qed.

(** C4 (the code at actual = expected = [1, ..., 10], two groups, called
    twice).  The second call appends to the list the first call filled: the
    list the calls hand out, one object, then holds 4 contributions, the 2
    of the first call twice, and the second psi is twice the first, which
    is not 0. *)
Theorem second_call_accumulates :
  _psi_calculator (fresh one_to_ten one_to_ten 2) =
    (Ok (returned (first_scored one_to_ten one_to_ten 2)),
     first_scored one_to_ten one_to_ten 2) /\
  _psi_calculator (first_scored one_to_ten one_to_ten 2) =
    (Ok (returned (second_scored one_to_ten one_to_ten 2)),
     second_scored one_to_ten one_to_ten 2) /\
  List.length (deref (first_scored one_to_ten one_to_ten 2)
                 (snd (returned (first_scored one_to_ten one_to_ten 2)))) = 2%nat /\
  deref (second_scored one_to_ten one_to_ten 2)
        (snd (returned (second_scored one_to_ten one_to_ten 2))) =
    deref (first_scored one_to_ten one_to_ten 2)
          (snd (returned (first_scored one_to_ten one_to_ten 2)))
    ++ deref (first_scored one_to_ten one_to_ten 2)
             (snd (returned (first_scored one_to_ten one_to_ten 2))) /\
  exists r : R,
    fst (returned (first_scored one_to_ten one_to_ten 2)) = Fin r /\
    fst (returned (second_scored one_to_ten one_to_ten 2)) = Fin (r + r)%R /\
    (r + r <> r)%R.
Proof.
  split; [exact first_call_one_to_ten|].
  split; [apply second_call; lia|].
  split; [reflexivity|]. split; [reflexivity|].
  unfold returned. cbn [fst]. rewrite second_group_psi_values.
  rewrite one_to_ten_contributions.
  unfold np.sum. cbn [app fold_left np.add].
  rewrite one_to_ten_first_contribution.
  pose proof one_to_ten_second_contribution as H.
  eexists. split; [reflexivity|]. split; [f_equal; Lra.lra | Lra.lra].
Qed.

(** C5 (as the code has it).  The constructor accepts empty datasets.  At
    the first computation, for a group count whose ranks [np.percentile]
    accepts, an empty actual dataset makes the call raise the [IndexError]
    of [np.percentile], the object left as it was; an empty expected
    dataset beside a non-empty actual one raises nothing: every expected
    proportion, every contribution and the returned psi are NaN. *)
Theorem empty_datasets (a e : pyobj) (k : Z) :
  list_like a = true -> list_like e = true -> (2 <= k)%Z ->
  ranks_accepted k = true ->
  exists (self : PSIAnalyzer) (w : list string),
    __init__ a e (PyInt k) = Ok (self, w) /\
    (as_array a = [] ->
     _psi_calculator self =
       (Raise (IndexError "index -1 is out of bounds for axis 0 with size 0"),
        self)) /\
    (as_array a <> [] -> as_array e = [] ->
     exists self' : PSIAnalyzer,
       _psi_calculator self = (Ok (NaN, self_group_psi_values), self') /\
       expected_percentages self' = repeat NaN (Z.to_nat k) /\
       group_psi_values self' = repeat NaN (Z.to_nat k)).
Proof.
  intros Ha He Hk Hr. do 2 eexists.
  split; [now apply init_accepts|]. split.
  - intros Hempty. rewrite Hempty. now apply first_call_empty_actual.
  - intros Hne Hempty. rewrite Hempty.
    exists (first_scored (as_array a) [] k).
    rewrite first_call by assumption.
    assert (Hp : expected_percentages (first_scored (as_array a) [] k) =
                 repeat NaN (Z.to_nat k)).
    { rewrite first_expected_percentages. unfold group_indices.
      generalize 0%nat. induction (Z.to_nat k) as [|n IH]; intros start;
        [reflexivity|].
      cbn [seq map repeat List.length]. rewrite IH. f_equal.
      apply expected_perc_at_nan. }
    assert (Hl : group_psi_values (first_scored (as_array a) [] k) =
                 repeat NaN (Z.to_nat k)).
    { clear Hp. rewrite first_group_psi_values. unfold group_indices.
      generalize 0%nat. induction (Z.to_nat k) as [|n IH]; intros start;
        [reflexivity|].
      cbn [seq map repeat]. rewrite IH. f_equal.
      unfold group_psi_at. cbn [List.length].
      rewrite expected_perc_at_nan. apply group_psi_of_nan_r. }
    split; [|now split]. unfold returned. rewrite Hl.
    rewrite sum_nan; [reflexivity|].
    destruct (Z.to_nat k) eqn:E; [lia | now left].
Qed.

Lemma empty_datasets_witness :
  (list_like (PyList []) = true /\ list_like (PyList one_to_four) = true /\
   (2 <= 2)%Z /\ ranks_accepted 2 = true /\
   exists (self : PSIAnalyzer) (w : list string),
     __init__ (PyList []) (PyList one_to_four) (PyInt 2) = Ok (self, w) /\
     (as_array (PyList []) = [] ->
      _psi_calculator self =
        (Raise (IndexError "index -1 is out of bounds for axis 0 with size 0"),
         self)) /\
     (as_array (PyList []) <> [] -> as_array (PyList one_to_four) = [] ->
      exists self' : PSIAnalyzer,
        _psi_calculator self = (Ok (NaN, self_group_psi_values), self') /\
        expected_percentages self' = repeat NaN (Z.to_nat 2) /\
        group_psi_values self' = repeat NaN (Z.to_nat 2))) /\
  (list_like (PyList one_to_four) = true /\ list_like (PyList []) = true /\
   (2 <= 2)%Z /\ ranks_accepted 2 = true /\
   exists (self : PSIAnalyzer) (w : list string),
     __init__ (PyList one_to_four) (PyList []) (PyInt 2) = Ok (self, w) /\
     (as_array (PyList one_to_four) = [] ->
      _psi_calculator self =
        (Raise (IndexError "index -1 is out of bounds for axis 0 with size 0"),
         self)) /\
     (as_array (PyList one_to_four) <> [] -> as_array (PyList []) = [] ->
      exists self' : PSIAnalyzer,
        _psi_calculator self = (Ok (NaN, self_group_psi_values), self') /\
        expected_percentages self' = repeat NaN (Z.to_nat 2) /\
        group_psi_values self' = repeat NaN (Z.to_nat 2))).
Proof.
  split; (split; [reflexivity|]); (split; [reflexivity|]); (split; [lia|]);
    (split; [reflexivity|]).
  - apply (empty_datasets (PyList []) (PyList one_to_four) 2);
      [reflexivity | reflexivity | lia | reflexivity].
  - apply (empty_datasets (PyList one_to_four) (PyList []) 2);
      [reflexivity | reflexivity | lia | reflexivity].
Defined.

(** C5 (as stated) fails: with actual [1, 2, 3, 4], an empty expected
    dataset and two groups, neither the constructor nor the first
    computation raises. *)
Lemma empty_expected_raises_nothing :
  ~ raises_an_error (PyList one_to_four) (PyList []) (PyInt 2).
Proof.
  assert (Hrun : _psi_calculator (fresh one_to_four [] 2) =
                 (Ok (returned (first_scored one_to_four [] 2)),
                  first_scored one_to_four [] 2))
    by (apply first_call; [discriminate | lia | reflexivity]).
  intros [[err H]|(self & self' & w & err & Hinit & H)].
  - discriminate H.
  - injection Hinit as <- _.
    change (_psi_calculator (fresh one_to_four [] 2) = (Raise err, self')) in H.
    rewrite Hrun in H. discriminate H.
Qed.


Lemma first_call_tied :
  _psi_calculator (fresh tied tied 2) =
    (Ok (returned (first_scored tied tied 2)), first_scored tied tied 2).
Proof. apply first_call; [discriminate | lia | reflexivity]. Qed.



(** * Further properties of the code *)

(** With the ratio the other way round no contribution could be positive:
    the orientation of the code is the one that makes psi non-negative. *)
Lemma expected_over_actual_nonpositive (x y : R) :
  (0 < x)%R -> (0 < y)%R -> (expected_over_actual x y <= 0)%R.
Proof.
  intros Hx Hy. unfold expected_over_actual.
  pose proof (contribution_sign y x Hy Hx) as H.
  replace ((x - y) * ln (y / x))%R with (- ((y - x) * ln (y / x)))%R by ring.
  Lra.lra.
Qed.

(** A second call on any object: the list holds the contributions of the
    first call twice. *)
Theorem second_call_doubles (a e g : pyobj) (self : PSIAnalyzer)
  (w : list string) :
  __init__ a e g = Ok (self, w) ->
  actual self <> [] ->
  ranks_accepted (group self) = true ->
  exists (s1 s2 : PSIAnalyzer) (r1 r2 : float64 R * list_ref),
    _psi_calculator self = (Ok r1, s1) /\
    _psi_calculator s1 = (Ok r2, s2) /\
    snd r2 = snd r1 /\
    List.length (deref s1 (snd r1)) = Z.to_nat (group self) /\
    deref s2 (snd r2) = deref s1 (snd r1) ++ deref s1 (snd r1) /\
    List.length (deref s2 (snd r1)) = (2 * Z.to_nat (group self))%nat.
Proof.
  intros Hinit Ha Hr.
  destruct (init_inv _ _ _ _ _ Hinit) as (k & -> & Hk & ->).
  cbn [actual expected group fresh] in *.
  exists (first_scored (as_array a) (as_array e) k),
         (second_scored (as_array a) (as_array e) k).
  do 2 eexists.
  split; [now apply first_call|].
  split; [apply second_call; lia|].
  split; [reflexivity|].
  assert (Hlen : List.length (group_psi_values
                                (first_scored (as_array a) (as_array e) k))
                 = Z.to_nat k).
  { rewrite first_group_psi_values. unfold group_indices.
    now rewrite length_map, length_seq. }
  split; [exact Hlen|]. split; [reflexivity|].
  cbn [returned snd deref]. rewrite second_group_psi_values, length_app, Hlen.
  lia.
Qed.

Lemma second_call_doubles_witness :
  __init__ (PyList one_to_four) (PyList mostly_ones) (PyInt 2)
    = Ok (fresh one_to_four mostly_ones 2, []) /\
  actual (fresh one_to_four mostly_ones 2) <> [] /\
  ranks_accepted (group (fresh one_to_four mostly_ones 2)) = true /\
  exists (s1 s2 : PSIAnalyzer) (r1 r2 : float64 R * list_ref),
    _psi_calculator (fresh one_to_four mostly_ones 2) = (Ok r1, s1) /\
    _psi_calculator s1 = (Ok r2, s2) /\
    snd r2 = snd r1 /\
    List.length (deref s1 (snd r1))
      = Z.to_nat (group (fresh one_to_four mostly_ones 2)) /\
    deref s2 (snd r2) = deref s1 (snd r1) ++ deref s1 (snd r1) /\
    List.length (deref s2 (snd r1))
      = (2 * Z.to_nat (group (fresh one_to_four mostly_ones 2)))%nat.
Proof.
  split; [reflexivity|]. split; [discriminate|]. split; [reflexivity|].
  apply (second_call_doubles (PyList one_to_four) (PyList mostly_ones) (PyInt 2)
           (fresh one_to_four mostly_ones 2) []);
    [reflexivity | discriminate | reflexivity].
Defined.

(** ** Counting the actual samples over the groups *)

Lemma count_mask_cons (p : Q -> bool) (x : Q) (a : list Q) :
  count_mask p (x :: a) = ((if p x then 1 else 0) + count_mask p a)%nat.
Proof. unfold count_mask. cbn. now destruct (p x). Qed.

Lemma count_mask_ext (p q : Q -> bool) (a : list Q) :
  (forall x : Q, In x a -> p x = q x) -> count_mask p a = count_mask q a.
Proof.
  induction a as [|x a IH]; intros H; [reflexivity|].
  rewrite !count_mask_cons, (H x) by now left.
  rewrite IH; [reflexivity|]. intros y Hy. apply H. now right.
Qed.

Lemma count_mask_le (p : Q -> bool) (a : list Q) :
  (count_mask p a <= List.length a)%nat.
Proof.
  induction a as [|x a IH]; [apply Nat.le_refl|].
  rewrite count_mask_cons. cbn [List.length]. destruct (p x); lia.
Qed.

Lemma count_mask_lt (p : Q -> bool) (a : list Q) (x : Q) :
  In x a -> p x = false -> (count_mask p a < List.length a)%nat.
Proof.
  induction a as [|y a IH]; intros Hin Hp; [contradiction|].
  rewrite count_mask_cons. cbn [List.length].
  pose proof (count_mask_le p a). destruct Hin as [->|Hin].
  - rewrite Hp. lia.
  - specialize (IH Hin Hp). destruct (p y); lia.
Qed.

Lemma count_mask_none (a : list Q) : count_mask (fun _ => false) a = O.
Proof.
  induction a as [|x a IH]; [reflexivity|]. now rewrite count_mask_cons, IH.
Qed.

Lemma in_group_true (lo hi x : Q) :
  in_group lo hi x = true <-> lo <= x /\ x < hi.
Proof.
  unfold in_group. now rewrite andb_true_iff, Qle_bool_iff, Qltb_lt.
Qed.

Lemma in_group_split (lo mid hi x : Q) :
  lo <= mid -> mid <= hi ->
  ((if in_group lo mid x then 1 else 0) + (if in_group mid hi x then 1 else 0)
   = if in_group lo hi x then 1 else 0)%nat.
Proof.
  intros H1 H2.
  destruct (in_group lo mid x) eqn:E1, (in_group mid hi x) eqn:E2,
           (in_group lo hi x) eqn:E3; try reflexivity; exfalso;
    repeat match goal with
           | H : in_group _ _ _ = true |- _ => apply in_group_true in H
           | H : in_group _ _ _ = false |- _ =>
               apply not_true_iff_false in H; rewrite in_group_true in H
           end.
  - destruct E1, E2. Lqa.lra.
  - destruct E1, E2. Lqa.lra.
  - apply E3. destruct E1. split; Lqa.lra.
  - apply E3. destruct E2. split; Lqa.lra.
  - destruct E3 as [E3 E3']. destruct (Qlt_le_dec x mid) as [Hx|Hx].
    + apply E1. now split.
    + apply E2. now split.
Qed.

Lemma count_split (lo mid hi : Q) (a : list Q) :
  lo <= mid -> mid <= hi ->
  (count_mask (in_group lo mid) a + count_mask (in_group mid hi) a
   = count_mask (in_group lo hi) a)%nat.
Proof.
  intros H1 H2. induction a as [|x a IH]; [reflexivity|].
  rewrite !count_mask_cons, <- IH, <- (in_group_split lo mid hi x H1 H2). lia.
Qed.

Lemma steps_monotone (cps : list Q) (m : nat) :
  (forall i : nat, (i < m)%nat -> nth i cps 0 <= nth (S i) cps 0) ->
  nth 0 cps 0 <= nth m cps 0.
Proof.
  induction m as [|m IH]; intros H; [apply Qle_refl|].
  eapply Qle_trans; [apply IH | apply H]; [|lia].
  intros i Hi. apply H. lia.
Qed.

Lemma counts_telescope (cps a : list Q) (m : nat) :
  (forall i : nat, (i < m)%nat -> nth i cps 0 <= nth (S i) cps 0) ->
  list_sum (map (fun i => count_mask (in_group (nth i cps 0) (nth (S i) cps 0)) a)
                (seq 0 m))
  = count_mask (in_group (nth 0 cps 0) (nth m cps 0)) a.
Proof.
  induction m as [|m IH]; intros H.
  - cbn [seq map list_sum]. symmetry.
    assert (E : count_mask (in_group (nth 0 cps 0) (nth 0 cps 0)) a
                = count_mask (fun _ => false) a).
    { apply count_mask_ext. intros x _. apply not_true_iff_false.
      rewrite in_group_true. intros [H1 H2]. Lqa.lra. }
    rewrite E. apply count_mask_none.
  - rewrite seq_S, map_app, list_sum_app.
    rewrite IH by (intros i Hi; apply H; lia).
    cbn [map Nat.add]. unfold list_sum at 1. cbn [fold_right].
    rewrite Nat.add_0_r. apply count_split.
    + apply steps_monotone. intros i Hi. apply H. lia.
    + apply H. lia.
Qed.

Lemma Qmake_plus_same (x y : Z) (p : positive) :
  (x # p) + (y # p) == (x + y) # p.
Proof.
  unfold Qeq, Qplus. cbn [Qnum Qden]. rewrite Pos2Z.inj_mul. ring.
Qed.

Lemma count_ratio_below_one (c len : nat) :
  (c < len)%nat -> Z.of_nat c # Pos.of_nat len < 1.
Proof.
  intros H. unfold Qlt. cbn [Qnum Qden]. rewrite Z.mul_1_r, Z.mul_1_l.
  destruct len as [|n]; [lia|].
  rewrite <- Pos.of_nat_succ, Zpos_P_of_succ_nat. lia.
Qed.

Lemma total_of_counts (c : nat -> nat) (len : nat) (idx : list nat) :
  len <> O ->
  exists q : Q,
    total_of (map (fun i => np.true_divide (c i) len) idx) = Some q /\
    q == Z.of_nat (list_sum (map c idx)) # Pos.of_nat len.
Proof.
  intros Hlen. induction idx as [|i idx (q & Hq & Heq)].
  - exists 0. split; [reflexivity|]. reflexivity.
  - change (list_sum (map c (i :: idx))) with (c i + list_sum (map c idx))%nat.
    cbn [map total_of]. rewrite true_divide_finite by assumption.
    rewrite Hq. cbn [option_map]. eexists. split; [reflexivity|].
    now rewrite Heq, Nat2Z.inj_add, Qmake_plus_same.
Qed.

(** The actual proportions of a first call sum to the share of the samples
    strictly below the largest one: a sample equal to the maximum is counted
    in no group, so the sum is below 1. *)
Theorem actual_proportions_sum (a e g : pyobj) (self self' : PSIAnalyzer)
  (w : list string) (r : float64 R * list_ref) :
  __init__ a e g = Ok (self, w) ->
  _psi_calculator self = (Ok r, self') ->
  exists q : Q,
    total_of (actual_percentages self') = Some q /\
    q == Z.of_nat (below_maximum (actual self))
         # Pos.of_nat (List.length (actual self)) /\
    q < 1.
Proof.
  intros Hinit Hrun.
  destruct (init_inv _ _ _ _ _ Hinit) as (k & -> & Hk & ->).
  destruct (first_call_inv _ _ _ _ _ Hk Hrun) as (Ha & Hr & -> & _).
  cbn [actual expected group fresh] in *.
  set (arr := as_array a) in *. set (cps := cut_points_of arr k).
  pose proof (length_nonzero arr Ha) as Hlen.
  destruct (total_of_counts
              (fun i => count_mask (in_group (nth i cps 0) (nth (S i) cps 0)) arr)
              (List.length arr) (group_indices k) Hlen) as (q & Hq & Heq).
  exists q. split; [exact Hq|].
  assert (Hsum : list_sum
                   (map (fun i => count_mask
                                    (in_group (nth i cps 0) (nth (S i) cps 0)) arr)
                        (group_indices k))
                 = below_maximum arr).
  { unfold group_indices. rewrite counts_telescope.
    - apply count_mask_ext. intros x Hx. unfold in_group.
      assert (Hlo : Qle_bool (nth 0 cps 0) x = true).
      { apply Qle_bool_iff. unfold cps.
        rewrite cut_points_of_first by (try assumption; lia).
        now apply list_min_le. }
      rewrite Hlo. cbn [andb].
      assert (Hmax : nth (Z.to_nat k) cps 0 == list_max arr)
        by (apply cut_points_of_last; try assumption; lia).
      destruct (Qltb x (nth (Z.to_nat k) cps 0)) eqn:E1,
               (Qltb x (list_max arr)) eqn:E2; try reflexivity; exfalso.
      + apply Qltb_lt in E1. apply not_true_iff_false in E2.
        apply E2, Qltb_lt. now rewrite <- Hmax.
      + apply Qltb_lt in E2. apply not_true_iff_false in E1.
        apply E1, Qltb_lt. now rewrite Hmax.
    - intros i Hi. apply cut_points_of_step; try assumption; lia. }
  rewrite Hsum in Heq. split; [exact Heq|].
  rewrite Heq. apply count_ratio_below_one. unfold below_maximum.
  apply (count_mask_lt (fun x => Qltb x (list_max arr)) arr (list_max arr)).
  - now apply list_max_in.
  - apply not_true_iff_false. rewrite Qltb_lt. apply Qlt_irrefl.
Qed.

Lemma actual_proportions_sum_witness :
  __init__ (PyList one_to_ten) (PyList one_to_ten) (PyInt 2)
    = Ok (fresh one_to_ten one_to_ten 2, []) /\
  _psi_calculator (fresh one_to_ten one_to_ten 2) =
    (Ok (returned (first_scored one_to_ten one_to_ten 2)),
     first_scored one_to_ten one_to_ten 2) /\
  exists q : Q,
    total_of (actual_percentages (first_scored one_to_ten one_to_ten 2)) = Some q /\
    q == Z.of_nat (below_maximum (actual (fresh one_to_ten one_to_ten 2)))
         # Pos.of_nat (List.length (actual (fresh one_to_ten one_to_ten 2))) /\
    q < 1.
Proof.
  split; [reflexivity|]. split; [exact first_call_one_to_ten|].
  apply (actual_proportions_sum (PyList one_to_ten) (PyList one_to_ten) (PyInt 2)
           (fresh one_to_ten one_to_ten 2) (first_scored one_to_ten one_to_ten 2)
           [] (returned (first_scored one_to_ten one_to_ten 2)));
    [reflexivity | exact first_call_one_to_ten].
Defined.

(** ** The group indices of the samples *)

Lemma searchsorted_left_le (bins : list Q) (x : Q) :
  forall i : nat,
    (i < List.length bins)%nat -> x <= nth i bins 0 ->
    (np.searchsorted_left bins x <= i)%nat.
Proof.
  induction bins as [|b bins IH]; intros i Hi Hx; cbn in Hi; [lia|].
  cbn [np.searchsorted_left]. destruct (Qle_bool x b) eqn:E; [lia|].
  destruct i as [|i].
  - cbn in Hx. apply Qle_bool_iff in Hx. congruence.
  - cbn in Hx. specialize (IH i ltac:(lia) Hx). lia.
Qed.

(** ** The constructor and the returned pair *)

(** The constructor succeeds exactly on two list-like datasets and an
    integer group count of at least 2. *)
Theorem constructor_validation (a e g : pyobj) :
  (exists (self : PSIAnalyzer) (w : list string), __init__ a e g = Ok (self, w))
  <-> list_like a = true /\ list_like e = true /\
      exists k : Z, g = PyInt k /\ (2 <= k)%Z.
Proof.
  split.
  - intros (self & w & H). pose proof H as H'. unfold __init__ in H'.
    destruct (list_like a); [|discriminate].
    destruct (list_like e); [|discriminate].
    destruct (init_inv _ _ _ _ _ H) as (k & -> & Hk & _).
    repeat split. now exists k.
  - intros (Ha & He & k & -> & Hk). do 2 eexists. now apply init_accepts.
Qed.

Lemma constructor_rejects_one_group (a e : pyobj) :
  list_like a = true -> list_like e = true ->
  __init__ a e (PyInt 1) = Raise (ValueError "group must be bigger or equal to 2").
Proof. intros Ha He. unfold __init__. now rewrite Ha, He. Qed.

Lemma constructor_warns_above_25 (a e : pyobj) (k : Z) :
  list_like a = true -> list_like e = true -> (25 < k)%Z ->
  __init__ a e (PyInt k) = Ok (fresh (as_array a) (as_array e) k, [group_warning]).
Proof.
  intros Ha He Hk. rewrite init_accepts by (try assumption; lia).
  now replace (25 <? k)%Z with true by (symmetry; apply Z.ltb_lt; lia).
Qed.

(** The psi a call returns is the sum of the list it returns, and it is the
    value stored in the object. *)
Theorem returned_psi_is_the_sum (a e g : pyobj) (self self' : PSIAnalyzer)
  (w : list string) (total : float64 R) (values : list_ref) :
  __init__ a e g = Ok (self, w) ->
  _psi_calculator self = (Ok (total, values), self') ->
  total = np.sum (deref self' values) /\ psi self' = Some total /\
  List.length (deref self' values) = Z.to_nat (group self).
Proof.
  intros Hinit Hrun.
  destruct (init_inv _ _ _ _ _ Hinit) as (k & -> & Hk & ->).
  destruct (first_call_inv _ _ _ _ _ Hk Hrun) as (Ha & Hr & -> & Hret).
  injection Hret as -> ->. cbn [group fresh deref].
  split; [reflexivity|]. split; [reflexivity|].
  rewrite first_group_psi_values. unfold group_indices.
  now rewrite length_map, length_seq.
Qed.

Lemma returned_psi_is_the_sum_witness :
  __init__ (PyList one_to_ten) (PyList one_to_ten) (PyInt 2)
    = Ok (fresh one_to_ten one_to_ten 2, []) /\
  _psi_calculator (fresh one_to_ten one_to_ten 2) =
    (Ok (returned (first_scored one_to_ten one_to_ten 2)),
     first_scored one_to_ten one_to_ten 2) /\
  fst (returned (first_scored one_to_ten one_to_ten 2))
    = np.sum (deref (first_scored one_to_ten one_to_ten 2)
                (snd (returned (first_scored one_to_ten one_to_ten 2)))) /\
  psi (first_scored one_to_ten one_to_ten 2)
    = Some (fst (returned (first_scored one_to_ten one_to_ten 2))) /\
  List.length (deref (first_scored one_to_ten one_to_ten 2)
                 (snd (returned (first_scored one_to_ten one_to_ten 2))))
    = Z.to_nat (group (fresh one_to_ten one_to_ten 2)).
Proof.
  split; [reflexivity|]. split; [exact first_call_one_to_ten|].
  apply (returned_psi_is_the_sum (PyList one_to_ten) (PyList one_to_ten) (PyInt 2)
           (fresh one_to_ten one_to_ten 2) (first_scored one_to_ten one_to_ten 2)
           []);
    [reflexivity | exact first_call_one_to_ten].
Defined.

(** ** Group counts whose ranks are rejected *)

(** Up to 50 groups, the counts whose last rank exceeds 100 in binary64, so
    that [np.percentile] raises: 11, 22, 39 and 44. *)
Lemma rejected_group_counts :
  filter (fun k => negb (ranks_accepted k)) (map Z.of_nat (seq 2 49))
  = [11; 22; 39; 44]%Z.
Proof. vm_compute. reflexivity. Qed.

(** The default of ten groups is accepted. *)
Lemma ten_groups_accepted : ranks_accepted 10 = true.
Proof. vm_compute. reflexivity. Qed.

(** ** One iteration, on any object *)

Lemma floored_above_zero (c len : nat) :
  len <> O ->
  above_zero (if np.eq0 (np.true_divide c len) then Fin floor_constant
              else np.true_divide c len).
Proof.
  intros Hlen. rewrite true_divide_finite by assumption. cbn [np.eq0].
  destruct (Qeq_bool (Z.of_nat c # Pos.of_nat len) 0) eqn:E.
  - exact floor_constant_positive.
  - cbn. apply Qeq_bool_neq in E.
    destruct (Qlt_le_dec 0 (Z.of_nat c # Pos.of_nat len)) as [H|H]; [exact H|].
    exfalso. apply E, Qle_antisym; [exact H | apply count_ratio_nonneg].
Qed.

(** Whatever the object holds, an iteration that completes has appended one
    proportion to each list and one contribution computed from the two; the
    expected one is finite and above 0 when the expected dataset is not
    empty. *)
Lemma iteration_appends (s s' : PSIAnalyzer) (la le : nat) (i : Z) :
  le <> O ->
  psi_iteration la le i s = (Ok tt, s') ->
  exists (ap ep : float64 Q),
    above_zero ep /\
    actual_percentages s' = actual_percentages s ++ [ap] /\
    expected_percentages s' = expected_percentages s ++ [ep] /\
    group_psi_values s' = group_psi_values s ++ [group_psi_of ap ep].
Proof.
  intros Hle. unfold psi_iteration.
  unfold bind at 1. unfold get at 1.
  unfold bind at 1. unfold cut_point at 1. unfold bind at 1. unfold get at 1.
  destruct (cut_points s) as [cps|] eqn:Hc; [|discriminate].
  unfold lift at 1. destruct (getitem cps i) as [lo|]; [|discriminate].
  unfold bind at 1. unfold cut_point at 1. unfold bind at 1. unfold get at 1.
  rewrite Hc.
  unfold lift at 1. destruct (getitem cps (i + 1)) as [hi|]; [|discriminate].
  unfold bind, modify. intros [= <-]. do 2 eexists.
  split; [|repeat split].
  destruct (i + 1 =? group s)%Z; now apply floored_above_zero.
Qed.

(** * The rest of the class *)

(** ** What a method that returns has done *)

Lemma group_creator_ok_inv (s s1 : PSIAnalyzer) :
  group_creator s = (Ok tt, s1) ->
  exists (cps : list Q) (ag eg : list Z),
    np.percentile (np.sort (actual s))
      (map (fun counter =>
              py_mul (py_truediv (py_float 100) (py_float (group s)))
                     (py_float counter))
           (range (group s + 1))) = Ok cps /\
    np.digitize (actual s) cps = Ok ag /\
    np.digitize (expected s) cps = Ok eg /\
    s1 = set_expected_groups (map (fun g => g + 1)%Z eg)
           (set_actual_groups (map (fun g => g + 1)%Z ag) (set_cut_points cps s)).
Proof.
  unfold group_creator, bind, get, lift, modify, percentile_ranks.
  destruct (group s =? 0)%Z; [discriminate|].
  destruct (np.percentile _ _) as [cps|]; [|discriminate].
  destruct (np.digitize (actual s) cps) as [ag|] eqn:Ea; [|discriminate].
  destruct (np.digitize (expected s) cps) as [eg|] eqn:Ee; [|discriminate].
  intros [= <-]. now exists cps, ag, eg.
Qed.

Lemma group_creator_sets_cut_points (s s1 : PSIAnalyzer) :
  group_creator s = (Ok tt, s1) ->
  (exists cps : list Q, cut_points s1 = Some cps) /\
  actual_percentages s1 = actual_percentages s /\
  expected_percentages s1 = expected_percentages s /\
  group_psi_values s1 = group_psi_values s /\
  psi s1 = psi s /\
  actual s1 = actual s /\ expected s1 = expected s /\ group s1 = group s.
Proof.
  intros H. destruct (group_creator_ok_inv _ _ H) as (cps & ag & eg & _ & _ & _ & ->).
  split; [now exists cps|]. now repeat split.
Qed.

Lemma iteration_ok_inv (s s' : PSIAnalyzer) (la le : nat) (i : Z) :
  psi_iteration la le i s = (Ok tt, s') ->
  exists (ap ep : float64 Q),
    s' = extend_lists [ap] [ep] [group_psi_of ap ep] s.
Proof.
  unfold psi_iteration.
  unfold bind at 1. unfold get at 1.
  unfold bind at 1. unfold cut_point at 1. unfold bind at 1. unfold get at 1.
  destruct (cut_points s) as [cps|] eqn:Hc; [|discriminate].
  unfold lift at 1. destruct (getitem cps i) as [lo|]; [|discriminate].
  unfold bind at 1. unfold cut_point at 1. unfold bind at 1. unfold get at 1.
  rewrite Hc.
  unfold lift at 1. destruct (getitem cps (i + 1)) as [hi|]; [|discriminate].
  unfold bind, modify. intros [= <-]. now do 2 eexists.
Qed.

Lemma extend_lists_twice (aps aps' eps eps' : list (float64 Q))
  (gps gps' : list (float64 R)) (s : PSIAnalyzer) :
  extend_lists aps' eps' gps' (extend_lists aps eps gps s) =
  extend_lists (aps ++ aps') (eps ++ eps') (gps ++ gps') s.
Proof. unfold extend_lists. cbn. now rewrite !app_assoc. Qed.

Lemma extend_lists_nil (s : PSIAnalyzer) : extend_lists [] [] [] s = s.
Proof. destruct s. unfold extend_lists. cbn. now rewrite !app_nil_r. Qed.

Lemma loop_ok_inv (la le : nat) (xs : list Z) :
  forall s s' : PSIAnalyzer,
    for_each xs (psi_iteration la le) s = (Ok tt, s') ->
    exists (aps eps : list (float64 Q)) (gps : list (float64 R)),
      List.length aps = List.length xs /\
      List.length eps = List.length xs /\
      List.length gps = List.length xs /\
      s' = extend_lists aps eps gps s.
Proof.
  induction xs as [|x xs IH]; intros s s' H.
  - cbn in H. injection H as <-. exists [], [], [].
    repeat split. symmetry. apply extend_lists_nil.
  - cbn [for_each] in H. unfold bind in H.
    destruct (psi_iteration la le x s) as [[[]|err] s1] eqn:E; [|discriminate].
    destruct (iteration_ok_inv _ _ _ _ _ E) as (ap & ep & ->).
    destruct (IH _ _ H) as (aps & eps & gps & Ha & He & Hg & ->).
    exists (ap :: aps), (ep :: eps), (group_psi_of ap ep :: gps).
    cbn [List.length]. rewrite Ha, He, Hg. repeat split.
    apply extend_lists_twice.
Qed.

Lemma psi_calculator_cached_inv (s s' : PSIAnalyzer) (cps : list Q)
  (r : float64 R * list_ref) :
  cut_points s = Some cps ->
  _psi_calculator s = (Ok r, s') ->
  exists (aps eps : list (float64 Q)) (gps : list (float64 R)),
    List.length aps = Z.to_nat (group s) /\
    List.length eps = Z.to_nat (group s) /\
    List.length gps = Z.to_nat (group s) /\
    s' = set_psi (np.sum (group_psi_values s ++ gps)) (extend_lists aps eps gps s) /\
    r = (np.sum (group_psi_values s ++ gps), self_group_psi_values).
Proof.
  intros Hc. unfold _psi_calculator.
  unfold bind at 1. unfold get at 1. rewrite Hc.
  unfold bind at 1. unfold ret at 1.
  unfold bind at 1. unfold get at 1.
  unfold bind at 1.
  destruct (for_each _ _ s) as [[[]|err] s1] eqn:E; [|discriminate].
  destruct (loop_ok_inv _ _ _ _ _ E) as (aps & eps & gps & Ha & He & Hg & ->).
  rewrite range_length in Ha, He, Hg.
  unfold bind, get, modify, ret. intros [= <- <-].
  now exists aps, eps, gps.
Qed.

(** ** [_visualize] *)

Lemma range_from_length (a b : Z) :
  List.length (range_from a b) = Z.to_nat (b - a).
Proof. unfold range_from. now rewrite length_map, length_seq. Qed.

Lemma group_column_length (k : Z) :
  List.length (range_from 1 (k + 1)) = Z.to_nat k.
Proof. rewrite range_from_length. f_equal. lia. Qed.

Lemma DataFrame_run (k : Z) (column : list (float64 Q)) :
  pd_DataFrame (range_from 1 (k + 1)) column =
    if (Z.to_nat k =? List.length column)%nat then
      Ok (combine (seq 0 (Z.to_nat k)) (combine (range_from 1 (k + 1)) column))
    else Raise (ValueError "All arrays must be of the same length").
Proof. unfold pd_DataFrame. now rewrite group_column_length. Qed.

(** The three stages of [_visualize]: the cut points, the score, the frame. *)
Lemma visualize_stages (s : PSIAnalyzer) :
  _visualize s =
    match (match cut_points s with
           | None => group_creator s
           | Some _ => (Ok tt, s)
           end) with
    | (Raise err, s1) => (Raise err, s1)
    | (Ok _, s1) =>
        match (match group_psi_values s1 with
               | [] => match _psi_calculator s1 with
                       | (Ok _, s2) => (Ok tt, s2)
                       | (Raise err, s2) => (Raise err, s2)
                       end
               | _ :: _ => (Ok tt, s1)
               end) with
        | (Raise err, s2) => (Raise err, s2)
        | (Ok _, s2) =>
            if ((Z.to_nat (group s2) =? List.length (actual_percentages s2))
                && (Z.to_nat (group s2) =? List.length (expected_percentages s2)))%nat%bool
            then (Ok (frame_of s2), s2)
            else (Raise (ValueError "All arrays must be of the same length"), s2)
        end
    end.
Proof.
  unfold _visualize.
  unfold bind at 1. unfold get at 1.
  unfold bind at 1.
  destruct (cut_points s);
    [unfold ret at 1 | destruct (group_creator s) as [[[]|err] s1]; [|reflexivity]].
  all: unfold bind at 1; unfold get at 1; unfold bind at 1.
  all: match goal with
       | |- context [group_psi_values ?x] =>
           destruct (group_psi_values x);
           [ unfold bind at 1;
             destruct (_psi_calculator x) as [[r|err] s2]; [|reflexivity];
             unfold ret at 1
           | unfold ret at 1 ]
       end.
  all: unfold bind, get, lift, ret; rewrite !DataFrame_run;
    match goal with
    | |- context [(?n =? List.length (actual_percentages ?x))%nat] =>
        destruct (n =? List.length (actual_percentages x))%nat;
        [destruct (n =? List.length (expected_percentages x))%nat|]
    end; reflexivity.
Qed.

Lemma psi_calculator_no_groups (s : PSIAnalyzer) (cps : list Q) :
  cut_points s = Some cps -> Z.to_nat (group s) = O ->
  _psi_calculator s =
    (Ok (np.sum (group_psi_values s), self_group_psi_values),
     set_psi (np.sum (group_psi_values s)) s).
Proof.
  intros Hc Hk. unfold _psi_calculator.
  unfold bind at 1. unfold get at 1. rewrite Hc.
  unfold bind at 1. unfold ret at 1.
  unfold bind at 1. unfold get at 1.
  unfold bind at 1. unfold range. rewrite Hk. reflexivity.
Qed.

(** A call of [_visualize] that returns can be repeated: the second call
    computes nothing anew, returns the same frame and leaves the object as
    it found it. *)
Theorem visualize_is_repeatable (s s' : PSIAnalyzer) (df : DataFrame) :
  _visualize s = (Ok df, s') -> _visualize s' = (Ok df, s').
Proof.
  rewrite (visualize_stages s).
  intros H.
  assert (H1 : exists s1 : PSIAnalyzer,
             (exists cps : list Q, cut_points s1 = Some cps) /\
             match group_psi_values s1 with
             | [] => match _psi_calculator s1 with
                     | (Ok _, s2) => (Ok tt, s2)
                     | (Raise err, s2) => (Raise err, s2)
                     end
             | _ :: _ => (Ok tt, s1)
             end = (Ok tt, s') /\
             (if ((Z.to_nat (group s') =? List.length (actual_percentages s'))
                  && (Z.to_nat (group s') =? List.length (expected_percentages s')))%nat%bool
              then (Ok (frame_of s'), s')
              else (Raise (ValueError "All arrays must be of the same length"), s'))
             = (Ok df, s')).
  { destruct (cut_points s) as [cps|] eqn:Hc.
    - exists s. split; [now exists cps|].
      destruct (match group_psi_values s with
                | [] => _
                | _ :: _ => _
                end) as [[[]|err] s2]; [|discriminate].
      assert (s2 = s') as ->.
      { destruct (_ && _)%bool; now injection H. }
      now split.
    - destruct (group_creator s) as [[[]|err] s1] eqn:Eg; [|discriminate].
      exists s1. split; [apply (group_creator_sets_cut_points _ _ Eg)|].
      destruct (match group_psi_values s1 with
                | [] => _
                | _ :: _ => _
                end) as [[[]|err] s2]; [|discriminate].
      assert (s2 = s') as ->.
      { destruct (_ && _)%bool; now injection H. }
      now split. }
  clear H. destruct H1 as (s1 & (cps & Hc) & H2 & H3).
  assert (Hstate : (exists cps' : list Q, cut_points s' = Some cps') /\
                   match group_psi_values s' with
                   | [] => match _psi_calculator s' with
                           | (Ok _, s2) => (Ok tt, s2)
                           | (Raise err, s2) => (Raise err, s2)
                           end
                   | _ :: _ => (Ok tt, s')
                   end = (Ok tt, s')).
  { destruct (group_psi_values s1) as [|g gs] eqn:Eg.
    - destruct (_psi_calculator s1) as [[r|err] s2] eqn:Er; [|discriminate].
      injection H2 as ->.
      destruct (psi_calculator_cached_inv _ _ _ _ Hc Er)
        as (aps & eps & gps & Ha & He & Hg & -> & _).
      split; [now exists cps|].
      cbn [group_psi_values set_psi extend_lists]. rewrite Eg. cbn [app].
      destruct gps as [|g gs]; [|reflexivity].
      cbn [List.length] in Hg.
      destruct aps; [|cbn in Ha; lia]. destruct eps; [|cbn in He; lia].
      rewrite (psi_calculator_no_groups _ cps); [|exact Hc | now symmetry].
      cbn [group_psi_values set_psi extend_lists]. rewrite Eg. reflexivity.
    - injection H2 as <-. split; [now exists cps|]. now rewrite Eg. }
  destruct Hstate as ((cps' & Hc') & Hs).
  rewrite (visualize_stages s'), Hc', Hs. exact H3.
Qed.

Lemma range_from_nth (a b : Z) (i : nat) :
  (i < Z.to_nat (b - a))%nat -> nth i (range_from a b) 0%Z = (a + Z.of_nat i)%Z.
Proof.
  intros Hi. unfold range_from.
  rewrite (nth_indep _ 0%Z (a + Z.of_nat O)%Z)
    by now rewrite length_map, length_seq.
  rewrite (map_nth (fun j => (a + Z.of_nat j)%Z)). now rewrite seq_nth.
Qed.

Lemma frame_row (k : Z) (column : list (float64 Q)) (value : string) (i : nat) :
  List.length column = Z.to_nat k -> (i < Z.to_nat k)%nat ->
  nth_error
    (set_hue value
       (combine (seq 0 (Z.to_nat k)) (combine (range_from 1 (k + 1)) column))) i
  = Some (mk_row i (Z.of_nat i + 1) (nth i column NaN) value).
Proof.
  intros Hlen Hi. unfold set_hue. rewrite nth_error_map.
  assert (Hc : List.length (combine (range_from 1 (k + 1)) column) = Z.to_nat k)
    by (rewrite length_combine, group_column_length, Hlen; lia).
  rewrite (nth_error_nth' _ (O, (0%Z, NaN)))
    by (rewrite length_combine, length_seq, Hc; lia).
  cbn [option_map]. f_equal.
  rewrite combine_nth by now rewrite length_seq, Hc.
  rewrite combine_nth by now rewrite group_column_length, Hlen.
  cbn [fst snd]. rewrite seq_nth by assumption.
  rewrite range_from_nth by lia. f_equal. lia.
Qed.

Lemma frame_length (k : Z) (column : list (float64 Q)) (value : string) :
  List.length column = Z.to_nat k ->
  List.length
    (set_hue value
       (combine (seq 0 (Z.to_nat k)) (combine (range_from 1 (k + 1)) column)))
  = Z.to_nat k.
Proof.
  intros Hlen. unfold set_hue.
  rewrite length_map, !length_combine, length_seq, group_column_length, Hlen.
  lia.
Qed.

Lemma first_lengths (a e : list Q) (k : Z) :
  List.length (actual_percentages (first_scored a e k)) = Z.to_nat k /\
  List.length (expected_percentages (first_scored a e k)) = Z.to_nat k /\
  List.length (group_psi_values (first_scored a e k)) = Z.to_nat k.
Proof.
  rewrite first_actual_percentages, first_expected_percentages,
    first_group_psi_values.
  unfold group_indices. now rewrite !length_map, length_seq.
Qed.

Lemma visualize_run (a e : list Q) (k : Z) :
  a <> [] -> (2 <= k)%Z -> ranks_accepted k = true ->
  _visualize (fresh a e k) =
    (Ok (frame_of (first_scored a e k)), first_scored a e k).
Proof.
  intros Ha Hk Hr. rewrite visualize_stages.
  cbn [cut_points fresh].
  rewrite group_creator_run by (cbn; try assumption; lia).
  cbn [group_psi_values grouped set_expected_groups set_actual_groups
       set_cut_points fresh].
  rewrite (psi_calculator_cached _ (cut_points_of a k))
    by (try reflexivity; rewrite cut_points_of_length; cbn; lia).
  fold (first_scored a e k).
  destruct (first_lengths a e k) as (-> & -> & _).
  change (group (first_scored a e k)) with k.
  now rewrite Nat.eqb_refl.
Qed.

(** On a new object with a non-empty actual dataset [_visualize] computes
    the cut points and the score once, as one call of [_psi_calculator]
    does, and draws a frame of [2 * group] rows: for each group, numbered
    from 1, its actual proportion under the hue "actual", then for each
    group its expected proportion under "expected"; the labels of both
    halves run from 0. *)
Theorem visualize_new_object (a e g : pyobj) (self : PSIAnalyzer)
  (w : list string) :
  __init__ a e g = Ok (self, w) ->
  actual self <> [] ->
  ranks_accepted (group self) = true ->
  exists (df : DataFrame) (self' : PSIAnalyzer) (r : float64 R * list_ref),
    _visualize self = (Ok df, self') /\
    _psi_calculator self = (Ok r, self') /\
    List.length df = (2 * Z.to_nat (group self))%nat /\
    forall i : nat,
      (i < Z.to_nat (group self))%nat ->
      nth_error df i =
        Some (mk_row i (Z.of_nat i + 1)
                (nth i (actual_percentages self') NaN) "actual") /\
      nth_error df (Z.to_nat (group self) + i) =
        Some (mk_row i (Z.of_nat i + 1)
                (nth i (expected_percentages self') NaN) "expected").
Proof.
  intros Hinit Ha Hr.
  destruct (init_inv _ _ _ _ _ Hinit) as (k & -> & Hk & ->).
  cbn [actual expected group fresh] in *.
  exists (frame_of (first_scored (as_array a) (as_array e) k)),
         (first_scored (as_array a) (as_array e) k).
  eexists.
  split; [now apply visualize_run|]. split; [now apply first_call|].
  destruct (first_lengths (as_array a) (as_array e) k) as (Hla & Hle & _).
  unfold frame_of, pd_concat. cbn [List.concat].
  change (group (first_scored (as_array a) (as_array e) k)) with k.
  rewrite app_nil_r. split.
  - rewrite length_app, !frame_length by assumption. lia.
  - intros i Hi. split.
    + rewrite nth_error_app1 by (rewrite frame_length; assumption).
      now apply frame_row.
    + rewrite nth_error_app2 by (rewrite frame_length by assumption; lia).
      rewrite frame_length by assumption.
      replace (Z.to_nat k + i - Z.to_nat k)%nat with i by lia.
      now apply frame_row.
Qed.

Lemma visualize_new_object_witness :
  __init__ (PyList one_to_ten) (PyList one_to_ten) (PyInt 2)
    = Ok (fresh one_to_ten one_to_ten 2, []) /\
  actual (fresh one_to_ten one_to_ten 2) <> [] /\
  ranks_accepted (group (fresh one_to_ten one_to_ten 2)) = true /\
  exists (df : DataFrame) (self' : PSIAnalyzer) (r : float64 R * list_ref),
    _visualize (fresh one_to_ten one_to_ten 2) = (Ok df, self') /\
    _psi_calculator (fresh one_to_ten one_to_ten 2) = (Ok r, self') /\
    List.length df = (2 * Z.to_nat (group (fresh one_to_ten one_to_ten 2)))%nat /\
    forall i : nat,
      (i < Z.to_nat (group (fresh one_to_ten one_to_ten 2)))%nat ->
      nth_error df i =
        Some (mk_row i (Z.of_nat i + 1)
                (nth i (actual_percentages self') NaN) "actual") /\
      nth_error df (Z.to_nat (group (fresh one_to_ten one_to_ten 2)) + i) =
        Some (mk_row i (Z.of_nat i + 1)
                (nth i (expected_percentages self') NaN) "expected").
Proof.
  split; [reflexivity|]. split; [discriminate|]. split; [reflexivity|].
  apply (visualize_new_object (PyList one_to_ten) (PyList one_to_ten) (PyInt 2)
           (fresh one_to_ten one_to_ten 2) []);
    [reflexivity | discriminate | reflexivity].
Defined.

Lemma visualize_one_to_ten :
  _visualize (fresh one_to_ten one_to_ten 2) =
    (Ok (frame_of (first_scored one_to_ten one_to_ten 2)),
     first_scored one_to_ten one_to_ten 2).
Proof. apply visualize_run; [discriminate | lia | reflexivity]. Qed.

Lemma visualize_is_repeatable_witness :
  _visualize (fresh one_to_ten one_to_ten 2) =
    (Ok (frame_of (first_scored one_to_ten one_to_ten 2)),
     first_scored one_to_ten one_to_ten 2) /\
  _visualize (first_scored one_to_ten one_to_ten 2) =
    (Ok (frame_of (first_scored one_to_ten one_to_ten 2)),
     first_scored one_to_ten one_to_ten 2).
Proof.
  split; [exact visualize_one_to_ten|].
  apply (visualize_is_repeatable (fresh one_to_ten one_to_ten 2)).
  exact visualize_one_to_ten.
Defined.

Lemma second_lengths (a e : list Q) (k : Z) :
  List.length (actual_percentages (second_scored a e k)) = (2 * Z.to_nat k)%nat /\
  List.length (group_psi_values (second_scored a e k)) = (2 * Z.to_nat k)%nat.
Proof.
  destruct (first_lengths a e k) as (Ha & _ & Hg).
  unfold second_scored, scored.
  cbn [actual_percentages group_psi_values set_psi record_groups].
  rewrite !length_app, Ha, Hg, !length_map, length_seq.
  change (group (first_scored a e k)) with k. lia.
Qed.

Lemma visualize_scored (a e : list Q) (k : Z) :
  (1 <= k)%Z ->
  _visualize (first_scored a e k) =
    (Ok (frame_of (first_scored a e k)), first_scored a e k).
Proof.
  intros Hk. rewrite visualize_stages.
  change (cut_points (first_scored a e k)) with (Some (cut_points_of a k)).
  destruct (first_lengths a e k) as (Hla & Hle & Hlg).
  destruct (group_psi_values (first_scored a e k)) as [|x l] eqn:E;
    [cbn in Hlg; lia|].
  rewrite Hla, Hle. change (group (first_scored a e k)) with k.
  now rewrite Nat.eqb_refl.
Qed.

(** After [_psi_calculator] has been called twice, [_visualize] fails: the
    lists hold two proportions per group and no frame can be built from
    them; the object stays as it was.  After one call it succeeds and
    changes nothing. *)
Theorem visualize_after_two_scores (a e g : pyobj) (self : PSIAnalyzer)
  (w : list string) :
  __init__ a e g = Ok (self, w) ->
  actual self <> [] ->
  ranks_accepted (group self) = true ->
  exists (s1 s2 : PSIAnalyzer) (r1 r2 : float64 R * list_ref) (df : DataFrame),
    _psi_calculator self = (Ok r1, s1) /\
    _visualize s1 = (Ok df, s1) /\
    _psi_calculator s1 = (Ok r2, s2) /\
    _visualize s2 =
      (Raise (ValueError "All arrays must be of the same length"), s2).
Proof.
  intros Hinit Ha Hr.
  destruct (init_inv _ _ _ _ _ Hinit) as (k & -> & Hk & ->).
  cbn [actual expected group fresh] in *.
  exists (first_scored (as_array a) (as_array e) k),
         (second_scored (as_array a) (as_array e) k).
  do 3 eexists.
  split; [now apply first_call|].
  split.
  { apply visualize_scored. lia. }
  split; [apply second_call; lia|].
  rewrite visualize_stages.
  change (cut_points (second_scored (as_array a) (as_array e) k))
    with (Some (cut_points_of (as_array a) k)).
  destruct (second_lengths (as_array a) (as_array e) k) as (Hla & Hlg).
  destruct (group_psi_values (second_scored (as_array a) (as_array e) k))
    as [|x l] eqn:E; [cbn in Hlg; lia|].
  rewrite Hla.
  change (group (second_scored (as_array a) (as_array e) k)) with k.
  replace (Z.to_nat k =? 2 * Z.to_nat k)%nat with false
    by (symmetry; apply Nat.eqb_neq; lia).
  reflexivity.
Qed.

Lemma visualize_after_two_scores_witness :
  __init__ (PyList one_to_ten) (PyList one_to_ten) (PyInt 2)
    = Ok (fresh one_to_ten one_to_ten 2, []) /\
  actual (fresh one_to_ten one_to_ten 2) <> [] /\
  ranks_accepted (group (fresh one_to_ten one_to_ten 2)) = true /\
  exists (s1 s2 : PSIAnalyzer) (r1 r2 : float64 R * list_ref) (df : DataFrame),
    _psi_calculator (fresh one_to_ten one_to_ten 2) = (Ok r1, s1) /\
    _visualize s1 = (Ok df, s1) /\
    _psi_calculator s1 = (Ok r2, s2) /\
    _visualize s2 =
      (Raise (ValueError "All arrays must be of the same length"), s2).
Proof.
  split; [reflexivity|]. split; [discriminate|]. split; [reflexivity|].
  apply (visualize_after_two_scores (PyList one_to_ten) (PyList one_to_ten)
           (PyInt 2) (fresh one_to_ten one_to_ten 2) []);
    [reflexivity | discriminate | reflexivity].
Defined.

(** ** [group_creator] again, and before [_psi_calculator] *)

(** A call of [group_creator] that returns can be repeated without effect:
    the cut points and the group indices depend on the two datasets and the
    group count only. *)
Theorem group_creator_is_repeatable (s s1 : PSIAnalyzer) :
  group_creator s = (Ok tt, s1) -> group_creator s1 = (Ok tt, s1).
Proof.
  intros H.
  destruct (group_creator_ok_inv _ _ H) as (cps & ag & eg & Hp & Ha & He & ->).
  pose proof H as H'. revert H'.
  unfold group_creator, bind, get, lift, modify, percentile_ranks.
  cbn [actual expected group set_expected_groups set_actual_groups
       set_cut_points].
  destruct (group s =? 0)%Z; [discriminate|].
  rewrite Hp, Ha, He. intros _. reflexivity.
Qed.

Lemma group_creator_one_to_ten :
  group_creator (fresh one_to_ten one_to_ten 2) =
    (Ok tt, grouped (fresh one_to_ten one_to_ten 2)).
Proof. apply group_creator_run; [discriminate | reflexivity | reflexivity]. Qed.

Lemma group_creator_is_repeatable_witness :
  group_creator (fresh one_to_ten one_to_ten 2) =
    (Ok tt, grouped (fresh one_to_ten one_to_ten 2)) /\
  group_creator (grouped (fresh one_to_ten one_to_ten 2)) =
    (Ok tt, grouped (fresh one_to_ten one_to_ten 2)).
Proof.
  split; [exact group_creator_one_to_ten|].
  apply (group_creator_is_repeatable (fresh one_to_ten one_to_ten 2)).
  exact group_creator_one_to_ten.
Defined.

(** Calling [group_creator] before [_psi_calculator] on an object without
    cut points changes nothing: the outcome and the object left are those of
    [_psi_calculator] alone, which computes the cut points itself. *)
Theorem explicit_group_creator (s : PSIAnalyzer) :
  cut_points s = None ->
  (group_creator ;;; _psi_calculator) s = _psi_calculator s.
Proof.
  intros Hc. unfold bind at 1.
  destruct (group_creator s) as [[[]|err] s1] eqn:E.
  - destruct (group_creator_sets_cut_points _ _ E) as ((cps & Hc1) & _).
    remember (_psi_calculator s1) as outcome eqn:Ho.
    unfold _psi_calculator. unfold bind at 1. unfold get at 1. rewrite Hc.
    unfold bind at 1. rewrite E. subst outcome.
    unfold _psi_calculator. unfold bind at 1. unfold get at 1. rewrite Hc1.
    unfold bind at 1. unfold ret at 1. reflexivity.
  - unfold _psi_calculator. unfold bind at 1. unfold get at 1. rewrite Hc.
    unfold bind at 1. now rewrite E.
Qed.

Lemma explicit_group_creator_witness :
  cut_points (fresh one_to_ten one_to_ten 2) = None /\
  (group_creator ;;; _psi_calculator) (fresh one_to_ten one_to_ten 2)
    = _psi_calculator (fresh one_to_ten one_to_ten 2).
Proof.
  split; [reflexivity|].
  apply (explicit_group_creator (fresh one_to_ten one_to_ten 2)). reflexivity.
Defined.

(** ** The stored group indices *)

Lemma monotonic_tail (x : Q) (l : list Q) :
  np.monotonic Qle_bool (x :: l) = true -> np.monotonic Qle_bool l = true.
Proof.
  destruct l as [|y l]; [reflexivity|].
  change (np.monotonic Qle_bool (x :: y :: l))
    with (Qle_bool x y && np.monotonic Qle_bool (y :: l))%bool.
  intros H. now apply andb_true_iff in H.
Qed.

Lemma monotonic_head_le (x : Q) (l : list Q) :
  np.monotonic Qle_bool (x :: l) = true -> forall c : Q, In c l -> x <= c.
Proof.
  revert x. induction l as [|y l IH]; intros x H c Hin; [contradiction|].
  change (np.monotonic Qle_bool (x :: y :: l))
    with (Qle_bool x y && np.monotonic Qle_bool (y :: l))%bool in H.
  apply andb_true_iff in H. destruct H as [Hxy Hl].
  apply Qle_bool_iff in Hxy. destruct Hin as [<-|Hin]; [assumption|].
  apply Qle_trans with y; [assumption | now apply IH].
Qed.

(** On non-decreasing bins the search gives the number of bins strictly
    below the sample. *)
Lemma searchsorted_counts (bins : list Q) (x : Q) :
  np.monotonic Qle_bool bins = true ->
  np.searchsorted_left bins x = cut_points_below bins x.
Proof.
  unfold cut_points_below.
  induction bins as [|b bins IH]; intros Hm; [reflexivity|].
  cbn [np.searchsorted_left]. rewrite count_mask_cons.
  destruct (Qle_bool x b) eqn:E.
  - apply Qle_bool_iff in E.
    replace (Qltb b x) with false
      by (symmetry; apply not_true_iff_false; rewrite Qltb_lt;
          now apply Qle_not_lt).
    rewrite (count_mask_ext _ (fun _ => false)); [now rewrite count_mask_none|].
    intros c Hc. apply not_true_iff_false. rewrite Qltb_lt.
    apply Qle_not_lt. apply Qle_trans with b; [assumption|].
    now apply (monotonic_head_le b bins).
  - apply Qle_bool_false in E. apply Qltb_lt in E. rewrite E.
    rewrite IH by now apply monotonic_tail with b. reflexivity.
Qed.

(** The index [group_creator] stores for a sample, of either dataset, is one
    more than the number of cut points strictly below the sample. *)
Theorem stored_group_indices (a e g : pyobj) (self : PSIAnalyzer)
  (w : list string) :
  __init__ a e g = Ok (self, w) ->
  actual self <> [] ->
  ranks_accepted (group self) = true ->
  exists (self' : PSIAnalyzer) (cps : list Q),
    group_creator self = (Ok tt, self') /\
    cut_points self' = Some cps /\
    actual_groups self' =
      map (fun x => Z.of_nat (cut_points_below cps x) + 1)%Z (actual self) /\
    expected_groups self' =
      map (fun x => Z.of_nat (cut_points_below cps x) + 1)%Z (expected self).
Proof.
  intros Hinit Ha Hr.
  destruct (init_inv _ _ _ _ _ Hinit) as (k & -> & Hk & ->).
  cbn [actual expected group fresh] in *.
  exists (grouped (fresh (as_array a) (as_array e) k)),
         (cut_points_of (as_array a) k).
  split; [apply group_creator_run; cbn; try assumption; lia|].
  split; [reflexivity|].
  assert (Hm : np.monotonic Qle_bool (cut_points_of (as_array a) k) = true)
    by (apply cut_points_of_monotonic; [assumption | lia]).
  cbn [grouped actual_groups expected_groups set_expected_groups
       set_actual_groups set_cut_points actual expected group fresh].
  unfold groups_of. rewrite !map_map.
  split; apply map_ext; intros x; now rewrite searchsorted_counts.
Qed.

Lemma stored_group_indices_witness :
  __init__ (PyList one_to_ten) (PyList one_to_ten) (PyInt 2)
    = Ok (fresh one_to_ten one_to_ten 2, []) /\
  actual (fresh one_to_ten one_to_ten 2) <> [] /\
  ranks_accepted (group (fresh one_to_ten one_to_ten 2)) = true /\
  exists (self' : PSIAnalyzer) (cps : list Q),
    group_creator (fresh one_to_ten one_to_ten 2) = (Ok tt, self') /\
    cut_points self' = Some cps /\
    actual_groups self' =
      map (fun x => Z.of_nat (cut_points_below cps x) + 1)%Z
          (actual (fresh one_to_ten one_to_ten 2)) /\
    expected_groups self' =
      map (fun x => Z.of_nat (cut_points_below cps x) + 1)%Z
          (expected (fresh one_to_ten one_to_ten 2)).
Proof.
  split; [reflexivity|]. split; [discriminate|]. split; [reflexivity|].
  apply (stored_group_indices (PyList one_to_ten) (PyList one_to_ten) (PyInt 2)
           (fresh one_to_ten one_to_ten 2) []);
    [reflexivity | discriminate | reflexivity].
Defined.

Lemma cut_points_of_mono (a : list Q) (k : Z) (i j : nat) :
  a <> [] -> (0 < k)%Z -> (i <= j)%nat -> (j < Z.to_nat (k + 1))%nat ->
  nth i (cut_points_of a k) 0 <= nth j (cut_points_of a k) 0.
Proof.
  intros Ha Hk Hij Hj. rewrite !cut_points_of_nth by lia.
  apply linear_quantile_mono.
  - apply sort_sorted.
  - now apply sort_nonempty.
  - apply quantile_of_mono; lia.
Qed.

Lemma cut_points_of_bounds (a : list Q) (k : Z) (c : Q) :
  a <> [] -> (0 < k)%Z -> In c (cut_points_of a k) ->
  list_min a <= c /\ c <= list_max a.
Proof.
  intros Ha Hk Hin.
  destruct (In_nth _ _ 0 Hin) as (i & Hi & <-).
  rewrite cut_points_of_length in Hi. split.
  - rewrite <- (cut_points_of_first a k) by assumption.
    apply cut_points_of_mono; try assumption; lia.
  - rewrite <- (cut_points_of_last a k) by assumption.
    apply cut_points_of_mono; try assumption; lia.
Qed.

Lemma searchsorted_first (bins : list Q) (x : Q) :
  forall n : nat,
    (n < List.length bins)%nat ->
    (forall j : nat, (j < n)%nat -> nth j bins 0 < x) ->
    x <= nth n bins 0 ->
    np.searchsorted_left bins x = n.
Proof.
  induction bins as [|b bins IH]; intros n Hn Hlt Hle; cbn in Hn; [lia|].
  cbn [np.searchsorted_left]. destruct n as [|n].
  - cbn in Hle. apply Qle_bool_iff in Hle. now rewrite Hle.
  - replace (Qle_bool x b) with false
      by (symmetry; apply Qle_bool_false; apply (Hlt O); lia).
    f_equal. apply IH; [lia | | exact Hle].
    intros j Hj. apply (Hlt (S j)). lia.
Qed.

Lemma groups_of_nth (cps xs : list Q) (j : nat) :
  (j < List.length xs)%nat ->
  nth j (groups_of cps xs) 0%Z
  = (Z.of_nat (np.searchsorted_left cps (nth j xs 0%Q)) + 1)%Z.
Proof.
  intros Hj. unfold groups_of. rewrite map_map.
  rewrite (nth_indep _ 0%Z (Z.of_nat (np.searchsorted_left cps 0%Q) + 1)%Z)
    by now rewrite length_map.
  now rewrite (map_nth (fun v => (Z.of_nat (np.searchsorted_left cps v) + 1)%Z)).
Qed.

Lemma count_mask_all (p : Q -> bool) (l : list Q) :
  count_mask p l = List.length l <-> forall c : Q, In c l -> p c = true.
Proof.
  induction l as [|x l IH].
  - split; [intros _ c [] | reflexivity].
  - rewrite count_mask_cons. cbn [List.length].
    pose proof (count_mask_le p l) as Hle. split.
    + intros Hall c [->|Hc].
      * destruct (p c); [reflexivity | lia].
      * apply IH; [|assumption]. destruct (p x); lia.
    + intros Hall. rewrite (Hall x) by now left.
      assert (Hl : count_mask p l = List.length l)
        by (apply IH; intros; apply Hall; now right).
      lia.
Qed.

(** A sample strictly above one cut point and at most the next is stored
    under the number of that pair plus one, while the scoring loop counts
    it, when it lies strictly below the next cut point, in the group of
    that pair: for cut points [c_i < x <= c_(i+1)], with [i] from 0, the
    stored index is [i + 2]. *)
Theorem stored_index_between_cut_points (a e g : pyobj) (self : PSIAnalyzer)
  (w : list string) :
  __init__ a e g = Ok (self, w) ->
  actual self <> [] ->
  ranks_accepted (group self) = true ->
  exists (self' : PSIAnalyzer) (cps : list Q),
    group_creator self = (Ok tt, self') /\
    cut_points self' = Some cps /\
    forall (i j : nat),
      (i < Z.to_nat (group self))%nat ->
      ((j < List.length (actual self))%nat ->
       nth i cps 0 < nth j (actual self) 0 ->
       nth j (actual self) 0 <= nth (S i) cps 0 ->
       nth j (actual_groups self') 0%Z = (Z.of_nat i + 2)%Z) /\
      ((j < List.length (expected self))%nat ->
       nth i cps 0 < nth j (expected self) 0 ->
       nth j (expected self) 0 <= nth (S i) cps 0 ->
       nth j (expected_groups self') 0%Z = (Z.of_nat i + 2)%Z).
Proof.
  intros Hinit Ha Hr.
  destruct (init_inv _ _ _ _ _ Hinit) as (k & -> & Hk & ->).
  cbn [actual expected group fresh] in *.
  exists (grouped (fresh (as_array a) (as_array e) k)),
         (cut_points_of (as_array a) k).
  split; [apply group_creator_run; cbn; try assumption; lia|].
  split; [reflexivity|].
  assert (Hindex : forall (x : Q) (i : nat),
             (i < Z.to_nat k)%nat ->
             nth i (cut_points_of (as_array a) k) 0 < x ->
             x <= nth (S i) (cut_points_of (as_array a) k) 0 ->
             np.searchsorted_left (cut_points_of (as_array a) k) x = S i).
  { intros x i Hi Hlo Hhi. apply searchsorted_first.
    - rewrite cut_points_of_length. lia.
    - intros j Hj. eapply Qle_lt_trans; [|exact Hlo].
      apply cut_points_of_mono; try assumption; lia.
    - exact Hhi. }
  intros i j Hi.
  cbn [grouped actual_groups expected_groups set_expected_groups
       set_actual_groups set_cut_points actual expected group fresh].
  split; intros Hj Hlo Hhi; rewrite groups_of_nth by assumption;
    rewrite (Hindex _ i Hi Hlo Hhi); lia.
Qed.

Lemma stored_index_between_cut_points_witness :
  __init__ (PyList one_to_ten) (PyList one_to_ten) (PyInt 2)
    = Ok (fresh one_to_ten one_to_ten 2, []) /\
  actual (fresh one_to_ten one_to_ten 2) <> [] /\
  ranks_accepted (group (fresh one_to_ten one_to_ten 2)) = true /\
  exists (self' : PSIAnalyzer) (cps : list Q),
    group_creator (fresh one_to_ten one_to_ten 2) = (Ok tt, self') /\
    cut_points self' = Some cps /\
    forall (i j : nat),
      (i < Z.to_nat (group (fresh one_to_ten one_to_ten 2)))%nat ->
      ((j < List.length (actual (fresh one_to_ten one_to_ten 2)))%nat ->
       nth i cps 0 < nth j (actual (fresh one_to_ten one_to_ten 2)) 0 ->
       nth j (actual (fresh one_to_ten one_to_ten 2)) 0 <= nth (S i) cps 0 ->
       nth j (actual_groups self') 0%Z = (Z.of_nat i + 2)%Z) /\
      ((j < List.length (expected (fresh one_to_ten one_to_ten 2)))%nat ->
       nth i cps 0 < nth j (expected (fresh one_to_ten one_to_ten 2)) 0 ->
       nth j (expected (fresh one_to_ten one_to_ten 2)) 0 <= nth (S i) cps 0 ->
       nth j (expected_groups self') 0%Z = (Z.of_nat i + 2)%Z).
Proof.
  split; [reflexivity|]. split; [discriminate|]. split; [reflexivity|].
  apply (stored_index_between_cut_points (PyList one_to_ten) (PyList one_to_ten)
           (PyInt 2) (fresh one_to_ten one_to_ten 2) []);
    [reflexivity | discriminate | reflexivity].
Defined.

Lemma searchsorted_left_bound (bins : list Q) (x : Q) :
  (np.searchsorted_left bins x <= List.length bins)%nat.
Proof.
  induction bins as [|b bins IH]; [apply Nat.le_refl|].
  cbn [np.searchsorted_left List.length]. destruct (Qle_bool x b); lia.
Qed.

Lemma searchsorted_left_zero (b : Q) (bins : list Q) (x : Q) :
  np.searchsorted_left (b :: bins) x = O <-> x <= b.
Proof.
  cbn [np.searchsorted_left]. destruct (Qle_bool x b) eqn:E.
  - apply Qle_bool_iff in E. tauto.
  - apply Qle_bool_false in E. split; [discriminate|].
    intros H. exfalso. now apply (Qlt_not_le _ _ E).
Qed.

Lemma searchsorted_left_all (bins : list Q) (x : Q) :
  np.searchsorted_left bins x = List.length bins <->
  forall c : Q, In c bins -> c < x.
Proof.
  induction bins as [|b bins IH].
  - split; [intros _ c [] | reflexivity].
  - cbn [np.searchsorted_left List.length].
    pose proof (searchsorted_left_bound bins x) as Hb.
    destruct (Qle_bool x b) eqn:E.
    + apply Qle_bool_iff in E. split; [discriminate|].
      intros H. exfalso. apply (Qlt_not_le b x); [apply H; now left | exact E].
    + apply Qle_bool_false in E. split.
      * intros H c [<-|Hc]; [exact E|]. apply IH; [lia | exact Hc].
      * intros H. f_equal. apply IH. intros c Hc. apply H. now right.
Qed.

(** The indices stored for the expected samples run from 1 to two more than
    the group count: 1 exactly for a sample at or below the smallest actual
    sample, [group + 2] exactly for a sample above the last cut point, as
    every sample above the largest actual one is. *)
Theorem expected_groups_range (a e g : pyobj) (self : PSIAnalyzer)
  (w : list string) :
  __init__ a e g = Ok (self, w) ->
  actual self <> [] ->
  ranks_accepted (group self) = true ->
  exists (self' : PSIAnalyzer) (cps : list Q),
    group_creator self = (Ok tt, self') /\
    cut_points self' = Some cps /\
    Forall2 (fun (x : Q) (index : Z) =>
               (1 <= index <= group self + 2)%Z /\
               (index = 1%Z <-> x <= list_min (actual self)) /\
               (index = (group self + 2)%Z <->
                nth (Z.to_nat (group self)) cps 0 < x) /\
               (list_max (actual self) < x -> index = (group self + 2)%Z))
            (expected self) (expected_groups self').
Proof.
  intros Hinit Ha Hr.
  destruct (init_inv _ _ _ _ _ Hinit) as (k & -> & Hk & ->).
  cbn [actual expected group fresh] in *.
  exists (grouped (fresh (as_array a) (as_array e) k)),
         (cut_points_of (as_array a) k).
  split; [apply group_creator_run; cbn; try assumption; lia|].
  split; [reflexivity|].
  cbn [grouped expected_groups set_expected_groups set_actual_groups
       set_cut_points actual expected group fresh].
  unfold groups_of. rewrite map_map.
  set (cps := cut_points_of (as_array a) k).
  assert (Hlen : List.length cps = Z.to_nat (k + 1))
    by apply cut_points_of_length.
  clear Hinit. induction (as_array e) as [|x xs IH]; [constructor|].
  cbn [map]. constructor; [|exact IH].
  pose proof (searchsorted_left_bound cps x) as Hb.
  assert (Hall : np.searchsorted_left cps x = List.length cps <->
                 nth (Z.to_nat k) cps 0 < x).
  { rewrite searchsorted_left_all. split.
    - intros H. apply H. apply nth_In. lia.
    - intros H c Hc. destruct (In_nth _ _ 0 Hc) as (i & Hi & <-).
      eapply Qle_lt_trans; [|exact H].
      apply cut_points_of_mono; try assumption; lia. }
  split; [lia|]. split; [|split].
  - destruct cps as [|c0 cps'] eqn:Ec; [cbn in Hlen; lia|].
    assert (H0 : c0 == list_min (as_array a)).
    { change c0 with (nth 0 (c0 :: cps') 0). rewrite <- Ec.
      apply cut_points_of_first; [assumption | lia]. }
    rewrite <- H0, <- (searchsorted_left_zero c0 cps' x).
    clear. generalize (np.searchsorted_left (c0 :: cps') x). intros n. lia.
  - rewrite <- Hall. rewrite Hlen. clear - Hk.
    generalize (np.searchsorted_left cps x). intros n. lia.
  - intros Hmax.
    assert (Hlast : nth (Z.to_nat k) cps 0 < x).
    { eapply Qle_lt_trans; [|exact Hmax].
      apply (cut_points_of_bounds (as_array a) k); try assumption; try lia.
      apply nth_In. fold cps. lia. }
    apply Hall in Hlast. rewrite Hlen in Hlast. clear - Hk Hlast.
    revert Hlast. generalize (np.searchsorted_left cps x). intros n. lia.
Qed.

Lemma expected_groups_range_witness :
  __init__ (PyList one_to_four) (PyList beyond) (PyInt 2)
    = Ok (fresh one_to_four beyond 2, []) /\
  actual (fresh one_to_four beyond 2) <> [] /\
  ranks_accepted (group (fresh one_to_four beyond 2)) = true /\
  exists (self' : PSIAnalyzer) (cps : list Q),
    group_creator (fresh one_to_four beyond 2) = (Ok tt, self') /\
    cut_points self' = Some cps /\
    Forall2 (fun (x : Q) (index : Z) =>
               (1 <= index <= group (fresh one_to_four beyond 2) + 2)%Z /\
               (index = 1%Z <->
                x <= list_min (actual (fresh one_to_four beyond 2))) /\
               (index = (group (fresh one_to_four beyond 2) + 2)%Z <->
                nth (Z.to_nat (group (fresh one_to_four beyond 2))) cps 0 < x) /\
               (list_max (actual (fresh one_to_four beyond 2)) < x ->
                index = (group (fresh one_to_four beyond 2) + 2)%Z))
            (expected (fresh one_to_four beyond 2)) (expected_groups self').
Proof.
  split; [reflexivity|]. split; [discriminate|]. split; [reflexivity|].
  apply (expected_groups_range (PyList one_to_four) (PyList beyond) (PyInt 2)
           (fresh one_to_four beyond 2) []);
    [reflexivity | discriminate | reflexivity].
Defined.

(** ** When psi is infinite, and when it is 0 *)

Lemma add_posinf_iff (x y : float64 R) :
  nonneg x -> nonneg y ->
  (np.add x y = PosInf <-> x = PosInf \/ y = PosInf).
Proof.
  destruct x, y; cbn; try tauto; intros _ _; split;
    try discriminate; try (intros [H|H]; discriminate); auto.
Qed.

Lemma fold_posinf_iff (l : list (float64 R)) :
  Forall nonneg l ->
  forall acc : float64 R,
    nonneg acc ->
    (fold_left np.add l acc = PosInf <-> acc = PosInf \/ In PosInf l).
Proof.
  induction 1 as [|x l Hx _ IH]; intros acc Hacc; cbn [fold_left In].
  - tauto.
  - rewrite IH by now apply add_nonneg.
    rewrite add_posinf_iff by assumption.
    split; [intros [[H|H]|H] | intros [H|[H|H]]]; auto.
Qed.

Lemma sum_posinf_iff (l : list (float64 R)) :
  Forall nonneg l -> (np.sum l = PosInf <-> In PosInf l).
Proof.
  intros H. unfold np.sum. rewrite fold_posinf_iff; [|assumption|].
  - split; [intros [E|E]; [discriminate | exact E] | now right].
  - cbn. apply Rle_refl.
Qed.

Lemma fold_zero_iff (l : list (float64 R)) :
  Forall nonneg l ->
  forall c : R,
    (0 <= c)%R ->
    (fold_left np.add l (Fin c) = Fin 0%R <->
     c = 0%R /\ Forall (fun x => x = Fin 0%R) l).
Proof.
  induction 1 as [|x l Hx Hl IH]; intros c Hc; cbn [fold_left].
  - split; [intros [= ->]; now split | intros [-> _]; reflexivity].
  - destruct x as [r| | |]; cbn in Hx; try contradiction.
    + cbn [np.add]. rewrite IH by Lra.lra. split.
      * intros [Hs Hall]. assert (r = 0%R) by Lra.lra. subst r.
        split; [Lra.lra | now constructor].
      * intros [-> Hall]. inversion Hall as [|? ? Hr Hall']; subst.
        injection Hr as ->. split; [Lra.lra | assumption].
    + cbn [np.add]. split.
      * intros H. exfalso.
        assert (E : fold_left np.add l PosInf = PosInf)
          by (apply fold_posinf_iff; [assumption | exact I | now left]).
        rewrite E in H. discriminate.
      * intros [_ Hall]. inversion Hall as [|? ? Hr _]. discriminate.
Qed.

Lemma sum_zero_iff (l : list (float64 R)) :
  Forall nonneg l ->
  (np.sum l = Fin 0%R <-> Forall (fun x => x = Fin 0%R) l).
Proof.
  intros H. unfold np.sum. rewrite fold_zero_iff by (try assumption; apply Rle_refl).
  tauto.
Qed.

Lemma contribution_zero_real (x y : R) :
  (0 < x)%R -> (0 < y)%R -> ((x - y) * ln (x / y) = 0)%R -> x = y.
Proof.
  intros Hx Hy H. apply Rmult_integral in H. destruct H as [H|H]; [Lra.lra|].
  assert (Hp : (0 < x / y)%R) by now apply Rdiv_lt_0_compat.
  rewrite <- ln_1 in H. apply ln_inv in H; [|assumption | Lra.lra].
  rewrite ratio_minus_one in H by assumption.
  assert (E : ((x - y) * / y = 0)%R) by Lra.lra.
  apply Rmult_integral in E. destruct E as [E|E]; [Lra.lra|].
  pose proof (Rinv_0_lt_compat y Hy). Lra.lra.
Qed.

Lemma contribution_zero_iff (qa qe : Q) :
  0 <= qa -> 0 < qe ->
  (group_psi_of (Fin qa) (Fin qe) = Fin 0%R <-> qa == qe).
Proof.
  intros Ha He. destruct (Qlt_le_dec 0 qa) as [Hpos|Hle].
  - rewrite group_psi_of_positive by assumption. split.
    + intros [= H]. apply eqR_Qeq.
      apply contribution_zero_real; try assumption; now apply Q2R_pos.
    + intros E. f_equal. rewrite (Qeq_eqR _ _ E), Rminus_diag.
      apply Rmult_0_l.
  - assert (Hz : qa == 0) by now apply Qle_antisym.
    rewrite group_psi_of_zero by assumption. split; [discriminate|].
    intros E. exfalso. rewrite <- E, Hz in He. now apply Qlt_irrefl in He.
Qed.

Lemma contribution_posinf_iff (qa qe : Q) :
  0 <= qa -> 0 < qe ->
  (group_psi_of (Fin qa) (Fin qe) = PosInf <-> qa == 0).
Proof.
  intros Ha He. destruct (Qlt_le_dec 0 qa) as [Hpos|Hle].
  - rewrite group_psi_of_positive by assumption. split; [discriminate|].
    intros E. exfalso. rewrite E in Hpos. now apply Qlt_irrefl in Hpos.
  - assert (Hz : qa == 0) by now apply Qle_antisym.
    rewrite group_psi_of_zero by assumption. tauto.
Qed.

(** The proportions of group [i] on a first call with non-empty datasets. *)
Lemma first_proportions (a e : list Q) (k : Z) (i : nat) :
  a <> [] -> e <> [] -> (i < Z.to_nat k)%nat ->
  exists qa qe : Q,
    0 <= qa /\ 0 < qe /\
    nth_error (actual_percentages (first_scored a e k)) i = Some (Fin qa) /\
    nth_error (expected_percentages (first_scored a e k)) i = Some (Fin qe) /\
    nth_error (group_psi_values (first_scored a e k)) i
      = Some (group_psi_of (Fin qa) (Fin qe)).
Proof.
  intros Ha He Hi.
  destruct (actual_perc_at_finite (cut_points_of a k) a (List.length a) i
              (length_nonzero _ Ha)) as (qa & Eqa & Hqa).
  pose proof (expected_perc_at_positive (cut_points_of a k) e (List.length e) k i
                (length_nonzero _ He)) as Hp.
  destruct (expected_perc_at (cut_points_of a k) e (List.length e) k i)
    as [qe| | |] eqn:Eqe; try contradiction.
  exists qa, qe. split; [assumption|]. split; [exact Hp|].
  rewrite first_actual_percentages, first_expected_percentages,
    first_group_psi_values.
  unfold group_indices. rewrite !nth_error_map, nth_error_seq.
  apply Nat.ltb_lt in Hi. rewrite Hi. cbn [option_map Nat.add].
  unfold group_psi_at. now rewrite Eqa, Eqe.
Qed.

Lemma first_contributions_nonneg (a e : list Q) (k : Z) :
  a <> [] -> e <> [] ->
  Forall nonneg (group_psi_values (first_scored a e k)).
Proof.
  intros Ha He. rewrite first_group_psi_values.
  apply Forall_forall. intros x Hx. apply in_map_iff in Hx.
  destruct Hx as (i & <- & _).
  apply group_psi_at_nonneg; now apply length_nonzero.
Qed.

(** The returned psi is plus infinity exactly when some group holds no
    actual sample; otherwise it is a non-negative number. *)
Theorem psi_infinite_iff (a e g : pyobj) (self self' : PSIAnalyzer)
  (w : list string) (total : float64 R) (values : list_ref) :
  __init__ a e g = Ok (self, w) ->
  expected self <> [] ->
  _psi_calculator self = (Ok (total, values), self') ->
  (total = PosInf <->
   exists (i : nat) (q : Q),
     nth_error (actual_percentages self') i = Some (Fin q) /\ q == 0) /\
  (total = PosInf \/ exists r : R, total = Fin r /\ (0 <= r)%R).
Proof.
  intros Hinit He Hrun.
  destruct (init_inv _ _ _ _ _ Hinit) as (k & -> & Hk & ->).
  destruct (first_call_inv _ _ _ _ _ Hk Hrun) as (Ha & Hr & -> & Hret).
  cbn [actual expected group fresh] in *.
  assert (Ht : total
               = np.sum (group_psi_values
                           (first_scored (as_array a) (as_array e) k)))
    by now injection Hret.
  clear Hret. subst total.
  pose proof (first_contributions_nonneg (as_array a) (as_array e) k Ha He)
    as Hnn.
  split.
  - rewrite sum_posinf_iff by assumption. split.
    + intros Hin. destruct (In_nth_error _ _ Hin) as (i & Hi).
      assert (Hlt : (i < Z.to_nat k)%nat).
      { destruct (first_lengths (as_array a) (as_array e) k) as (_ & _ & Hlg).
        rewrite <- Hlg. apply nth_error_Some. intros E. rewrite E in Hi.
        discriminate. }
      destruct (first_proportions (as_array a) (as_array e) k i Ha He Hlt)
        as (qa & qe & Hqa & Hqe & Ea & _ & Eg).
      exists i, qa. split; [exact Ea|].
      rewrite Hi in Eg. injection Eg as Eg. symmetry in Eg.
      now apply contribution_posinf_iff in Eg.
    + intros (i & q & Ei & Hq).
      assert (Hlt : (i < Z.to_nat k)%nat).
      { destruct (first_lengths (as_array a) (as_array e) k) as (Hla & _ & _).
        rewrite <- Hla. apply nth_error_Some. intros E. rewrite E in Ei.
        discriminate. }
      destruct (first_proportions (as_array a) (as_array e) k i Ha He Hlt)
        as (qa & qe & Hqa & Hqe & Ea & _ & Eg).
      rewrite Ei in Ea. injection Ea as <-.
      apply (nth_error_In _ i). etransitivity; [exact Eg|]. f_equal.
      now apply contribution_posinf_iff.
  - pose proof (sum_nonneg _ Hnn) as Hs.
    destruct (np.sum _) as [r| | |]; cbn in Hs; try contradiction.
    + right. now exists r.
    + now left.
Qed.

Lemma psi_infinite_iff_witness :
  __init__ (PyList tied) (PyList tied) (PyInt 2) = Ok (fresh tied tied 2, []) /\
  expected (fresh tied tied 2) <> [] /\
  _psi_calculator (fresh tied tied 2) =
    (Ok (returned (first_scored tied tied 2)), first_scored tied tied 2) /\
  (fst (returned (first_scored tied tied 2)) = PosInf <->
   exists (i : nat) (q : Q),
     nth_error (actual_percentages (first_scored tied tied 2)) i
       = Some (Fin q) /\ q == 0) /\
  (fst (returned (first_scored tied tied 2)) = PosInf \/
   exists r : R,
     fst (returned (first_scored tied tied 2)) = Fin r /\ (0 <= r)%R).
Proof.
  split; [reflexivity|]. split; [discriminate|].
  split; [exact first_call_tied|].
  apply (psi_infinite_iff (PyList tied) (PyList tied) (PyInt 2)
           (fresh tied tied 2) (first_scored tied tied 2) []
           (fst (returned (first_scored tied tied 2)))
           (snd (returned (first_scored tied tied 2))));
    [reflexivity | discriminate | exact first_call_tied].
Defined.

(** The returned psi is 0 exactly when every group has the same actual and
    expected proportion. *)
Theorem psi_zero_iff (a e g : pyobj) (self self' : PSIAnalyzer)
  (w : list string) (total : float64 R) (values : list_ref) :
  __init__ a e g = Ok (self, w) ->
  expected self <> [] ->
  _psi_calculator self = (Ok (total, values), self') ->
  (total = Fin 0%R <->
   forall (i : nat) (qa qe : Q),
     nth_error (actual_percentages self') i = Some (Fin qa) ->
     nth_error (expected_percentages self') i = Some (Fin qe) ->
     qa == qe).
Proof.
  intros Hinit He Hrun.
  destruct (init_inv _ _ _ _ _ Hinit) as (k & -> & Hk & ->).
  destruct (first_call_inv _ _ _ _ _ Hk Hrun) as (Ha & Hr & -> & Hret).
  cbn [actual expected group fresh] in *.
  assert (Ht : total
               = np.sum (group_psi_values
                           (first_scored (as_array a) (as_array e) k)))
    by now injection Hret.
  clear Hret. subst total.
  pose proof (first_contributions_nonneg (as_array a) (as_array e) k Ha He)
    as Hnn.
  destruct (first_lengths (as_array a) (as_array e) k) as (Hla & Hle & Hlg).
  rewrite sum_zero_iff by assumption. rewrite Forall_forall. split.
  - intros Hall i qa qe Ea Ee.
    assert (Hlt : (i < Z.to_nat k)%nat).
    { rewrite <- Hla. apply nth_error_Some. intros E. rewrite E in Ea.
      discriminate. }
    destruct (first_proportions (as_array a) (as_array e) k i Ha He Hlt)
      as (qa' & qe' & Hqa & Hqe & Ea' & Ee' & Eg).
    rewrite Ea in Ea'. injection Ea' as <-.
    rewrite Ee in Ee'. injection Ee' as <-.
    apply contribution_zero_iff; try assumption.
    apply Hall. now apply (nth_error_In _ i).
  - intros Heq x Hx. destruct (In_nth_error _ _ Hx) as (i & Hi).
    assert (Hlt : (i < Z.to_nat k)%nat).
    { rewrite <- Hlg. apply nth_error_Some. intros E. rewrite E in Hi.
      discriminate. }
    destruct (first_proportions (as_array a) (as_array e) k i Ha He Hlt)
      as (qa & qe & Hqa & Hqe & Ea & Ee & Eg).
    rewrite Hi in Eg. injection Eg as ->.
    apply contribution_zero_iff; try assumption. now apply (Heq i).
Qed.

Lemma psi_zero_iff_witness :
  __init__ (PyList one_to_ten) (PyList one_to_ten) (PyInt 2)
    = Ok (fresh one_to_ten one_to_ten 2, []) /\
  expected (fresh one_to_ten one_to_ten 2) <> [] /\
  _psi_calculator (fresh one_to_ten one_to_ten 2) =
    (Ok (returned (first_scored one_to_ten one_to_ten 2)),
     first_scored one_to_ten one_to_ten 2) /\
  (fst (returned (first_scored one_to_ten one_to_ten 2)) = Fin 0%R <->
   forall (i : nat) (qa qe : Q),
     nth_error (actual_percentages (first_scored one_to_ten one_to_ten 2)) i
       = Some (Fin qa) ->
     nth_error (expected_percentages (first_scored one_to_ten one_to_ten 2)) i
       = Some (Fin qe) ->
     qa == qe).
Proof.
  split; [reflexivity|]. split; [discriminate|].
  split; [exact first_call_one_to_ten|].
  apply (psi_zero_iff (PyList one_to_ten) (PyList one_to_ten) (PyInt 2)
           (fresh one_to_ten one_to_ten 2) (first_scored one_to_ten one_to_ten 2)
           [] (fst (returned (first_scored one_to_ten one_to_ten 2)))
           (snd (returned (first_scored one_to_ten one_to_ten 2))));
    [reflexivity | discriminate | exact first_call_one_to_ten].
Defined.

(** ** A dataset against itself *)

Lemma count_mask_strictly_more (p q : Q -> bool) (l : list Q) (x0 : Q) :
  (forall x : Q, p x = true -> q x = true) ->
  In x0 l -> p x0 = false -> q x0 = true ->
  (count_mask p l < count_mask q l)%nat.
Proof.
  intros Hpq. induction l as [|x l IH]; intros Hin Hp Hq; [contradiction|].
  rewrite !count_mask_cons.
  assert (Hle : (count_mask p l <= count_mask q l)%nat).
  { clear IH Hin. induction l as [|y l IHl]; [apply Nat.le_refl|].
    rewrite !count_mask_cons. destruct (p y) eqn:E.
    - rewrite (Hpq y E). lia.
    - destruct (q y); lia. }
  destruct Hin as [->|Hin].
  - rewrite Hp, Hq. lia.
  - specialize (IH Hin Hp Hq). destruct (p x) eqn:E.
    + rewrite (Hpq x E). lia.
    + destruct (q x); lia.
Qed.

Lemma count_ratio_eq (c c' len : nat) :
  Z.of_nat c # Pos.of_nat len == Z.of_nat c' # Pos.of_nat len -> c = c'.
Proof.
  unfold Qeq. cbn [Qnum Qden]. intros H.
  apply Z.mul_cancel_r in H; [lia | discriminate].
Qed.

(** In the last group the expected count takes the samples up to the upper
    bound and the actual count stops short of it: on one dataset for both,
    with the last cut point on the largest sample, the proportions of the
    last group differ. *)
Lemma last_group_differs (a : list Q) (k : Z) :
  a <> [] -> (1 <= k)%Z ->
  list_max a <= nth (Z.to_nat k) (cut_points_of a k) 0 ->
  exists ca ce : nat,
    (ca < ce)%nat /\
    actual_perc_at (cut_points_of a k) a (List.length a) (Z.to_nat k - 1)
      = Fin (Z.of_nat ca # Pos.of_nat (List.length a)) /\
    expected_perc_at (cut_points_of a k) a (List.length a) k (Z.to_nat k - 1)
      = Fin (Z.of_nat ce # Pos.of_nat (List.length a)).
Proof.
  intros Ha Hk Hreach. pose proof (length_nonzero a Ha) as Hlen.
  set (cps := cut_points_of a k) in *.
  set (i := (Z.to_nat k - 1)%nat).
  assert (Hi : S i = Z.to_nat k) by (unfold i; lia).
  exists (count_mask (fun x => Qle_bool (nth i cps 0) x && Qltb x (nth (S i) cps 0))%bool a),
         (count_mask (fun x => Qle_bool (nth i cps 0) x && Qle_bool x (nth (S i) cps 0))%bool a).
  assert (Hmax : nth (S i) cps 0 == list_max a).
  { rewrite Hi. apply Qle_antisym; [|exact Hreach].
    apply (cut_points_of_bounds a k); [assumption | lia |].
    apply nth_In. unfold cps. rewrite cut_points_of_length. lia. }
  assert (Hlo : nth i cps 0 <= list_max a).
  { apply (cut_points_of_bounds a k); [assumption | lia |].
    apply nth_In. unfold cps. rewrite cut_points_of_length. lia. }
  assert (Hlt : Nat.lt
                  (count_mask
                     (fun x => Qle_bool (nth i cps 0) x && Qltb x (nth (S i) cps 0))%bool
                     a)
                  (count_mask
                     (fun x => Qle_bool (nth i cps 0) x
                               && Qle_bool x (nth (S i) cps 0))%bool a)).
  { apply (count_mask_strictly_more _ _ a (list_max a)).
    - intros x Hx. apply andb_true_iff in Hx. destruct Hx as [H1 H2].
      rewrite H1. cbn [andb]. apply Qle_bool_iff. apply Qltb_lt in H2.
      now apply Qlt_le_weak.
    - now apply list_max_in.
    - apply not_true_iff_false. intros Hx. apply andb_true_iff in Hx.
      destruct Hx as [_ H2]. apply Qltb_lt in H2. rewrite Hmax in H2.
      now apply Qlt_irrefl in H2.
    - apply andb_true_iff. split; apply Qle_bool_iff; [exact Hlo|].
      rewrite Hmax. apply Qle_refl. }
  split; [exact Hlt|]. split.
  - unfold actual_perc_at. now rewrite true_divide_finite.
  - unfold expected_perc_at.
    replace (Z.of_nat i + 1 =? k)%Z with true
      by (symmetry; apply Z.eqb_eq; lia).
    rewrite true_divide_finite by assumption. cbn [np.eq0].
    match goal with
    | |- context [Qeq_bool ?q 0] => replace (Qeq_bool q 0) with false; [reflexivity|]
    end.
    symmetry. apply not_true_iff_false. intros E. apply Qeq_bool_iff in E.
    apply count_ratio_zero in E. lia.
Qed.

(** When the last cut point is on the largest sample, the psi of a dataset
    against itself is never 0: it is a number above 0 or plus infinity,
    since the samples equal to the maximum count for the expected side of
    the last group only. *)
Theorem self_psi_is_positive (a e g : pyobj) (self self' : PSIAnalyzer)
  (w : list string) (total : float64 R) (values : list_ref) (cps : list Q) :
  __init__ a e g = Ok (self, w) ->
  expected self = actual self ->
  _psi_calculator self = (Ok (total, values), self') ->
  cut_points self' = Some cps ->
  list_max (actual self) <= nth (Z.to_nat (group self)) cps 0 ->
  total = PosInf \/ exists r : R, total = Fin r /\ (0 < r)%R.
Proof.
  intros Hinit Hsame Hrun Hcps Hreach.
  destruct (init_inv _ _ _ _ _ Hinit) as (k & -> & Hk & ->).
  destruct (first_call_inv _ _ _ _ _ Hk Hrun) as (Ha & Hr & -> & Hret).
  cbn [actual expected group fresh] in *.
  rewrite first_cut_points in Hcps. injection Hcps as <-.
  assert (Ht : total
               = np.sum (group_psi_values
                           (first_scored (as_array a) (as_array e) k)))
    by now injection Hret.
  clear Hret. subst total. rewrite Hsame in *.
  pose proof (first_contributions_nonneg (as_array a) (as_array a) k Ha Ha)
    as Hnn.
  pose proof (sum_nonneg _ Hnn) as Hs.
  destruct (np.sum _) as [r| | |] eqn:Esum; cbn in Hs; try contradiction;
    [|now left].
  right. exists r. split; [reflexivity|].
  destruct Hs as [Hpos|Hzero]; [exact Hpos|]. exfalso. subst r.
  apply sum_zero_iff in Esum; [|assumption].
  rewrite Forall_forall in Esum.
  destruct (last_group_differs (as_array a) k Ha ltac:(lia) Hreach)
    as (ca & ce & Hlt & Eca & Ece).
  assert (Hi : (Z.to_nat k - 1 < Z.to_nat k)%nat) by lia.
  assert (Hin : In (group_psi_at (cut_points_of (as_array a) k) (as_array a)
                      (as_array a) (List.length (as_array a))
                      (List.length (as_array a)) k (Z.to_nat k - 1))
                   (group_psi_values (first_scored (as_array a) (as_array a) k))).
  { rewrite first_group_psi_values. apply in_map. unfold group_indices.
    apply in_seq. lia. }
  apply Esum in Hin. unfold group_psi_at in Hin. rewrite Eca, Ece in Hin.
  apply contribution_zero_iff in Hin.
  - apply count_ratio_eq in Hin. lia.
  - apply count_ratio_nonneg.
  - unfold Qlt. cbn [Qnum Qden]. lia.
Qed.

Lemma self_psi_is_positive_witness :
  __init__ (PyList one_to_ten) (PyList one_to_ten) (PyInt 2)
    = Ok (fresh one_to_ten one_to_ten 2, []) /\
  expected (fresh one_to_ten one_to_ten 2) = actual (fresh one_to_ten one_to_ten 2) /\
  _psi_calculator (fresh one_to_ten one_to_ten 2) =
    (Ok (returned (first_scored one_to_ten one_to_ten 2)),
     first_scored one_to_ten one_to_ten 2) /\
  cut_points (first_scored one_to_ten one_to_ten 2)
    = Some (cut_points_of one_to_ten 2) /\
  list_max (actual (fresh one_to_ten one_to_ten 2))
    <= nth (Z.to_nat (group (fresh one_to_ten one_to_ten 2)))
           (cut_points_of one_to_ten 2) 0 /\
  (fst (returned (first_scored one_to_ten one_to_ten 2)) = PosInf \/
   exists r : R,
     fst (returned (first_scored one_to_ten one_to_ten 2)) = Fin r /\ (0 < r)%R).
Proof.
  split; [reflexivity|]. split; [reflexivity|].
  split; [exact first_call_one_to_ten|]. split; [reflexivity|].
  split; [now vm_compute|].
  apply (self_psi_is_positive (PyList one_to_ten) (PyList one_to_ten) (PyInt 2)
           (fresh one_to_ten one_to_ten 2) (first_scored one_to_ten one_to_ten 2)
           [] (fst (returned (first_scored one_to_ten one_to_ten 2)))
           (snd (returned (first_scored one_to_ten one_to_ten 2)))
           (cut_points_of one_to_ten 2));
    [reflexivity | reflexivity | exact first_call_one_to_ten | reflexivity
    | now vm_compute].
Defined.

(** ** Counting the expected samples over the groups *)

Lemma expected_perc_at_count (cps e : list Q) (k : Z) (i : nat) :
  e <> [] ->
  expected_perc_at cps e (List.length e) k i =
    match expected_count_at cps e k i with
    | O => Fin floor_constant
    | S _ => Fin (Z.of_nat (expected_count_at cps e k i) # Pos.of_nat (List.length e))
    end.
Proof.
  intros He. pose proof (length_nonzero e He) as Hlen.
  unfold expected_perc_at, expected_count_at.
  destruct (Z.of_nat i + 1 =? k)%Z;
    rewrite true_divide_finite by assumption; cbn [np.eq0];
    match goal with
    | |- context [count_mask ?p e] => generalize (count_mask p e)
    end; intros c; destruct c as [|c].
  - reflexivity.
  - replace (Qeq_bool _ 0) with false; [reflexivity|].
    symmetry. apply not_true_iff_false. intros E. apply Qeq_bool_iff in E.
    apply count_ratio_zero in E. discriminate.
  - reflexivity.
  - replace (Qeq_bool _ 0) with false; [reflexivity|].
    symmetry. apply not_true_iff_false. intros E. apply Qeq_bool_iff in E.
    apply count_ratio_zero in E. discriminate.
Qed.

Lemma count_split_closed (lo mid hi : Q) (a : list Q) :
  lo <= mid -> mid <= hi ->
  (count_mask (in_group lo mid) a
   + count_mask (fun x => Qle_bool mid x && Qle_bool x hi)%bool a
   = count_mask (fun x => Qle_bool lo x && Qle_bool x hi)%bool a)%nat.
Proof.
  intros H1 H2. induction a as [|x a IH]; [reflexivity|].
  rewrite !count_mask_cons, <- IH.
  assert (E : ((if in_group lo mid x then 1 else 0)
               + (if (Qle_bool mid x && Qle_bool x hi)%bool then 1 else 0)
               = if (Qle_bool lo x && Qle_bool x hi)%bool then 1 else 0)%nat).
  { destruct (in_group lo mid x) eqn:E1,
             (Qle_bool mid x && Qle_bool x hi)%bool eqn:E2,
             (Qle_bool lo x && Qle_bool x hi)%bool eqn:E3;
      try reflexivity; exfalso;
      repeat match goal with
             | H : in_group _ _ _ = true |- _ => apply in_group_true in H
             | H : in_group _ _ _ = false |- _ =>
                 apply not_true_iff_false in H; rewrite in_group_true in H
             | H : (_ && _)%bool = true |- _ =>
                 apply andb_true_iff in H; rewrite !Qle_bool_iff in H
             | H : (_ && _)%bool = false |- _ =>
                 apply not_true_iff_false in H;
                 rewrite andb_true_iff, !Qle_bool_iff in H
             end.
    - destruct E1, E2. Lqa.lra.
    - destruct E1, E2. Lqa.lra.
    - apply E3. destruct E1. split; Lqa.lra.
    - apply E3. destruct E2. split; Lqa.lra.
    - destruct E3 as [E3 E3']. destruct (Qlt_le_dec x mid) as [Hx|Hx].
      + apply E1. now split.
      + apply E2. now split. }
  lia.
Qed.

Lemma expected_counts_total (a e : list Q) (k : Z) :
  a <> [] -> (1 <= k)%Z ->
  list_sum (map (expected_count_at (cut_points_of a k) e k) (group_indices k))
  = between (list_min a) (nth (Z.to_nat k) (cut_points_of a k) 0) e.
Proof.
  intros Ha Hk. set (cps := cut_points_of a k). unfold group_indices.
  replace (Z.to_nat k) with (S (Z.to_nat k - 1)) by lia.
  set (m := (Z.to_nat k - 1)%nat).
  assert (Hm : S m = Z.to_nat k) by (unfold m; lia).
  rewrite seq_S, map_app, list_sum_app. cbn [Nat.add map].
  unfold list_sum at 2. cbn [fold_right]. rewrite Nat.add_0_r.
  assert (Hsteps : forall i : nat,
             (i < S m)%nat -> nth i cps 0 <= nth (S i) cps 0).
  { intros i Hi. apply cut_points_of_step; try assumption; lia. }
  assert (Hfirst : map (expected_count_at cps e k) (seq 0 m)
                   = map (fun i => count_mask
                                     (in_group (nth i cps 0) (nth (S i) cps 0)) e)
                         (seq 0 m)).
  { apply map_ext_in. intros i Hi. apply in_seq in Hi.
    unfold expected_count_at.
    replace (Z.of_nat i + 1 =? k)%Z with false; [reflexivity|].
    symmetry. apply Z.eqb_neq. lia. }
  rewrite Hfirst, counts_telescope by (intros i Hi; apply Hsteps; lia).
  unfold expected_count_at.
  replace (Z.of_nat m + 1 =? k)%Z with true by (symmetry; apply Z.eqb_eq; lia).
  rewrite count_split_closed.
  - unfold between. apply count_mask_ext. intros x _.
    assert (H0 : nth 0 cps 0 == list_min a)
      by (apply cut_points_of_first; try assumption; lia).
    cbv beta. f_equal. apply eq_true_iff_eq.
    rewrite !Qle_bool_iff, H0. reflexivity.
  - apply steps_monotone. intros i Hi. apply Hsteps. lia.
  - apply Hsteps. lia.
Qed.

Lemma total_of_floored (c : nat -> nat) (len : nat) (idx : list nat) :
  len <> O ->
  exists q : Q,
    total_of (map (fun i => match c i with
                            | O => Fin floor_constant
                            | S _ => Fin (Z.of_nat (c i) # Pos.of_nat len)
                            end) idx) = Some q /\
    (Z.of_nat (list_sum (map c idx)) # Pos.of_nat len) <= q /\
    ((forall i : nat, In i idx -> c i <> O) ->
     q == Z.of_nat (list_sum (map c idx)) # Pos.of_nat len).
Proof.
  intros Hlen. induction idx as [|i idx (q & Hq & Hle & Heq)].
  - exists 0. split; [reflexivity|].
    split; [unfold Qle | intros _; unfold Qeq]; cbn; lia.
  - change (list_sum (map c (i :: idx))) with (c i + list_sum (map c idx))%nat.
    cbn [map total_of].
    destruct (c i) as [|n] eqn:Ec; rewrite Hq; cbn [option_map];
      eexists; (split; [reflexivity|]); split.
    + cbn [Nat.add]. pose proof floor_constant_positive. Lqa.lra.
    + intros H. exfalso. apply (H i); [now left | exact Ec].
    + rewrite Nat2Z.inj_add, <- Qmake_plus_same.
      apply Qplus_le_compat; [apply Qle_refl | exact Hle].
    + intros H. rewrite Nat2Z.inj_add, <- Qmake_plus_same.
      rewrite Heq; [reflexivity|]. intros j Hj. apply H. now right.
Qed.

(** The expected proportions of a first call sum to at least the share of
    the expected samples that lie between the smallest actual sample and
    the last cut point, and to exactly that share when every group holds an
    expected sample: an expected sample under the smallest actual one, or
    above the last cut point, is counted in no group. *)
Theorem expected_proportions_sum (a e g : pyobj) (self self' : PSIAnalyzer)
  (w : list string) (r : float64 R * list_ref) :
  __init__ a e g = Ok (self, w) ->
  expected self <> [] ->
  _psi_calculator self = (Ok r, self') ->
  exists (cps : list Q) (last_cut q : Q),
    cut_points self' = Some cps /\
    last_cut = nth (Z.to_nat (group self)) cps 0 /\
    total_of (expected_percentages self') = Some q /\
    (Z.of_nat (between (list_min (actual self)) last_cut (expected self))
       # Pos.of_nat (List.length (expected self))) <= q /\
    ((forall i : nat, (i < Z.to_nat (group self))%nat ->
        expected_count_at cps (expected self) (group self) i <> O) ->
     q == Z.of_nat (between (list_min (actual self)) last_cut (expected self))
          # Pos.of_nat (List.length (expected self)) /\
     q <= 1 /\
     (q == 1 <->
      Forall (fun x => list_min (actual self) <= x /\ x <= last_cut)
             (expected self))).
Proof.
  intros Hinit He Hrun.
  destruct (init_inv _ _ _ _ _ Hinit) as (k & -> & Hk & ->).
  destruct (first_call_inv _ _ _ _ _ Hk Hrun) as (Ha & Hr & -> & _).
  cbn [actual expected group fresh] in *.
  set (arr := as_array a) in *. set (exp := as_array e) in *.
  set (cps := cut_points_of arr k).
  pose proof (length_nonzero exp He) as Hlen.
  destruct (total_of_floored (expected_count_at cps exp k) (List.length exp)
              (group_indices k) Hlen) as (q & Hq & Hle & Heq).
  exists cps, (nth (Z.to_nat k) cps 0), q.
  split; [reflexivity|]. split; [reflexivity|].
  set (share := between (list_min arr) (nth (Z.to_nat k) cps 0) exp).
  assert (Hsum : list_sum (map (expected_count_at cps exp k) (group_indices k))
                 = share)
    by (apply expected_counts_total; [assumption | lia]).
  rewrite Hsum in Hle, Heq.
  split.
  { rewrite first_expected_percentages, <- Hq. f_equal.
    apply map_ext. intros i. now apply expected_perc_at_count. }
  split; [exact Hle|]. intros Hfull.
  assert (Hq' : q == Z.of_nat share # Pos.of_nat (List.length exp)).
  { apply Heq. intros i Hi. apply Hfull. unfold group_indices in Hi.
    apply in_seq in Hi. lia. }
  pose proof (count_mask_le
                (fun x => Qle_bool (list_min arr) x
                          && Qle_bool x (nth (Z.to_nat k) cps 0))%bool
                exp) as Hbound.
  fold (between (list_min arr) (nth (Z.to_nat k) cps 0) exp) in Hbound.
  fold share in Hbound.
  assert (Hone : forall c : nat,
             Z.of_nat c # Pos.of_nat (List.length exp) == 1
             <-> c = List.length exp).
  { intros c. unfold Qeq. cbn [Qnum Qden]. rewrite Z.mul_1_r, Z.mul_1_l.
    destruct (List.length exp) as [|n]; [contradiction|].
    rewrite <- Pos.of_nat_succ, Zpos_P_of_succ_nat. lia. }
  split; [exact Hq'|]. split.
  - rewrite Hq'. destruct (Nat.eq_dec share (List.length exp)) as [E|E].
    + apply Hone in E. rewrite E. apply Qle_refl.
    + apply Qlt_le_weak, count_ratio_below_one. lia.
  - rewrite Hq', Hone. unfold share, between. rewrite count_mask_all.
    rewrite Forall_forall. split; intros H x Hx; specialize (H x Hx).
    + apply andb_true_iff in H. now rewrite !Qle_bool_iff in H.
    + apply andb_true_iff. now rewrite !Qle_bool_iff.
Qed.

Lemma first_call_beyond :
  _psi_calculator (fresh one_to_four beyond 2) =
    (Ok (returned (first_scored one_to_four beyond 2)),
     first_scored one_to_four beyond 2).
Proof. apply first_call; [discriminate | lia | reflexivity]. Qed.

Lemma expected_proportions_sum_witness :
  __init__ (PyList one_to_four) (PyList beyond) (PyInt 2)
    = Ok (fresh one_to_four beyond 2, []) /\
  expected (fresh one_to_four beyond 2) <> [] /\
  _psi_calculator (fresh one_to_four beyond 2) =
    (Ok (returned (first_scored one_to_four beyond 2)),
     first_scored one_to_four beyond 2) /\
  exists (cps : list Q) (last_cut q : Q),
    cut_points (first_scored one_to_four beyond 2) = Some cps /\
    last_cut = nth (Z.to_nat (group (fresh one_to_four beyond 2))) cps 0 /\
    total_of (expected_percentages (first_scored one_to_four beyond 2)) = Some q /\
    (Z.of_nat (between (list_min (actual (fresh one_to_four beyond 2))) last_cut
                 (expected (fresh one_to_four beyond 2)))
       # Pos.of_nat (List.length (expected (fresh one_to_four beyond 2)))) <= q /\
    ((forall i : nat, (i < Z.to_nat (group (fresh one_to_four beyond 2)))%nat ->
        expected_count_at cps (expected (fresh one_to_four beyond 2))
          (group (fresh one_to_four beyond 2)) i <> O) ->
     q == Z.of_nat (between (list_min (actual (fresh one_to_four beyond 2)))
                      last_cut (expected (fresh one_to_four beyond 2)))
          # Pos.of_nat (List.length (expected (fresh one_to_four beyond 2))) /\
     q <= 1 /\
     (q == 1 <->
      Forall (fun x => list_min (actual (fresh one_to_four beyond 2)) <= x /\
                       x <= last_cut)
             (expected (fresh one_to_four beyond 2)))).
Proof.
  split; [reflexivity|]. split; [discriminate|].
  split; [exact first_call_beyond|].
  apply (expected_proportions_sum (PyList one_to_four) (PyList beyond) (PyInt 2)
           (fresh one_to_four beyond 2) (first_scored one_to_four beyond 2)
           [] (returned (first_scored one_to_four beyond 2)));
    [reflexivity | discriminate | exact first_call_beyond].
Defined.

(** On [one_to_four] against [beyond] no group is floored, and the two
    expected samples outside the range of the actual ones are missing from
    the proportions. *)
Lemma beyond_proportions :
  expected_percentages (first_scored one_to_four beyond 2)
    = [Fin (1 # 4); Fin (1 # 4)] /\
  between (list_min one_to_four) (nth 2 (cut_points_of one_to_four 2) 0) beyond
    = 2%nat /\
  (forall i : nat, (i < 2)%nat ->
     expected_count_at (cut_points_of one_to_four 2) beyond 2 i <> O).
Proof.
  split; [now vm_compute|]. split; [now vm_compute|].
  intros i Hi. destruct i as [|[|i]]; [now vm_compute | now vm_compute | lia].
Qed.

(** ** The order of the samples *)

Lemma Qle_bool_Qeq (x x' y y' : Q) :
  x == x' -> y == y' -> Qle_bool x y = Qle_bool x' y'.
Proof.
  intros Hx Hy. apply eq_true_iff_eq. rewrite !Qle_bool_iff, Hx, Hy. reflexivity.
Qed.

Lemma Qltb_Qeq (x x' y y' : Q) :
  x == x' -> y == y' -> Qltb x y = Qltb x' y'.
Proof. intros Hx Hy. unfold Qltb. f_equal. now apply Qle_bool_Qeq. Qed.

Lemma pointwise_refl (l : list Q) : Forall2 Qeq l l.
Proof. induction l; constructor; [reflexivity | assumption]. Qed.

Lemma pointwise_trans (l1 l2 l3 : list Q) :
  Forall2 Qeq l1 l2 -> Forall2 Qeq l2 l3 -> Forall2 Qeq l1 l3.
Proof.
  intros H. revert l3. induction H as [|x y l l' Hxy H IH]; intros l3 H3.
  - inversion H3. constructor.
  - inversion H3 as [|y' z l2' l3' Hyz H3']; subst. constructor.
    + now rewrite Hxy.
    + now apply IH.
Qed.

Lemma pointwise_nth (l l' : list Q) (i : nat) :
  Forall2 Qeq l l' -> nth i l 0 == nth i l' 0.
Proof.
  intros H. revert i. induction H as [|x y l l' Hxy H IH]; intros i.
  - reflexivity.
  - destruct i as [|i]; [exact Hxy | apply IH].
Qed.

Lemma insert_pointwise (x : Q) (l l' : list Q) :
  Forall2 Qeq l l' -> Forall2 Qeq (np.insert x l) (np.insert x l').
Proof.
  induction 1 as [|y y' l l' Hy H IH]; cbn [np.insert].
  - apply pointwise_refl.
  - rewrite (Qle_bool_Qeq x x y y' (Qeq_refl x) Hy).
    destruct (Qle_bool x y').
    + constructor; [reflexivity|]. now constructor.
    + now constructor.
Qed.

Lemma insert_swap (x y : Q) (l : list Q) :
  Forall2 Qeq (np.insert x (np.insert y l)) (np.insert y (np.insert x l)).
Proof.
  induction l as [|z l IH]; cbn [np.insert].
  - destruct (Qle_bool x y) eqn:Exy, (Qle_bool y x) eqn:Eyx;
      try apply pointwise_refl.
    + apply Qle_bool_iff in Exy, Eyx.
      assert (E : x == y) by now apply Qle_antisym.
      repeat constructor; [exact E | now symmetry].
    + apply Qle_bool_false in Exy, Eyx. exfalso. Lqa.lra.
  - destruct (Qle_bool y z) eqn:Eyz, (Qle_bool x z) eqn:Exz; cbn [np.insert];
      rewrite ?Eyz, ?Exz.
    + destruct (Qle_bool x y) eqn:Exy, (Qle_bool y x) eqn:Eyx;
        try apply pointwise_refl.
      * apply Qle_bool_iff in Exy, Eyx.
        assert (E : x == y) by now apply Qle_antisym.
        constructor; [exact E|]. constructor; [now symmetry|].
        apply pointwise_refl.
      * apply Qle_bool_false in Exy, Eyx. exfalso. Lqa.lra.
    + assert (Exy : Qle_bool x y = false).
      { apply Qle_bool_false. apply Qle_bool_iff in Eyz.
        apply Qle_bool_false in Exz. Lqa.lra. }
      rewrite Exy. apply pointwise_refl.
    + assert (Eyx : Qle_bool y x = false).
      { apply Qle_bool_false. apply Qle_bool_iff in Exz.
        apply Qle_bool_false in Eyz. Lqa.lra. }
      rewrite Eyx. apply pointwise_refl.
    + constructor; [reflexivity | exact IH].
Qed.

(** Sorting two arrangements of the same samples gives the same array,
    up to the representation of each rational. *)
Lemma sort_pointwise (a a' : list Q) :
  Permutation a a' -> Forall2 Qeq (np.sort a) (np.sort a').
Proof.
  induction 1 as [|x l l' H IH|x y l|l1 l2 l3 H1 IH1 H2 IH2].
  - constructor.
  - change (Forall2 Qeq (np.insert x (np.sort l)) (np.insert x (np.sort l'))).
    now apply insert_pointwise.
  - change (Forall2 Qeq (np.insert y (np.insert x (np.sort l)))
              (np.insert x (np.insert y (np.sort l)))).
    apply insert_swap.
  - now apply (pointwise_trans _ (np.sort l2)).
Qed.

Lemma linear_quantile_pointwise (arr arr' : list Q) (q : Q) :
  Forall2 Qeq arr arr' ->
  np.linear_quantile arr q == np.linear_quantile arr' q.
Proof.
  intros H. unfold np.linear_quantile.
  rewrite <- (Forall2_length H).
  destruct (Qle_bool _ _).
  - rewrite !last_nth, <- (Forall2_length H). now apply pointwise_nth.
  - destruct (Qltb _ 0).
    + rewrite !hd_nth0. now apply pointwise_nth.
    + unfold np.lerp.
      rewrite (pointwise_nth arr arr' _ H).
      rewrite (pointwise_nth arr arr' (Z.to_nat (Qfloor _ + 1)) H).
      reflexivity.
Qed.

Lemma cut_points_of_pointwise (a a' : list Q) (k : Z) (i : nat) :
  Permutation a a' ->
  nth i (cut_points_of a k) 0 == nth i (cut_points_of a' k) 0.
Proof.
  intros H. destruct (Nat.lt_ge_cases i (Z.to_nat (k + 1))) as [Hi|Hi].
  - rewrite !cut_points_of_nth by assumption.
    apply linear_quantile_pointwise. now apply sort_pointwise.
  - rewrite !nth_overflow by (now rewrite cut_points_of_length). reflexivity.
Qed.

Lemma count_mask_permutation (p q : Q -> bool) (l l' : list Q) :
  (forall x : Q, p x = q x) -> Permutation l l' ->
  count_mask p l = count_mask q l'.
Proof.
  intros Hpq H. induction H as [|x l l' H IH|x y l|l1 l2 l3 H1 IH1 H2 IH2].
  - reflexivity.
  - rewrite !count_mask_cons, IH, Hpq. reflexivity.
  - rewrite !count_mask_cons, !Hpq.
    rewrite (count_mask_ext p q l) by (intros; apply Hpq). lia.
  - rewrite IH1. rewrite <- IH2. symmetry. apply count_mask_ext.
    intros; apply Hpq.
Qed.

Lemma actual_perc_at_permutation (cps cps' a a' : list Q) (i : nat) :
  (forall j : nat, nth j cps 0 == nth j cps' 0) -> Permutation a a' ->
  actual_perc_at cps a (List.length a) i
  = actual_perc_at cps' a' (List.length a') i.
Proof.
  intros Hc H. unfold actual_perc_at.
  rewrite <- (Permutation_length H). f_equal.
  apply count_mask_permutation; [|exact H]. intros x.
  rewrite (Qle_bool_Qeq _ _ _ _ (Hc i) (Qeq_refl x)).
  now rewrite (Qltb_Qeq _ _ _ _ (Qeq_refl x) (Hc (S i))).
Qed.

Lemma expected_perc_at_permutation (cps cps' e e' : list Q) (k : Z) (i : nat) :
  (forall j : nat, nth j cps 0 == nth j cps' 0) -> Permutation e e' ->
  expected_perc_at cps e (List.length e) k i
  = expected_perc_at cps' e' (List.length e') k i.
Proof.
  intros Hc H. unfold expected_perc_at.
  rewrite <- (Permutation_length H).
  assert (E1 : count_mask
                 (fun x => Qle_bool (nth i cps 0) x && Qle_bool x (nth (S i) cps 0))%bool e
               = count_mask
                   (fun x => Qle_bool (nth i cps' 0) x
                             && Qle_bool x (nth (S i) cps' 0))%bool e').
  { apply count_mask_permutation; [|exact H]. intros x.
    rewrite (Qle_bool_Qeq _ _ _ _ (Hc i) (Qeq_refl x)).
    now rewrite (Qle_bool_Qeq _ _ _ _ (Qeq_refl x) (Hc (S i))). }
  assert (E2 : count_mask
                 (fun x => Qle_bool (nth i cps 0) x && Qltb x (nth (S i) cps 0))%bool e
               = count_mask
                   (fun x => Qle_bool (nth i cps' 0) x
                             && Qltb x (nth (S i) cps' 0))%bool e').
  { apply count_mask_permutation; [|exact H]. intros x.
    rewrite (Qle_bool_Qeq _ _ _ _ (Hc i) (Qeq_refl x)).
    now rewrite (Qltb_Qeq _ _ _ _ (Qeq_refl x) (Hc (S i))). }
  now rewrite E1, E2.
Qed.

(** The order of the samples of either dataset changes nothing: two
    objects built from rearrangements of the same datasets raise the same
    error or return the same psi, with the same proportions and
    contributions appended. *)
Theorem psi_ignores_sample_order (a e a' e' g : pyobj)
  (self1 self2 : PSIAnalyzer) (w1 w2 : list string) :
  __init__ a e g = Ok (self1, w1) ->
  __init__ a' e' g = Ok (self2, w2) ->
  Permutation (actual self1) (actual self2) ->
  Permutation (expected self1) (expected self2) ->
  fst (_psi_calculator self1) = fst (_psi_calculator self2) /\
  actual_percentages (snd (_psi_calculator self1))
    = actual_percentages (snd (_psi_calculator self2)) /\
  expected_percentages (snd (_psi_calculator self1))
    = expected_percentages (snd (_psi_calculator self2)) /\
  group_psi_values (snd (_psi_calculator self1))
    = group_psi_values (snd (_psi_calculator self2)).
Proof.
  intros Hinit1 Hinit2 Hpa Hpe.
  destruct (init_inv _ _ _ _ _ Hinit1) as (k & -> & Hk & ->).
  destruct (init_inv _ _ _ _ _ Hinit2) as (k' & [= <-] & _ & ->).
  cbn [actual expected group fresh] in *.
  set (x := as_array a) in *. set (x' := as_array a') in *.
  set (y := as_array e) in *. set (y' := as_array e') in *.
  destruct (ranks_accepted k) eqn:Hr.
  2:{ rewrite !first_call_rejected by assumption. now repeat split. }
  destruct x as [|x0 xs] eqn:Ex.
  { apply Permutation_nil in Hpa. rewrite Hpa.
    rewrite !first_call_empty_actual by assumption. now repeat split. }
  rewrite <- Ex in *.
  assert (Hx : x <> []) by (rewrite Ex; discriminate).
  assert (Hx' : x' <> []).
  { intros E. rewrite E in Hpa. apply Permutation_sym, Permutation_nil in Hpa.
    contradiction. }
  rewrite !first_call by assumption. cbn [fst snd].
  assert (Hc : forall j : nat,
             nth j (cut_points_of x k) 0 == nth j (cut_points_of x' k) 0)
    by (intros j; now apply cut_points_of_pointwise).
  assert (Hap : actual_percentages (first_scored x y k)
                = actual_percentages (first_scored x' y' k)).
  { rewrite !first_actual_percentages. apply map_ext. intros i.
    now apply actual_perc_at_permutation. }
  assert (Hep : expected_percentages (first_scored x y k)
                = expected_percentages (first_scored x' y' k)).
  { rewrite !first_expected_percentages. apply map_ext. intros i.
    now apply expected_perc_at_permutation. }
  assert (Hg : group_psi_values (first_scored x y k)
               = group_psi_values (first_scored x' y' k)).
  { rewrite !first_group_psi_values. apply map_ext. intros i.
    unfold group_psi_at.
    rewrite (actual_perc_at_permutation _ _ _ _ i Hc Hpa).
    now rewrite (expected_perc_at_permutation _ _ _ _ k i Hc Hpe). }
  unfold returned. rewrite Hg. now repeat split.
Qed.

Lemma psi_ignores_sample_order_witness :
  __init__ (PyList one_to_four) (PyList mostly_ones) (PyInt 2)
    = Ok (fresh one_to_four mostly_ones 2, []) /\
  __init__ (PyList four_to_one) (PyList three_and_ones) (PyInt 2)
    = Ok (fresh four_to_one three_and_ones 2, []) /\
  Permutation (actual (fresh one_to_four mostly_ones 2))
              (actual (fresh four_to_one three_and_ones 2)) /\
  Permutation (expected (fresh one_to_four mostly_ones 2))
              (expected (fresh four_to_one three_and_ones 2)) /\
  fst (_psi_calculator (fresh one_to_four mostly_ones 2))
    = fst (_psi_calculator (fresh four_to_one three_and_ones 2)) /\
  actual_percentages (snd (_psi_calculator (fresh one_to_four mostly_ones 2)))
    = actual_percentages
        (snd (_psi_calculator (fresh four_to_one three_and_ones 2))) /\
  expected_percentages (snd (_psi_calculator (fresh one_to_four mostly_ones 2)))
    = expected_percentages
        (snd (_psi_calculator (fresh four_to_one three_and_ones 2))) /\
  group_psi_values (snd (_psi_calculator (fresh one_to_four mostly_ones 2)))
    = group_psi_values
        (snd (_psi_calculator (fresh four_to_one three_and_ones 2))).
Proof.
  split; [reflexivity|]. split; [reflexivity|].
  split; [apply Permutation_rev|]. split; [apply Permutation_rev|].
  apply (psi_ignores_sample_order
           (PyList one_to_four) (PyList mostly_ones)
           (PyList four_to_one) (PyList three_and_ones) (PyInt 2)
           (fresh one_to_four mostly_ones 2) (fresh four_to_one three_and_ones 2)
           [] []);
    [reflexivity | reflexivity | apply Permutation_rev | apply Permutation_rev].
Defined.

(** ** What the constructor builds *)

(** A constructor that succeeds has stored the two datasets as arrays and
    the group count, with every derived attribute empty; it has warned, once,
    exactly when the group count is above 25, and the warning does not keep
    the object from being built. *)
Theorem constructor_result (a e g : pyobj) (self : PSIAnalyzer)
  (w : list string) :
  __init__ a e g = Ok (self, w) ->
  exists k : Z,
    g = PyInt k /\
    self = fresh (as_array a) (as_array e) k /\
    ((25 < k)%Z -> w = [group_warning]) /\
    ((k <= 25)%Z -> w = []).
Proof.
  intros H. destruct (init_inv _ _ _ _ _ H) as (k & -> & Hk & ->).
  exists k. split; [reflexivity|]. split; [reflexivity|].
  unfold __init__ in H.
  destruct (list_like a); [|discriminate].
  destruct (list_like e); [|discriminate]. cbn [negb] in H.
  replace (k <? 2)%Z with false in H by (symmetry; apply Z.ltb_ge; lia).
  assert (Hw : w = if (25 <? k)%Z then [group_warning] else [])
    by now injection H.
  clear H. subst w. split; intros Hc.
  - now replace (25 <? k)%Z with true by (symmetry; apply Z.ltb_lt; lia).
  - now replace (25 <? k)%Z with false by (symmetry; apply Z.ltb_ge; lia).
Qed.

Lemma constructor_result_witness :
  __init__ (PyList one_to_ten) (PyList one_to_ten) (PyInt 26)
    = Ok (fresh one_to_ten one_to_ten 26, [group_warning]) /\
  exists k : Z,
    PyInt 26 = PyInt k /\
    fresh one_to_ten one_to_ten 26
      = fresh (as_array (PyList one_to_ten)) (as_array (PyList one_to_ten)) k /\
    ((25 < k)%Z -> [group_warning] = [group_warning]) /\
    ((k <= 25)%Z -> [group_warning] = []).
Proof.
  split; [reflexivity|].
  apply (constructor_result (PyList one_to_ten) (PyList one_to_ten) (PyInt 26)
           (fresh one_to_ten one_to_ten 26) [group_warning]).
  reflexivity.
Defined.

(** * The cut points and the largest sample *)

(** For 97 groups [np.percentile] accepts every rank although the last one
    falls short of 100 in binary64; for two, three and ten groups the last
    quantile is 1. *)
Lemma last_quantile_examples :
  ranks_accepted 97 = true /\ maximum_reached 97 = false /\
  maximum_reached 2 = true /\ maximum_reached 3 = true /\
  maximum_reached 10 = true.
Proof. repeat split; reflexivity. Qed.

(** The cut points of a non-empty dataset, for every group count whose
    ranks [np.percentile] accepts: one more than the groups, non-decreasing,
    the first on the smallest sample, none outside the samples, and the
    last on the largest sample when the last quantile is 1 in binary64. *)
Theorem cut_points_spec (a e g : pyobj) (self : PSIAnalyzer) (w : list string) :
  __init__ a e g = Ok (self, w) ->
  actual self <> [] ->
  ranks_accepted (group self) = true ->
  exists (self' : PSIAnalyzer) (cps : list Q),
    group_creator self = (Ok tt, self') /\
    cut_points self' = Some cps /\
    List.length cps = Z.to_nat (group self + 1) /\
    (forall i : nat,
        (S i < List.length cps)%nat -> nth i cps 0 <= nth (S i) cps 0) /\
    nth 0 cps 0 == list_min (actual self) /\
    (forall c : Q, In c cps ->
        list_min (actual self) <= c /\ c <= list_max (actual self)) /\
    (maximum_reached (group self) = true ->
     nth (Z.to_nat (group self)) cps 0 == list_max (actual self)).
Proof.
  intros Hinit Ha Hr.
  destruct (init_inv _ _ _ _ _ Hinit) as (k & -> & Hk & ->).
  cbn [actual expected group fresh] in *.
  exists (grouped (fresh (as_array a) (as_array e) k)),
         (cut_points_of (as_array a) k).
  split; [apply group_creator_run; cbn; try assumption; lia|].
  split; [reflexivity|].
  split; [apply cut_points_of_length|].
  split.
  { intros i Hi. rewrite cut_points_of_length in Hi.
    apply cut_points_of_step; try assumption; lia. }
  split; [apply cut_points_of_first; try assumption; lia|].
  split.
  { intros c Hc. apply (cut_points_of_bounds (as_array a) k);
      try assumption; lia. }
  intros _. apply cut_points_of_last; try assumption; lia.
Qed.

Lemma cut_points_spec_witness :
  __init__ (PyList one_to_ten) (PyList one_to_ten) (PyInt 2)
    = Ok (fresh one_to_ten one_to_ten 2, []) /\
  actual (fresh one_to_ten one_to_ten 2) <> [] /\
  ranks_accepted (group (fresh one_to_ten one_to_ten 2)) = true /\
  exists (self' : PSIAnalyzer) (cps : list Q),
    group_creator (fresh one_to_ten one_to_ten 2) = (Ok tt, self') /\
    cut_points self' = Some cps /\
    List.length cps = Z.to_nat (group (fresh one_to_ten one_to_ten 2) + 1) /\
    (forall i : nat,
        (S i < List.length cps)%nat -> nth i cps 0 <= nth (S i) cps 0) /\
    nth 0 cps 0 == list_min (actual (fresh one_to_ten one_to_ten 2)) /\
    (forall c : Q, In c cps ->
        list_min (actual (fresh one_to_ten one_to_ten 2)) <= c /\
        c <= list_max (actual (fresh one_to_ten one_to_ten 2))) /\
    (maximum_reached (group (fresh one_to_ten one_to_ten 2)) = true ->
     nth (Z.to_nat (group (fresh one_to_ten one_to_ten 2))) cps 0
       == list_max (actual (fresh one_to_ten one_to_ten 2))).
Proof.
  split; [reflexivity|]. split; [discriminate|]. split; [reflexivity|].
  apply (cut_points_spec (PyList one_to_ten) (PyList one_to_ten) (PyInt 2)
           (fresh one_to_ten one_to_ten 2) []);
    [reflexivity | discriminate | reflexivity].
Defined.

(** The indices [group_creator] stores for the actual samples lie between 1
    and two more than the group count, and between 1 and one more than the
    group count when the last cut point reaches the largest sample. *)
Theorem actual_groups_range (a e g : pyobj) (self : PSIAnalyzer)
  (w : list string) :
  __init__ a e g = Ok (self, w) ->
  actual self <> [] ->
  ranks_accepted (group self) = true ->
  exists (self' : PSIAnalyzer) (cps : list Q),
    group_creator self = (Ok tt, self') /\
    cut_points self' = Some cps /\
    List.length (actual_groups self') = List.length (actual self) /\
    Forall (fun index => 1 <= index <= group self + 2)%Z (actual_groups self') /\
    (list_max (actual self) <= nth (Z.to_nat (group self)) cps 0 ->
     Forall (fun index => 1 <= index <= group self + 1)%Z
            (actual_groups self')).
Proof.
  intros Hinit Ha Hr.
  destruct (init_inv _ _ _ _ _ Hinit) as (k & -> & Hk & ->).
  cbn [actual expected group fresh] in *.
  exists (grouped (fresh (as_array a) (as_array e) k)),
         (cut_points_of (as_array a) k).
  split; [apply group_creator_run; cbn; try assumption; lia|].
  split; [reflexivity|].
  cbn [grouped actual_groups set_expected_groups set_actual_groups actual group
       fresh set_cut_points].
  unfold groups_of. split; [now rewrite !length_map|]. split.
  - apply Forall_forall. intros index Hin.
    apply in_map_iff in Hin. destruct Hin as (j & <- & Hin).
    apply in_map_iff in Hin. destruct Hin as (x & <- & Hx).
    pose proof (searchsorted_left_bound (cut_points_of (as_array a) k) x) as H.
    rewrite cut_points_of_length in H. lia.
  - intros Hreach. apply Forall_forall. intros index Hin.
    apply in_map_iff in Hin. destruct Hin as (j & <- & Hin).
    apply in_map_iff in Hin. destruct Hin as (x & <- & Hx).
    assert (H : (np.searchsorted_left (cut_points_of (as_array a) k) x
                 <= Z.to_nat k)%nat).
    { apply searchsorted_left_le.
      - rewrite cut_points_of_length. lia.
      - eapply Qle_trans; [|exact Hreach]. now apply list_max_ge. }
    lia.
Qed.

Lemma actual_groups_range_witness :
  __init__ (PyList one_to_ten) (PyList one_to_ten) (PyInt 2)
    = Ok (fresh one_to_ten one_to_ten 2, []) /\
  actual (fresh one_to_ten one_to_ten 2) <> [] /\
  ranks_accepted (group (fresh one_to_ten one_to_ten 2)) = true /\
  exists (self' : PSIAnalyzer) (cps : list Q),
    group_creator (fresh one_to_ten one_to_ten 2) = (Ok tt, self') /\
    cut_points self' = Some cps /\
    List.length (actual_groups self')
      = List.length (actual (fresh one_to_ten one_to_ten 2)) /\
    Forall (fun index => 1 <= index <= group (fresh one_to_ten one_to_ten 2) + 2)%Z
           (actual_groups self') /\
    (list_max (actual (fresh one_to_ten one_to_ten 2))
       <= nth (Z.to_nat (group (fresh one_to_ten one_to_ten 2))) cps 0 ->
     Forall (fun index => 1 <= index <= group (fresh one_to_ten one_to_ten 2) + 1)%Z
            (actual_groups self')).
Proof.
  split; [reflexivity|]. split; [discriminate|]. split; [reflexivity|].
  apply (actual_groups_range (PyList one_to_ten) (PyList one_to_ten) (PyInt 2)
           (fresh one_to_ten one_to_ten 2) []);
    [reflexivity | discriminate | reflexivity].
Defined.
